(** * The ledger posting engine of the accounting application

    A shallow embedding of [server/storage.ts] (the in-memory store
    [MemStorage]) and of the routes of [registerRoutes] (the text of
    [server/routes.ts] follows the journal page in
    [client/src/pages/journal.tsx], lines 227-753), of the grouping of the
    journal page and of the balance test of the accounting utilities,
    followed by their properties.

    Conventions of the embedding.

    - A JavaScript [number] is an IEEE 754 binary64 value: Rocq's primitive
      [float], whose [+], [-], [*] and comparisons are those of the
      hardware and round as JavaScript's do.  NaN and the infinities are
      values like any other.  Where a statement speaks of the exact value
      of a double it says so ([value], a rational).
    - Amounts are stored as decimal strings.  The only strings that ever
      reach those fields are literals such as ['0'] and the results of
      [Number.prototype.toString], and the only reader is [parseFloat];
      [numstr] is the type of such strings.  [parseFloat(x.toString())] is
      [x], except that -0 prints as ["0"] and so reads back as 0
      ([canon]).
    - A [Map<number, V>] is an association list in insertion order;
      [map_set] overwrites in place or appends, as [Map.prototype.set].
    - An [async] method is a computation over the store that is either
      fulfilled with a value or throws; the routes' [try]/[catch] is
      [tryCatch].
    - What is not code of the repository is a parameter: whether
      [fs.writeFile] writes or rejects ([WriteFile], awaited by
      [saveToFile] inside the [try] of every posting route),
      [Array.prototype.sort] ([Sort]), how a date is read ([getTime], which
      may give NaN) and formatted ([formatDate]).  [createdAt: new Date()]
      (the clock) is not modelled.
    - zod's [z.number()] refuses NaN; [.positive()] is [> 0], which
      lets Infinity through.
    - [loadFromFile] and [importData] replace the whole store by whatever
      they are given; the reachable stores below are those the three
      posting routes build from [new MemStorage()], whether the write to
      the file succeeds or not. *)

From Stdlib Require Import Floats QArith Qpower Lqa ZArith List String Bool.
From Stdlib Require Import Lia.
From Stdlib Require Import Permutation.
Import ListNotations.

Set Warnings "-inexact-float".

Local Open Scope string_scope.
Local Open Scope float_scope.

(** ** Numbers and decimal strings *)

Definition number : Type := float.

(** [parseFloat(x.toString())] *)
Definition canon (x : number) : number := if x =? 0 then 0 else x.

Record numstr : Type := NumStr { parseFloat : number }.

Definition toString (x : number) : numstr := NumStr (canon x).

(** [a > b], [a < b] and [a === b] on numbers. *)
Definition gt (a b : number) : bool := b <? a.
Definition lt (a b : number) : bool := a <? b.
Definition strictEq (a b : number) : bool := a =? b.


(** Number-level facts used by the properties: the sign bit and the
    finiteness of a double, and the rational a finite double stands for
    (0 for NaN and the infinities, which have none). *)
Definition signBit (x : number) : bool :=
  match Prim2SF x with
  | S754_zero s | S754_infinity s | S754_finite s _ _ => s
  | S754_nan => false
  end.

Definition isNaN (x : number) : bool :=
  match Prim2SF x with
  | S754_nan => true
  | _ => false
  end.

Definition isFinite (x : number) : bool :=
  match Prim2SF x with
  | S754_zero _ | S754_finite _ _ _ => true
  | S754_infinity _ | S754_nan => false
  end.

Definition value (x : number) : Q :=
  match Prim2SF x with
  | S754_finite s m e =>
      (inject_Z (if s then Z.neg m else Z.pos m) * Qpower (2 # 1) e)%Q
  | _ => 0%Q
  end.

Definition notNegative (x : number) : bool :=
  negb (isNaN x) && negb (signBit x).

Arguments toString x%_float.
Arguments value x%_float.
Arguments isFinite x%_float.

(** [new Date(s)]: only carried around, never inspected by the engine. *)
Definition Date : Type := string.
Definition newDate (s : string) : Date := s.

(** [x || d] on a nullable id: [null], [undefined] and [0] are falsy. *)
Definition orNull (x : option Z) : option Z :=
  match x with
  | Some n => if (n =? 0)%Z then None else Some n
  | None => None
  end.

(** [x ?? d] and, for decimal strings (never empty), [x || d]. *)
Definition orElse {A : Type} (x : option A) (d : A) : A :=
  match x with
  | Some a => a
  | None => d
  end.

(** ** [Map<number, V>] *)

Definition JsMap (V : Type) : Type := list (Z * V).

Fixpoint map_set {V : Type} (k : Z) (v : V) (m : JsMap V) : JsMap V :=
  match m with
  | [] => [(k, v)]
  | (k', v') :: m' =>
      if (k =? k')%Z then (k, v) :: m' else (k', v') :: map_set k v m'
  end.

Fixpoint map_get {V : Type} (k : Z) (m : JsMap V) : option V :=
  match m with
  | [] => None
  | (k', v') :: m' => if (k =? k')%Z then Some v' else map_get k m'
  end.

Definition map_values {V : Type} (m : JsMap V) : list V := map snd m.

Definition map_keys {V : Type} (m : JsMap V) : list Z := map fst m.

(** [obj.field = ...] on the first value that satisfies [p]: the object is
    changed where it sits in the map. *)
Fixpoint mutate_first {V : Type} (p : V -> bool) (f : V -> V) (m : JsMap V)
  : JsMap V :=
  match m with
  | [] => []
  | (k, v) :: m' =>
      if p v then (k, f v) :: m' else (k, v) :: mutate_first p f m'
  end.

(** ** The tables of [shared/schema.ts] *)

Module Account.
Record t : Type := mk
  { id : Z; code : string; name : string; type : string; balance : numstr }.
Definition with_balance (b : numstr) (a : t) : t :=
  mk (id a) (code a) (name a) (type a) b.
End Account.

Module InsertAccount.
Record t : Type := mk
  { code : string; name : string; type : string; balance : option numstr }.
End InsertAccount.

Module Transaction.
Record t : Type := mk
  { id : Z; date : Date; reference : string; description : string;
    type : string; totalAmount : numstr }.
End Transaction.

Module InsertTransaction.
Record t : Type := mk
  { date : Date; reference : string; description : string;
    type : string; totalAmount : numstr }.
End InsertTransaction.

Module JournalEntry.
Record t : Type := mk
  { id : Z; transactionId : option Z; accountId : option Z;
    accountCode : string; accountName : string;
    debitAmount : numstr; creditAmount : numstr;
    date : Date; reference : string; description : string }.
End JournalEntry.

Module InsertJournalEntry.
Record t : Type := mk
  { transactionId : option Z; accountId : option Z;
    accountCode : string; accountName : string;
    debitAmount : option numstr; creditAmount : option numstr;
    date : Date; reference : string; description : string }.
End InsertJournalEntry.

Module SalesInvoice.
Record t : Type := mk
  { id : Z; invoiceNumber : string; customerName : string; date : Date;
    paymentMethod : string; totalAmount : numstr;
    paidAmount : option numstr; outstandingAmount : numstr;
    status : string }.
Definition with_payment (paid outstanding : numstr) (st : string) (i : t)
  : t :=
  mk (id i) (invoiceNumber i) (customerName i) (date i) (paymentMethod i)
     (totalAmount i) (Some paid) outstanding st.
End SalesInvoice.

Module InsertSalesInvoice.
Record t : Type := mk
  { invoiceNumber : string; customerName : string; date : Date;
    totalAmount : numstr; paidAmount : option numstr;
    outstandingAmount : numstr; paymentMethod : string;
    status : option string }.
End InsertSalesInvoice.

Module SalesItem.
Record t : Type := mk
  { id : Z; invoiceId : option Z; description : string;
    quantity : numstr; unitPrice : numstr; cogsUnit : numstr;
    totalAmount : numstr }.
End SalesItem.

Module InsertSalesItem.
Record t : Type := mk
  { invoiceId : option Z; description : string;
    quantity : numstr; unitPrice : numstr; cogsUnit : numstr;
    totalAmount : numstr }.
End InsertSalesItem.

Module Collection.
Record t : Type := mk
  { id : Z; invoiceId : option Z; date : Date; paymentMethod : string;
    amount : numstr; reference : string; notes : option string }.
End Collection.

Module InsertCollection.
Record t : Type := mk
  { invoiceId : option Z; date : Date; amount : numstr;
    paymentMethod : string; notes : option string; reference : string }.
End InsertCollection.

Module SalesReturn.
Record t : Type := mk
  { id : Z; invoiceId : option Z; date : Date; returnNumber : string;
    returnType : string; reason : option string; totalAmount : numstr }.
End SalesReturn.

Module InsertSalesReturn.
Record t : Type := mk
  { returnNumber : string; invoiceId : option Z; date : Date;
    totalAmount : numstr; returnType : string; reason : option string }.
End InsertSalesReturn.

Module ReturnItem.
Record t : Type := mk
  { id : Z; returnId : option Z; description : string;
    quantity : numstr; unitPrice : numstr; cogsUnit : numstr;
    totalAmount : numstr }.
End ReturnItem.

Module InsertReturnItem.
Record t : Type := mk
  { returnId : option Z; description : string;
    quantity : numstr; unitPrice : numstr; cogsUnit : numstr;
    totalAmount : numstr }.
End InsertReturnItem.

Record BalanceSheet : Type := mkBalanceSheet
  { cash : number; accountsReceivable : number; inventory : number;
    totalAssets : number; accountsPayable : number;
    totalLiabilities : number; shareCapital : number;
    totalEquity : number; totalLiabEquity : number }.

(** ** The store *)

Record MemStorage : Type := mkMemStorage
  { accounts : JsMap Account.t;
    transactions : JsMap Transaction.t;
    journalEntries : JsMap JournalEntry.t;
    salesInvoices : JsMap SalesInvoice.t;
    salesItems : JsMap SalesItem.t;
    collections : JsMap Collection.t;
    salesReturns : JsMap SalesReturn.t;
    returnItems : JsMap ReturnItem.t;
    currentAccountId : Z;
    currentTransactionId : Z;
    currentJournalEntryId : Z;
    currentSalesInvoiceId : Z;
    currentSalesItemId : Z;
    currentCollectionId : Z;
    currentSalesReturnId : Z;
    currentReturnItemId : Z }.

(** [this.table.set(k, v)] together with [this.currentXId++], one pair per
    table. *)
Definition put_account (k : Z) (v : Account.t) (next : Z) (s : MemStorage) :=
  mkMemStorage (map_set k v (accounts s)) (transactions s) (journalEntries s)
    (salesInvoices s) (salesItems s) (collections s) (salesReturns s)
    (returnItems s) next (currentTransactionId s)
    (currentJournalEntryId s) (currentSalesInvoiceId s)
    (currentSalesItemId s) (currentCollectionId s) (currentSalesReturnId s)
    (currentReturnItemId s).

Definition set_accounts (m : JsMap Account.t) (s : MemStorage) :=
  mkMemStorage m (transactions s) (journalEntries s)
    (salesInvoices s) (salesItems s) (collections s) (salesReturns s)
    (returnItems s) (currentAccountId s) (currentTransactionId s)
    (currentJournalEntryId s) (currentSalesInvoiceId s)
    (currentSalesItemId s) (currentCollectionId s) (currentSalesReturnId s)
    (currentReturnItemId s).

Definition put_transaction (k : Z) (v : Transaction.t) (next : Z)
  (s : MemStorage) :=
  mkMemStorage (accounts s) (map_set k v (transactions s)) (journalEntries s)
    (salesInvoices s) (salesItems s) (collections s) (salesReturns s)
    (returnItems s) (currentAccountId s) next
    (currentJournalEntryId s) (currentSalesInvoiceId s)
    (currentSalesItemId s) (currentCollectionId s) (currentSalesReturnId s)
    (currentReturnItemId s).

Definition put_journalEntry (k : Z) (v : JournalEntry.t) (next : Z)
  (s : MemStorage) :=
  mkMemStorage (accounts s) (transactions s) (map_set k v (journalEntries s))
    (salesInvoices s) (salesItems s) (collections s) (salesReturns s)
    (returnItems s) (currentAccountId s) (currentTransactionId s)
    next (currentSalesInvoiceId s)
    (currentSalesItemId s) (currentCollectionId s) (currentSalesReturnId s)
    (currentReturnItemId s).

Definition put_salesInvoice (k : Z) (v : SalesInvoice.t) (next : Z)
  (s : MemStorage) :=
  mkMemStorage (accounts s) (transactions s) (journalEntries s)
    (map_set k v (salesInvoices s)) (salesItems s) (collections s)
    (salesReturns s)
    (returnItems s) (currentAccountId s) (currentTransactionId s)
    (currentJournalEntryId s) next
    (currentSalesItemId s) (currentCollectionId s) (currentSalesReturnId s)
    (currentReturnItemId s).

Definition put_salesItem (k : Z) (v : SalesItem.t) (next : Z)
  (s : MemStorage) :=
  mkMemStorage (accounts s) (transactions s) (journalEntries s)
    (salesInvoices s) (map_set k v (salesItems s)) (collections s)
    (salesReturns s)
    (returnItems s) (currentAccountId s) (currentTransactionId s)
    (currentJournalEntryId s) (currentSalesInvoiceId s)
    next (currentCollectionId s) (currentSalesReturnId s)
    (currentReturnItemId s).

Definition put_collection (k : Z) (v : Collection.t) (next : Z)
  (s : MemStorage) :=
  mkMemStorage (accounts s) (transactions s) (journalEntries s)
    (salesInvoices s) (salesItems s) (map_set k v (collections s))
    (salesReturns s)
    (returnItems s) (currentAccountId s) (currentTransactionId s)
    (currentJournalEntryId s) (currentSalesInvoiceId s)
    (currentSalesItemId s) next (currentSalesReturnId s)
    (currentReturnItemId s).

Definition put_salesReturn (k : Z) (v : SalesReturn.t) (next : Z)
  (s : MemStorage) :=
  mkMemStorage (accounts s) (transactions s) (journalEntries s)
    (salesInvoices s) (salesItems s) (collections s)
    (map_set k v (salesReturns s))
    (returnItems s) (currentAccountId s) (currentTransactionId s)
    (currentJournalEntryId s) (currentSalesInvoiceId s)
    (currentSalesItemId s) (currentCollectionId s) next
    (currentReturnItemId s).

Definition put_returnItem (k : Z) (v : ReturnItem.t) (next : Z)
  (s : MemStorage) :=
  mkMemStorage (accounts s) (transactions s) (journalEntries s)
    (salesInvoices s) (salesItems s) (collections s) (salesReturns s)
    (map_set k v (returnItems s)) (currentAccountId s)
    (currentTransactionId s)
    (currentJournalEntryId s) (currentSalesInvoiceId s)
    (currentSalesItemId s) (currentCollectionId s) (currentSalesReturnId s)
    next.

(** ** Asynchronous methods: a state monad with exceptions *)

Inductive Outcome (A : Type) : Type :=
| Fulfilled (a : A)
| Thrown (message : string).

Arguments Fulfilled {A} a.
Arguments Thrown {A} message.

Definition M (A : Type) : Type := MemStorage -> Outcome A * MemStorage.

Definition ret {A : Type} (a : A) : M A := fun s => (Fulfilled a, s).

Definition throw {A : Type} (message : string) : M A :=
  fun s => (Thrown message, s).

Definition bind {A B : Type} (m : M A) (f : A -> M B) : M B :=
  fun s =>
    match m s with
    | (Fulfilled a, s') => f a s'
    | (Thrown e, s') => (Thrown e, s')
    end.

Notation "x <- c1 ;; c2" := (bind c1 (fun x => c2))
  (at level 61, c1 at next level, right associativity).
Notation "c1 ;;; c2" := (bind c1 (fun _ => c2))
  (at level 61, right associativity).

(** [for (const x of xs) { await body(x) }] *)
Fixpoint forOf {A : Type} (xs : list A) (body : A -> M unit) : M unit :=
  match xs with
  | [] => ret tt
  | x :: xs' => body x ;;; forOf xs' body
  end.

(** ** [class MemStorage] ([server/storage.ts], lines 64-329) *)

Definition emptyStorage : MemStorage :=
  mkMemStorage [] [] [] [] [] [] [] [] 1 1 1 1 1 1 1 1.

Definition defaultAccounts : list InsertAccount.t :=
  [ InsertAccount.mk "1001" "Cash" "asset" (Some (toString 2375000));
    InsertAccount.mk "1002" "Accounts Receivable" "asset" (Some (toString 0));
    InsertAccount.mk "1003" "Inventory" "asset" (Some (toString 450000));
    InsertAccount.mk "2001" "Accounts Payable" "liability"
      (Some (toString 0));
    InsertAccount.mk "3001" "Share Capital - Ordinary" "equity"
      (Some (toString 2825000));
    InsertAccount.mk "4001" "Sales Revenue" "revenue" (Some (toString 0));
    InsertAccount.mk "4002" "Sales Return and Allowances" "revenue"
      (Some (toString 0));
    InsertAccount.mk "5001" "Cost of Goods Sold" "expense"
      (Some (toString 0)) ].

Definition initializeChartOfAccounts (s : MemStorage) : MemStorage :=
  fold_left
    (fun s account =>
       let newAccount :=
         Account.mk (currentAccountId s) (InsertAccount.code account)
           (InsertAccount.name account) (InsertAccount.type account)
           (orElse (InsertAccount.balance account) (toString 0)) in
       put_account (Account.id newAccount) newAccount
         (currentAccountId s + 1)%Z s)
    defaultAccounts s.

(** [new MemStorage()] *)
Definition newMemStorage : MemStorage := initializeChartOfAccounts emptyStorage.

Definition getAccounts : M (list Account.t) :=
  fun s => (Fulfilled (map_values (accounts s)), s).

Definition hasCode (code : string) (account : Account.t) : bool :=
  String.eqb (Account.code account) code.

Definition getAccountByCode (code : string) : M (option Account.t) :=
  fun s => (Fulfilled (find (hasCode code) (map_values (accounts s))), s).

Definition createAccount (account : InsertAccount.t) : M Account.t :=
  fun s =>
    let newAccount :=
      Account.mk (currentAccountId s) (InsertAccount.code account)
        (InsertAccount.name account) (InsertAccount.type account)
        (orElse (InsertAccount.balance account) (toString 0)) in
    (Fulfilled newAccount,
     put_account (Account.id newAccount) newAccount
       (currentAccountId s + 1)%Z s).

(** The account found is mutated where it sits, then stored again under
    its own id. *)
Definition updateAccountBalance (code : string) (balance : number) : M unit :=
  account <- getAccountByCode code ;;
  match account with
  | Some account =>
      fun s =>
        let account' := Account.with_balance (toString balance) account in
        (Fulfilled tt,
         set_accounts
           (map_set (Account.id account') account'
              (mutate_first (hasCode code)
                 (Account.with_balance (toString balance)) (accounts s)))
           s)
  | None => ret tt
  end.

Definition createTransaction (transaction : InsertTransaction.t)
  : M Transaction.t :=
  fun s =>
    let newTransaction :=
      Transaction.mk (currentTransactionId s)
        (InsertTransaction.date transaction)
        (InsertTransaction.reference transaction)
        (InsertTransaction.description transaction)
        (InsertTransaction.type transaction)
        (InsertTransaction.totalAmount transaction) in
    (Fulfilled newTransaction,
     put_transaction (Transaction.id newTransaction) newTransaction
       (currentTransactionId s + 1)%Z s).

Definition createJournalEntry (entry : InsertJournalEntry.t)
  : M JournalEntry.t :=
  fun s =>
    let newEntry :=
      JournalEntry.mk (currentJournalEntryId s)
        (orNull (InsertJournalEntry.transactionId entry))
        (orNull (InsertJournalEntry.accountId entry))
        (InsertJournalEntry.accountCode entry)
        (InsertJournalEntry.accountName entry)
        (orElse (InsertJournalEntry.debitAmount entry) (toString 0))
        (orElse (InsertJournalEntry.creditAmount entry) (toString 0))
        (InsertJournalEntry.date entry)
        (InsertJournalEntry.reference entry)
        (InsertJournalEntry.description entry) in
    (Fulfilled newEntry,
     put_journalEntry (JournalEntry.id newEntry) newEntry
       (currentJournalEntryId s + 1)%Z s).

Fixpoint createJournalEntries_from (newEntries : list JournalEntry.t)
  (entries : list InsertJournalEntry.t) : M (list JournalEntry.t) :=
  match entries with
  | [] => ret newEntries
  | entry :: rest =>
      newEntry <- createJournalEntry entry ;;
      createJournalEntries_from (newEntries ++ [newEntry]) rest
  end.

Definition createJournalEntries (entries : list InsertJournalEntry.t)
  : M (list JournalEntry.t) :=
  createJournalEntries_from [] entries.

Definition getSalesInvoiceById (id : Z) : M (option SalesInvoice.t) :=
  fun s => (Fulfilled (map_get id (salesInvoices s)), s).

Definition createSalesInvoice (invoice : InsertSalesInvoice.t)
  : M SalesInvoice.t :=
  fun s =>
    let newInvoice :=
      SalesInvoice.mk (currentSalesInvoiceId s)
        (InsertSalesInvoice.invoiceNumber invoice)
        (InsertSalesInvoice.customerName invoice)
        (InsertSalesInvoice.date invoice)
        (InsertSalesInvoice.paymentMethod invoice)
        (InsertSalesInvoice.totalAmount invoice)
        (InsertSalesInvoice.paidAmount invoice)
        (InsertSalesInvoice.outstandingAmount invoice)
        (orElse (InsertSalesInvoice.status invoice) "Open") in
    (Fulfilled newInvoice,
     put_salesInvoice (SalesInvoice.id newInvoice) newInvoice
       (currentSalesInvoiceId s + 1)%Z s).

Definition updateSalesInvoicePayment (id : Z)
  (paidAmount outstandingAmount : number) (status : string) : M unit :=
  fun s =>
    match map_get id (salesInvoices s) with
    | Some invoice =>
        (Fulfilled tt,
         put_salesInvoice id
           (SalesInvoice.with_payment (toString paidAmount)
              (toString outstandingAmount) status invoice)
           (currentSalesInvoiceId s) s)
    | None => (Fulfilled tt, s)
    end.

Definition createSalesItem (item : InsertSalesItem.t) : M SalesItem.t :=
  fun s =>
    let newItem :=
      SalesItem.mk (currentSalesItemId s)
        (InsertSalesItem.invoiceId item)
        (InsertSalesItem.description item)
        (InsertSalesItem.quantity item)
        (InsertSalesItem.unitPrice item)
        (InsertSalesItem.cogsUnit item)
        (InsertSalesItem.totalAmount item) in
    (Fulfilled newItem,
     put_salesItem (SalesItem.id newItem) newItem
       (currentSalesItemId s + 1)%Z s).

Definition createCollection (collection : InsertCollection.t)
  : M Collection.t :=
  fun s =>
    let newCollection :=
      Collection.mk (currentCollectionId s)
        (InsertCollection.invoiceId collection)
        (InsertCollection.date collection)
        (InsertCollection.paymentMethod collection)
        (InsertCollection.amount collection)
        (InsertCollection.reference collection)
        (InsertCollection.notes collection) in
    (Fulfilled newCollection,
     put_collection (Collection.id newCollection) newCollection
       (currentCollectionId s + 1)%Z s).

Definition createSalesReturn (salesReturn : InsertSalesReturn.t)
  : M SalesReturn.t :=
  fun s =>
    let newReturn :=
      SalesReturn.mk (currentSalesReturnId s)
        (InsertSalesReturn.invoiceId salesReturn)
        (InsertSalesReturn.date salesReturn)
        (InsertSalesReturn.returnNumber salesReturn)
        (InsertSalesReturn.returnType salesReturn)
        (InsertSalesReturn.reason salesReturn)
        (InsertSalesReturn.totalAmount salesReturn) in
    (Fulfilled newReturn,
     put_salesReturn (SalesReturn.id newReturn) newReturn
       (currentSalesReturnId s + 1)%Z s).

Definition createReturnItem (item : InsertReturnItem.t) : M ReturnItem.t :=
  fun s =>
    let newItem :=
      ReturnItem.mk (currentReturnItemId s)
        (InsertReturnItem.returnId item)
        (InsertReturnItem.description item)
        (InsertReturnItem.quantity item)
        (InsertReturnItem.unitPrice item)
        (InsertReturnItem.cogsUnit item)
        (InsertReturnItem.totalAmount item) in
    (Fulfilled newItem,
     put_returnItem (ReturnItem.id newItem) newItem
       (currentReturnItemId s + 1)%Z s).

(** [parseFloat(account?.balance || '0')] *)
Definition balanceOr0 (account : option Account.t) : number :=
  parseFloat (orElse (option_map Account.balance account) (toString 0)).

Definition getBalanceSheet : M BalanceSheet :=
  cash <- getAccountByCode "1001" ;;
  accountsReceivable <- getAccountByCode "1002" ;;
  inventory <- getAccountByCode "1003" ;;
  accountsPayable <- getAccountByCode "2001" ;;
  shareCapital <- getAccountByCode "3001" ;;
  let cashBalance := balanceOr0 cash in
  let arBalance := balanceOr0 accountsReceivable in
  let inventoryBalance := balanceOr0 inventory in
  let apBalance := balanceOr0 accountsPayable in
  let scBalance := balanceOr0 shareCapital in
  let totalAssets := cashBalance + arBalance + inventoryBalance in
  let totalLiabilities := apBalance in
  let totalEquity := scBalance in
  ret (mkBalanceSheet cashBalance arBalance inventoryBalance totalAssets
         apBalance totalLiabilities scBalance totalEquity
         (totalLiabilities + totalEquity)).

(** [await fs.writeFile(filePath, JSON.stringify(data, null, 2))]: the
    in-memory store is left as it is; the write is done, or rejects with an
    error. *)
Inductive WriteFile : Type :=
| Written
| Rejected (message : string).

Definition saveToFile (writeFile : WriteFile) : M unit :=
  match writeFile with
  | Written => ret tt
  | Rejected message => throw message
  end.

(** ** The request schemas of [server/routes.ts] *)

Module Item.
Record t : Type := mk
  { description : string; quantity : number; unitPrice : number;
    cogsUnit : number }.
End Item.

Module SalesForm.
Record t : Type := mk
  { invoiceNumber : string; customerName : string; date : string;
    paymentMethod : string; items : list Item.t }.
End SalesForm.

Module CollectionForm.
Record t : Type := mk
  { invoiceId : Z; date : string; amount : number;
    paymentMethod : string; notes : option string }.
End CollectionForm.

Module ReturnForm.
Record t : Type := mk
  { returnNumber : string; invoiceId : Z; date : string;
    returnType : string; reason : option string; items : list Item.t }.
End ReturnForm.

(** [z.string().min(1)], [z.number().positive()], [z.enum([a, b])],
    [z.array(...).min(1)].  An [invoiceId] that is not an integer finds no
    invoice, as an integer that is no key of the table. *)
Definition min1 (s : string) : bool := negb (String.eqb s EmptyString).
Definition positive (x : number) : bool := gt x 0.
Definition enum2 (a b s : string) : bool := String.eqb s a || String.eqb s b.
Definition arrayMin1 {A : Type} (p : A -> bool) (xs : list A) : bool :=
  forallb p xs && negb (Nat.eqb (List.length xs) 0).

Definition itemSchema (i : Item.t) : bool :=
  min1 (Item.description i) && positive (Item.quantity i)
  && positive (Item.unitPrice i) && positive (Item.cogsUnit i).

Definition salesFormSchema (b : SalesForm.t) : bool :=
  min1 (SalesForm.invoiceNumber b) && min1 (SalesForm.customerName b)
  && enum2 "cash" "credit" (SalesForm.paymentMethod b)
  && arrayMin1 itemSchema (SalesForm.items b).

Definition collectionFormSchema (b : CollectionForm.t) : bool :=
  positive (CollectionForm.amount b).

Definition returnFormSchema (b : ReturnForm.t) : bool :=
  min1 (ReturnForm.returnNumber b)
  && enum2 "return" "allowance" (ReturnForm.returnType b)
  && arrayMin1 itemSchema (ReturnForm.items b).

(** The text of the error zod throws is not modelled. *)
Definition zodError : string := "ZodError".

(** [schema.parse(req.body)] *)
Definition parse {A : Type} (schema : A -> bool) (body : A) : M A :=
  if schema body then ret body else throw zodError.

(** ** Responses *)

Inductive Response (A : Type) : Type :=
| Json (payload : A)
| Status (code : Z) (message : string).

Arguments Json {A} payload.
Arguments Status {A} code message.

Definition succeeded {A : Type} (r : Response A) : bool :=
  match r with
  | Json _ => true
  | Status _ _ => false
  end.

(** [try { ... } catch (error) { res.status(400).json({ message }) }] *)
Definition tryCatch {A : Type} (body : M (Response A))
  : MemStorage -> Response A * MemStorage :=
  fun s =>
    match body s with
    | (Fulfilled r, s') => (r, s')
    | (Thrown e, s') => (Status 400 e, s')
    end.

(** [items.reduce((sum, item) => sum + item.quantity * item.unitPrice, 0)] *)
Definition sumAmount (items : list Item.t) : number :=
  fold_left (fun sum item => sum + Item.quantity item * Item.unitPrice item)
    items 0.

Definition sumCOGS (items : list Item.t) : number :=
  fold_left (fun sum item => sum + Item.quantity item * Item.cogsUnit item)
    items 0.

(** One journal line as the routes write them. *)
Definition line (transaction : Transaction.t) (accountCode accountName : string)
  (debitAmount creditAmount : numstr) (date : string)
  (reference description : string) : InsertJournalEntry.t :=
  InsertJournalEntry.mk (Some (Transaction.id transaction)) None
    accountCode accountName (Some debitAmount) (Some creditAmount)
    (newDate date) reference description.

(** ** POST /api/sales (lines 345-485) *)

Definition postSales (body : SalesForm.t) (writeFile : WriteFile)
  : MemStorage -> Response SalesInvoice.t * MemStorage :=
  tryCatch (
    data <- parse salesFormSchema body ;;
    let isCash := String.eqb (SalesForm.paymentMethod data) "cash" in
    let totalAmount := sumAmount (SalesForm.items data) in
    let totalCOGS := sumCOGS (SalesForm.items data) in
    invoice <- createSalesInvoice
      (InsertSalesInvoice.mk (SalesForm.invoiceNumber data)
         (SalesForm.customerName data) (newDate (SalesForm.date data))
         (toString totalAmount)
         (Some (if isCash then toString totalAmount else toString 0))
         (if isCash then toString 0 else toString totalAmount)
         (SalesForm.paymentMethod data)
         (Some (if isCash then "paid" else "open"))) ;;
    forOf (SalesForm.items data)
      (fun item =>
         createSalesItem
           (InsertSalesItem.mk (Some (SalesInvoice.id invoice))
              (Item.description item) (toString (Item.quantity item))
              (toString (Item.unitPrice item)) (toString (Item.cogsUnit item))
              (toString (Item.quantity item * Item.unitPrice item))) ;;;
         ret tt) ;;;
    transaction <- createTransaction
      (InsertTransaction.mk (newDate (SalesForm.date data))
         (SalesForm.invoiceNumber data)
         ("Sale to " ++ SalesForm.customerName data) "sale"
         (toString totalAmount)) ;;
    let journalEntries :=
      [ if isCash
        then line transaction "1001" "Cash" (toString totalAmount)
               (toString 0) (SalesForm.date data)
               (SalesForm.invoiceNumber data)
               ("Sale to " ++ SalesForm.customerName data)
        else line transaction "1002" "Accounts Receivable"
               (toString totalAmount) (toString 0) (SalesForm.date data)
               (SalesForm.invoiceNumber data)
               ("Sale to " ++ SalesForm.customerName data);
        line transaction "4001" "Sales Revenue" (toString 0)
          (toString totalAmount) (SalesForm.date data)
          (SalesForm.invoiceNumber data)
          ("Sale to " ++ SalesForm.customerName data);
        line transaction "5001" "Cost of Goods Sold" (toString totalCOGS)
          (toString 0) (SalesForm.date data) (SalesForm.invoiceNumber data)
          ("COGS for sale to " ++ SalesForm.customerName data);
        line transaction "1003" "Inventory" (toString 0)
          (toString totalCOGS) (SalesForm.date data)
          (SalesForm.invoiceNumber data)
          ("COGS for sale to " ++ SalesForm.customerName data) ] in
    createJournalEntries journalEntries ;;;
    (if isCash
     then cashAccount <- getAccountByCode "1001" ;;
          updateAccountBalance "1001" (balanceOr0 cashAccount + totalAmount)
     else arAccount <- getAccountByCode "1002" ;;
          updateAccountBalance "1002" (balanceOr0 arAccount + totalAmount)) ;;;
    inventoryAccount <- getAccountByCode "1003" ;;
    updateAccountBalance "1003" (balanceOr0 inventoryAccount - totalCOGS) ;;;
    salesRevenueAccount <- getAccountByCode "4001" ;;
    updateAccountBalance "4001"
      (balanceOr0 salesRevenueAccount + totalAmount) ;;;
    cogsAccount <- getAccountByCode "5001" ;;
    updateAccountBalance "5001" (balanceOr0 cogsAccount + totalCOGS) ;;;
    let netIncome := totalAmount - totalCOGS in
    shareCapitalAccount <- getAccountByCode "3001" ;;
    updateAccountBalance "3001"
      (balanceOr0 shareCapitalAccount + netIncome) ;;;
    saveToFile writeFile ;;;
    ret (Json invoice)).

(** ** POST /api/collections (lines 488-569) *)

Definition postCollections (body : CollectionForm.t) (writeFile : WriteFile)
  : MemStorage -> Response Collection.t * MemStorage :=
  tryCatch (
    data <- parse collectionFormSchema body ;;
    invoice <- getSalesInvoiceById (CollectionForm.invoiceId data) ;;
    match invoice with
    | None => ret (Status 404 "Invoice not found")
    | Some invoice =>
        let currentOutstanding :=
          parseFloat (SalesInvoice.outstandingAmount invoice) in
        if gt (CollectionForm.amount data) currentOutstanding
        then ret (Status 400 "Collection amount exceeds outstanding balance")
        else
          let reference := "COL-" ++ SalesInvoice.invoiceNumber invoice in
          let description :=
            "Collection from " ++ SalesInvoice.customerName invoice in
          collection <- createCollection
            (InsertCollection.mk (Some (CollectionForm.invoiceId data))
               (newDate (CollectionForm.date data))
               (toString (CollectionForm.amount data))
               (CollectionForm.paymentMethod data)
               (Some (orElse (CollectionForm.notes data) EmptyString))
               reference) ;;
          let newPaidAmount :=
            parseFloat
              (orElse (SalesInvoice.paidAmount invoice) (toString 0))
            + CollectionForm.amount data in
          let newOutstandingAmount :=
            currentOutstanding - CollectionForm.amount data in
          let newStatus :=
            if strictEq newOutstandingAmount 0 then "paid" else "partial" in
          updateSalesInvoicePayment (CollectionForm.invoiceId data)
            newPaidAmount newOutstandingAmount newStatus ;;;
          transaction <- createTransaction
            (InsertTransaction.mk (newDate (CollectionForm.date data))
               reference description "collection"
               (toString (CollectionForm.amount data))) ;;
          let journalEntries :=
            [ line transaction "1001" "Cash"
                (toString (CollectionForm.amount data)) (toString 0)
                (CollectionForm.date data) reference description;
              line transaction "1002" "Accounts Receivable" (toString 0)
                (toString (CollectionForm.amount data))
                (CollectionForm.date data) reference description ] in
          createJournalEntries journalEntries ;;;
          cashAccount <- getAccountByCode "1001" ;;
          updateAccountBalance "1001"
            (balanceOr0 cashAccount + CollectionForm.amount data) ;;;
          arAccount <- getAccountByCode "1002" ;;
          updateAccountBalance "1002"
            (balanceOr0 arAccount - CollectionForm.amount data) ;;;
          saveToFile writeFile ;;;
          ret (Json collection)
    end).

(** ** POST /api/sales-returns (lines 572-715) *)

Definition postSalesReturns (body : ReturnForm.t) (writeFile : WriteFile)
  : MemStorage -> Response SalesReturn.t * MemStorage :=
  tryCatch (
    data <- parse returnFormSchema body ;;
    invoice <- getSalesInvoiceById (ReturnForm.invoiceId data) ;;
    match invoice with
    | None => ret (Status 404 "Invoice not found")
    | Some invoice =>
        let isCash := String.eqb (SalesInvoice.paymentMethod invoice) "cash" in
        let totalReturnAmount := sumAmount (ReturnForm.items data) in
        let totalReturnCOGS := sumCOGS (ReturnForm.items data) in
        salesReturn <- createSalesReturn
          (InsertSalesReturn.mk (ReturnForm.returnNumber data)
             (Some (ReturnForm.invoiceId data))
             (newDate (ReturnForm.date data)) (toString totalReturnAmount)
             (ReturnForm.returnType data)
             (Some (orElse (ReturnForm.reason data) EmptyString))) ;;
        forOf (ReturnForm.items data)
          (fun item =>
             createReturnItem
               (InsertReturnItem.mk (Some (SalesReturn.id salesReturn))
                  (Item.description item) (toString (Item.quantity item))
                  (toString (Item.unitPrice item))
                  (toString (Item.cogsUnit item))
                  (toString (Item.quantity item * Item.unitPrice item))) ;;;
             ret tt) ;;;
        transaction <- createTransaction
          (InsertTransaction.mk (newDate (ReturnForm.date data))
             (ReturnForm.returnNumber data)
             ("Return from " ++ SalesInvoice.customerName invoice) "return"
             (toString totalReturnAmount)) ;;
        let journalEntries :=
          [ line transaction "4002" "Sales Return and Allowances"
              (toString totalReturnAmount) (toString 0)
              (ReturnForm.date data) (ReturnForm.returnNumber data)
              ("Return from " ++ SalesInvoice.customerName invoice);
            if isCash
            then line transaction "1001" "Cash" (toString 0)
                   (toString totalReturnAmount) (ReturnForm.date data)
                   (ReturnForm.returnNumber data)
                   ("Return from " ++ SalesInvoice.customerName invoice)
            else line transaction "1002" "Accounts Receivable" (toString 0)
                   (toString totalReturnAmount) (ReturnForm.date data)
                   (ReturnForm.returnNumber data)
                   ("Return from " ++ SalesInvoice.customerName invoice);
            line transaction "1003" "Inventory" (toString totalReturnCOGS)
              (toString 0) (ReturnForm.date data)
              (ReturnForm.returnNumber data)
              ("Return inventory from " ++ SalesInvoice.customerName invoice);
            line transaction "5001" "Cost of Goods Sold" (toString 0)
              (toString totalReturnCOGS) (ReturnForm.date data)
              (ReturnForm.returnNumber data)
              ("Return COGS from " ++ SalesInvoice.customerName invoice) ] in
        createJournalEntries journalEntries ;;;
        (if isCash
         then cashAccount <- getAccountByCode "1001" ;;
              updateAccountBalance "1001"
                (balanceOr0 cashAccount - totalReturnAmount)
         else arAccount <- getAccountByCode "1002" ;;
              updateAccountBalance "1002"
                (balanceOr0 arAccount - totalReturnAmount)) ;;;
        inventoryAccount <- getAccountByCode "1003" ;;
        updateAccountBalance "1003"
          (balanceOr0 inventoryAccount + totalReturnCOGS) ;;;
        salesReturnsAccount <- getAccountByCode "4002" ;;
        updateAccountBalance "4002"
          (balanceOr0 salesReturnsAccount + totalReturnAmount) ;;;
        cogsAccount <- getAccountByCode "5001" ;;
        updateAccountBalance "5001"
          (balanceOr0 cogsAccount - totalReturnCOGS) ;;;
        let netReduction := totalReturnAmount - totalReturnCOGS in
        shareCapitalAccount <- getAccountByCode "3001" ;;
        updateAccountBalance "3001"
          (balanceOr0 shareCapitalAccount - netReduction) ;;;
        saveToFile writeFile ;;;
        ret (Json salesReturn)
    end).

(** ** Business events and the stores they reach *)

Inductive Event : Type :=
| Sale (body : SalesForm.t)
| Collect (body : CollectionForm.t)
| Return (body : ReturnForm.t).

(** The store after an event, with whether the request succeeded;
    [writeFile] is what the write to the file does during that request. *)
Definition submit (e : Event) (writeFile : WriteFile) (s : MemStorage)
  : bool * MemStorage :=
  match e with
  | Sale body =>
      let (r, s') := postSales body writeFile s in (succeeded r, s')
  | Collect body =>
      let (r, s') := postCollections body writeFile s in (succeeded r, s')
  | Return body =>
      let (r, s') := postSalesReturns body writeFile s in (succeeded r, s')
  end.

Inductive Reachable : MemStorage -> Prop :=
| Reachable_new : Reachable newMemStorage
| Reachable_submit (s : MemStorage) (e : Event) (writeFile : WriteFile) :
    Reachable s -> Reachable (snd (submit e writeFile s)).

(** * The rest of the store and of the routes *)

(** ** Listings ([server/storage.ts], lines 139-143, 155-159, 187-191,
       223-225, 241-245, 261-265, 281-283)

    [xs.sort((a, b) => ...)] is the sort of the JavaScript library, a
    parameter of every definition that sorts.  The comparator is written
    as in the source: for the listings,
    [new Date(b.date).getTime() - new Date(a.date).getTime()], where
    [getTime], a parameter as well, gives NaN for a date that cannot be
    read. *)

Definition Sort : Type :=
  forall A : Type, (A -> A -> number) -> list A -> list A.

Definition getTransactions (sort : Sort) (getTime : Date -> number)
  : M (list Transaction.t) :=
  fun s =>
    (Fulfilled
       (sort _
          (fun a b =>
             getTime (Transaction.date b) - getTime (Transaction.date a))
          (map_values (transactions s))), s).

Definition getJournalEntries (sort : Sort) (getTime : Date -> number)
  : M (list JournalEntry.t) :=
  fun s =>
    (Fulfilled
       (sort _
          (fun a b =>
             getTime (JournalEntry.date b) - getTime (JournalEntry.date a))
          (map_values (journalEntries s))), s).

Definition getSalesInvoices (sort : Sort) (getTime : Date -> number)
  : M (list SalesInvoice.t) :=
  fun s =>
    (Fulfilled
       (sort _
          (fun a b =>
             getTime (SalesInvoice.date b) - getTime (SalesInvoice.date a))
          (map_values (salesInvoices s))), s).

Definition getCollections (sort : Sort) (getTime : Date -> number)
  : M (list Collection.t) :=
  fun s =>
    (Fulfilled
       (sort _
          (fun a b =>
             getTime (Collection.date b) - getTime (Collection.date a))
          (map_values (collections s))), s).

Definition getSalesReturns (sort : Sort) (getTime : Date -> number)
  : M (list SalesReturn.t) :=
  fun s =>
    (Fulfilled
       (sort _
          (fun a b =>
             getTime (SalesReturn.date b) - getTime (SalesReturn.date a))
          (map_values (salesReturns s))), s).

(** [item.invoiceId === invoiceId] on a nullable id. *)
Definition isId (id : Z) (x : option Z) : bool :=
  match x with
  | Some k => (k =? id)%Z
  | None => false
  end.

Definition getSalesItemsByInvoiceId (invoiceId : Z) : M (list SalesItem.t) :=
  fun s =>
    (Fulfilled
       (filter (fun item => isId invoiceId (SalesItem.invoiceId item))
          (map_values (salesItems s))), s).

Definition getReturnItemsByReturnId (returnId : Z) : M (list ReturnItem.t) :=
  fun s =>
    (Fulfilled
       (filter (fun item => isId returnId (ReturnItem.returnId item))
          (map_values (returnItems s))), s).

(** ** [exportData] and [importData] ([server/storage.ts], lines 420-463) *)

Record Counters : Type := mkCounters
  { cAccountId : Z; cTransactionId : Z; cJournalEntryId : Z;
    cSalesInvoiceId : Z; cSalesItemId : Z; cCollectionId : Z;
    cSalesReturnId : Z; cReturnItemId : Z }.

(** The object [exportData] builds and [importData] reads: the entries of
    every table as arrays of pairs, and the counters, which [importData]
    takes only when they are there. *)
Record Snapshot : Type := mkSnapshot
  { dAccounts : list (Z * Account.t);
    dTransactions : list (Z * Transaction.t);
    dJournalEntries : list (Z * JournalEntry.t);
    dSalesInvoices : list (Z * SalesInvoice.t);
    dSalesItems : list (Z * SalesItem.t);
    dCollections : list (Z * Collection.t);
    dSalesReturns : list (Z * SalesReturn.t);
    dReturnItems : list (Z * ReturnItem.t);
    dCounters : option Counters }.

(** [Array.from(map.entries())] and [new Map(entries)]. *)
Definition map_entries {V : Type} (m : JsMap V) : list (Z * V) := m.

Definition newMap {V : Type} (entries : list (Z * V)) : JsMap V :=
  fold_left (fun m kv => map_set (fst kv) (snd kv) m) entries [].

Definition exportData : M Snapshot :=
  fun s =>
    (Fulfilled
       (mkSnapshot (map_entries (accounts s)) (map_entries (transactions s))
          (map_entries (journalEntries s)) (map_entries (salesInvoices s))
          (map_entries (salesItems s)) (map_entries (collections s))
          (map_entries (salesReturns s)) (map_entries (returnItems s))
          (Some
             (mkCounters (currentAccountId s) (currentTransactionId s)
                (currentJournalEntryId s) (currentSalesInvoiceId s)
                (currentSalesItemId s) (currentCollectionId s)
                (currentSalesReturnId s) (currentReturnItemId s)))), s).

Definition importData (data : Snapshot) : M unit :=
  fun s =>
    let c :=
      orElse (dCounters data)
        (mkCounters (currentAccountId s) (currentTransactionId s)
           (currentJournalEntryId s) (currentSalesInvoiceId s)
           (currentSalesItemId s) (currentCollectionId s)
           (currentSalesReturnId s) (currentReturnItemId s)) in
    (Fulfilled tt,
     mkMemStorage (newMap (dAccounts data)) (newMap (dTransactions data))
       (newMap (dJournalEntries data)) (newMap (dSalesInvoices data))
       (newMap (dSalesItems data)) (newMap (dCollections data))
       (newMap (dSalesReturns data)) (newMap (dReturnItems data))
       (cAccountId c) (cTransactionId c) (cJournalEntryId c)
       (cSalesInvoiceId c) (cSalesItemId c) (cCollectionId c)
       (cSalesReturnId c) (cReturnItemId c)).

(** ** The reading routes and the import route ([registerRoutes], lines
       273-342 and 718-749) *)

(** [try { res.json(...) } catch (error) { res.status(code).json({ message
    }) }] with a fixed message. *)
Definition tryCatchWith {A : Type} (code : Z) (message : string)
  (body : M (Response A)) : MemStorage -> Response A * MemStorage :=
  fun s =>
    match body s with
    | (Fulfilled r, s') => (r, s')
    | (Thrown _, s') => (Status code message, s')
    end.

(** [await Promise.all(xs.map(async (x) => f(x)))] for calls that only
    read the store. *)
Fixpoint promiseAllMap {A B : Type} (f : A -> M B) (xs : list A) : M (list B) :=
  match xs with
  | [] => ret []
  | x :: rest =>
      y <- f x ;;
      ys <- promiseAllMap f rest ;;
      ret (y :: ys)
  end.

(** [{ ...invoice, items }] is the pair of the invoice and its items. *)
Definition getSalesInvoicesRoute (sort : Sort) (getTime : Date -> number)
  : MemStorage
    -> Response (list (SalesInvoice.t * list SalesItem.t)) * MemStorage :=
  tryCatchWith 500 "Failed to get sales invoices"
    (invoices <- getSalesInvoices sort getTime ;;
     invoicesWithItems <-
       promiseAllMap
         (fun invoice =>
            items <- getSalesItemsByInvoiceId (SalesInvoice.id invoice) ;;
            ret (invoice, items))
         invoices ;;
     ret (Json invoicesWithItems)).

Definition getSalesReturnsRoute (sort : Sort) (getTime : Date -> number)
  : MemStorage
    -> Response (list (SalesReturn.t * list ReturnItem.t)) * MemStorage :=
  tryCatchWith 500 "Failed to get sales returns"
    (returns <- getSalesReturns sort getTime ;;
     returnsWithItems <-
       promiseAllMap
         (fun returnItem =>
            items <- getReturnItemsByReturnId (SalesReturn.id returnItem) ;;
            ret (returnItem, items))
         returns ;;
     ret (Json returnsWithItems)).

Definition getExportDataRoute : MemStorage -> Response Snapshot * MemStorage :=
  tryCatchWith 500 "Failed to export data"
    (data <- exportData ;; ret (Json data)).

Definition postImportData (body : Snapshot) (writeFile : WriteFile)
  : MemStorage -> Response string * MemStorage :=
  tryCatchWith 400 "Failed to import data"
    (importData body ;;;
     saveToFile writeFile ;;;
     ret (Json "Data imported successfully")).

(** ** The journal page ([client/src/pages/journal.tsx], lines 42-64 and
       119-139)

    [formatDate] comes from a module that is not among the sources and is
    a parameter.  The page asks for its entries under the key
    ["/api/journal"], the routes register ["/api/journal-entries"]; the
    entries are therefore an argument here and not the answer of a
    route. *)

(** [if (!groups[key]) groups[key] = []; groups[key].push(entry)]: the
    keys of the object keep the order in which they were first written. *)
Fixpoint pushToGroup (key : string) (entry : JournalEntry.t)
  (groups : list (string * list JournalEntry.t))
  : list (string * list JournalEntry.t) :=
  match groups with
  | [] => [(key, [entry])]
  | (k, entries) :: rest =>
      if String.eqb k key then (k, entries ++ [entry])%list :: rest
      else (k, entries) :: pushToGroup key entry rest
  end.

Definition groupKey (formatDate : Date -> string) (entry : JournalEntry.t)
  : string :=
  JournalEntry.reference entry ++ "-" ++ formatDate (JournalEntry.date entry).

(** [new Date(group.entries[0].date).getTime()]; every group has an
    entry. *)
Definition firstTime (getTime : Date -> number)
  (group : string * list JournalEntry.t) : number :=
  match snd group with
  | e :: _ => getTime (JournalEntry.date e)
  | [] => nan
  end.

Definition groupedEntries (sort : Sort) (formatDate : Date -> string)
  (getTime : Date -> number) (journalEntries : list JournalEntry.t)
  : list (string * list JournalEntry.t) :=
  let groups :=
    fold_left
      (fun groups entry => pushToGroup (groupKey formatDate entry) entry groups)
      journalEntries [] in
  sort _
    (fun a b => firstTime getTime b - firstTime getTime a)
    (map
       (fun group =>
          (fst group,
           sort _
             (fun a b =>
                parseFloat (JournalEntry.debitAmount b)
                - parseFloat (JournalEntry.debitAmount a))
             (snd group)))
       groups).

(** The totals the page shows for a group and the test behind its
    warning, [Math.abs(totalDebit - totalCredit) > 0.01] (lines 119-124
    and 137). *)
Definition totalDebit (entries : list JournalEntry.t) : number :=
  fold_left
    (fun sum entry => sum + parseFloat (JournalEntry.debitAmount entry))
    entries 0.

Definition totalCredit (entries : list JournalEntry.t) : number :=
  fold_left
    (fun sum entry => sum + parseFloat (JournalEntry.creditAmount entry))
    entries 0.

Definition showsUnbalanced (entries : list JournalEntry.t) : bool :=
  gt (abs (totalDebit entries - totalCredit entries)) 0.01.

(** ** [validateJournalEntry] (accounting utilities, [src/unnamed/part_000],
       lines 38-40) *)

Definition validateJournalEntry (debits credits : number) : bool :=
  lt (abs (debits - credits)) 0.01.

(** * Vocabulary of the properties *)

(** ** The chart of accounts

    No route creates or removes an account, so the account table of every
    store the routes reach is the seeded chart with some balances. *)

Record Balances : Type := mkBalances
  { b1001 : numstr; b1002 : numstr; b1003 : numstr; b2001 : numstr;
    b3001 : numstr; b4001 : numstr; b4002 : numstr; b5001 : numstr }.

Definition chart (b : Balances) : JsMap Account.t :=
  [ (1%Z, Account.mk 1 "1001" "Cash" "asset" (b1001 b));
    (2%Z, Account.mk 2 "1002" "Accounts Receivable" "asset" (b1002 b));
    (3%Z, Account.mk 3 "1003" "Inventory" "asset" (b1003 b));
    (4%Z, Account.mk 4 "2001" "Accounts Payable" "liability" (b2001 b));
    (5%Z, Account.mk 5 "3001" "Share Capital - Ordinary" "equity" (b3001 b));
    (6%Z, Account.mk 6 "4001" "Sales Revenue" "revenue" (b4001 b));
    (7%Z, Account.mk 7 "4002" "Sales Return and Allowances" "revenue"
            (b4002 b));
    (8%Z, Account.mk 8 "5001" "Cost of Goods Sold" "expense" (b5001 b)) ].

Definition openingBalances : Balances :=
  mkBalances (toString 2375000) (toString 0) (toString 450000) (toString 0)
    (toString 2825000) (toString 0) (toString 0) (toString 0).

(** The balance an account code reads as: [parseFloat(account?.balance ||
    '0')] of the account found. *)
Definition balanceOf (code : string) (s : MemStorage) : number :=
  balanceOr0 (find (hasCode code) (map_values (accounts s))).

Definition chartSheet (b : Balances) : BalanceSheet :=
  let cash := parseFloat (b1001 b) in
  let ar := parseFloat (b1002 b) in
  let inv := parseFloat (b1003 b) in
  let ap := parseFloat (b2001 b) in
  let sc := parseFloat (b3001 b) in
  mkBalanceSheet cash ar inv (cash + ar + inv) ap ap sc sc (ap + sc).

Definition nameAndBalance (a : Account.t) : string * number :=
  (Account.name a, parseFloat (Account.balance a)).

(** ** The journal *)

(** [this.journalEntries.set(e.id, e)] for each entry of a list, in order. *)
Definition set_entries (es : list JournalEntry.t) (m : JsMap JournalEntry.t)
  : JsMap JournalEntry.t :=
  fold_left (fun m e => map_set (JournalEntry.id e) e m) es m.

(** The ids [k], [k + 1], ... handed out by a counter. *)
Fixpoint idsFrom (k : Z) (n : nat) : list Z :=
  match n with
  | O => []
  | S n' => k :: idsFrom (k + 1)%Z n'
  end.

(** The entry [createJournalEntry] builds when the counter stands at [k]. *)
Definition storedEntry (k : Z) (entry : InsertJournalEntry.t)
  : JournalEntry.t :=
  JournalEntry.mk k
    (orNull (InsertJournalEntry.transactionId entry))
    (orNull (InsertJournalEntry.accountId entry))
    (InsertJournalEntry.accountCode entry)
    (InsertJournalEntry.accountName entry)
    (orElse (InsertJournalEntry.debitAmount entry) (toString 0))
    (orElse (InsertJournalEntry.creditAmount entry) (toString 0))
    (InsertJournalEntry.date entry)
    (InsertJournalEntry.reference entry)
    (InsertJournalEntry.description entry).

Fixpoint stamp (k : Z) (entries : list InsertJournalEntry.t)
  : list JournalEntry.t :=
  match entries with
  | [] => []
  | entry :: rest => storedEntry k entry :: stamp (k + 1) rest
  end.

(** A journal line as the posting rules describe it. *)
Definition posting (e : JournalEntry.t) : string * number * number :=
  (JournalEntry.accountCode e, parseFloat (JournalEntry.debitAmount e),
   parseFloat (JournalEntry.creditAmount e)).

Definition taggedWith (transactionId : Z) (e : JournalEntry.t) : bool :=
  match JournalEntry.transactionId e with
  | Some k => (k =? transactionId)%Z
  | None => false
  end.

(** The journal entries of a transaction, in insertion order. *)
Definition entriesOf (transactionId : Z) (s : MemStorage)
  : list JournalEntry.t :=
  filter (taggedWith transactionId) (map_values (journalEntries s)).

(** The debit and credit totals of a batch handed to the journal. *)
Definition batchDebit (entries : list InsertJournalEntry.t) : number :=
  fold_left
    (fun sum entry =>
       sum + parseFloat
               (orElse (InsertJournalEntry.debitAmount entry) (toString 0)))
    entries 0.

Definition batchCredit (entries : list InsertJournalEntry.t) : number :=
  fold_left
    (fun sum entry =>
       sum + parseFloat
               (orElse (InsertJournalEntry.creditAmount entry) (toString 0)))
    entries 0.

(** ** The store each route leaves behind

    Closed forms of the response and of the store after a request that is
    accepted, for a store whose account table is [chart b].  The store is
    the same whether the write to the file then succeeds or not; the
    answer is not. *)

(** What a route answers once the store is updated: the payload, or status
    400 with the message of the error when the write to the file fails. *)
Definition answer {A : Type} (writeFile : WriteFile) (payload : A)
  : Response A :=
  match writeFile with
  | Written => Json payload
  | Rejected message => Status 400 message
  end.

Definition saleBalances (isCash : bool) (amount cogs : number) (b : Balances)
  : Balances :=
  mkBalances
    (if isCash then toString (parseFloat (b1001 b) + amount) else b1001 b)
    (if isCash then b1002 b else toString (parseFloat (b1002 b) + amount))
    (toString (parseFloat (b1003 b) - cogs))
    (b2001 b)
    (toString (parseFloat (b3001 b) + (amount - cogs)))
    (toString (parseFloat (b4001 b) + amount))
    (b4002 b)
    (toString (parseFloat (b5001 b) + cogs)).

Definition saleInvoice (body : SalesForm.t) (s : MemStorage) : SalesInvoice.t :=
  let isCash := String.eqb (SalesForm.paymentMethod body) "cash" in
  let amount := sumAmount (SalesForm.items body) in
  SalesInvoice.mk (currentSalesInvoiceId s) (SalesForm.invoiceNumber body)
    (SalesForm.customerName body) (newDate (SalesForm.date body))
    (SalesForm.paymentMethod body) (toString amount)
    (Some (if isCash then toString amount else toString 0))
    (if isCash then toString 0 else toString amount)
    (if isCash then "paid" else "open").

Definition saleTransaction (body : SalesForm.t) (s : MemStorage)
  : Transaction.t :=
  Transaction.mk (currentTransactionId s) (newDate (SalesForm.date body))
    (SalesForm.invoiceNumber body)
    ("Sale to " ++ SalesForm.customerName body) "sale"
    (toString (sumAmount (SalesForm.items body))).

Definition saleEntries (body : SalesForm.t) (s : MemStorage)
  : list JournalEntry.t :=
  let isCash := String.eqb (SalesForm.paymentMethod body) "cash" in
  let amount := sumAmount (SalesForm.items body) in
  let cogs := sumCOGS (SalesForm.items body) in
  let t := orNull (Some (currentTransactionId s)) in
  let j := currentJournalEntryId s in
  let date := newDate (SalesForm.date body) in
  let reference := SalesForm.invoiceNumber body in
  [ JournalEntry.mk j t None (if isCash then "1001" else "1002")
      (if isCash then "Cash" else "Accounts Receivable")
      (toString amount) (toString 0) date reference
      ("Sale to " ++ SalesForm.customerName body);
    JournalEntry.mk (j + 1) t None "4001" "Sales Revenue"
      (toString 0) (toString amount) date reference
      ("Sale to " ++ SalesForm.customerName body);
    JournalEntry.mk (j + 1 + 1) t None "5001" "Cost of Goods Sold"
      (toString cogs) (toString 0) date reference
      ("COGS for sale to " ++ SalesForm.customerName body);
    JournalEntry.mk (j + 1 + 1 + 1) t None "1003" "Inventory"
      (toString 0) (toString cogs) date reference
      ("COGS for sale to " ++ SalesForm.customerName body) ].

(** The store a successful sale leaves; [m] and [n] are the sales item
    table and its counter after the loop over the line items. *)
Definition afterSale (body : SalesForm.t) (s : MemStorage) (b : Balances)
  (m : JsMap SalesItem.t) (n : Z) : MemStorage :=
  mkMemStorage
    (chart (saleBalances (String.eqb (SalesForm.paymentMethod body) "cash")
              (sumAmount (SalesForm.items body))
              (sumCOGS (SalesForm.items body)) b))
    (map_set (currentTransactionId s) (saleTransaction body s)
       (transactions s))
    (set_entries (saleEntries body s) (journalEntries s))
    (map_set (currentSalesInvoiceId s) (saleInvoice body s) (salesInvoices s))
    m (collections s) (salesReturns s) (returnItems s)
    (currentAccountId s) (currentTransactionId s + 1)
    (currentJournalEntryId s + 1 + 1 + 1 + 1) (currentSalesInvoiceId s + 1)
    n (currentCollectionId s) (currentSalesReturnId s)
    (currentReturnItemId s).

Definition collectBalances (amount : number) (b : Balances) : Balances :=
  mkBalances
    (toString (parseFloat (b1001 b) + amount))
    (toString (parseFloat (b1002 b) - amount))
    (b1003 b) (b2001 b) (b3001 b) (b4001 b) (b4002 b) (b5001 b).

Definition collectionRecord (body : CollectionForm.t) (s : MemStorage)
  (invoice : SalesInvoice.t) : Collection.t :=
  Collection.mk (currentCollectionId s) (Some (CollectionForm.invoiceId body))
    (newDate (CollectionForm.date body)) (CollectionForm.paymentMethod body)
    (toString (CollectionForm.amount body))
    ("COL-" ++ SalesInvoice.invoiceNumber invoice)
    (Some (orElse (CollectionForm.notes body) EmptyString)).

Definition collectedInvoice (body : CollectionForm.t)
  (invoice : SalesInvoice.t) : SalesInvoice.t :=
  let newOutstandingAmount :=
    parseFloat (SalesInvoice.outstandingAmount invoice)
    - CollectionForm.amount body in
  SalesInvoice.with_payment
    (toString
       (parseFloat (orElse (SalesInvoice.paidAmount invoice) (toString 0))
        + CollectionForm.amount body))
    (toString newOutstandingAmount)
    (if strictEq newOutstandingAmount 0 then "paid" else "partial")
    invoice.

Definition collectionTransaction (body : CollectionForm.t) (s : MemStorage)
  (invoice : SalesInvoice.t) : Transaction.t :=
  Transaction.mk (currentTransactionId s) (newDate (CollectionForm.date body))
    ("COL-" ++ SalesInvoice.invoiceNumber invoice)
    ("Collection from " ++ SalesInvoice.customerName invoice) "collection"
    (toString (CollectionForm.amount body)).

Definition collectionEntries (body : CollectionForm.t) (s : MemStorage)
  (invoice : SalesInvoice.t) : list JournalEntry.t :=
  let t := orNull (Some (currentTransactionId s)) in
  let j := currentJournalEntryId s in
  let date := newDate (CollectionForm.date body) in
  let reference := "COL-" ++ SalesInvoice.invoiceNumber invoice in
  let description :=
    "Collection from " ++ SalesInvoice.customerName invoice in
  [ JournalEntry.mk j t None "1001" "Cash"
      (toString (CollectionForm.amount body)) (toString 0) date reference
      description;
    JournalEntry.mk (j + 1) t None "1002" "Accounts Receivable"
      (toString 0) (toString (CollectionForm.amount body)) date reference
      description ].

Definition afterCollection (body : CollectionForm.t) (s : MemStorage)
  (b : Balances) (invoice : SalesInvoice.t) : MemStorage :=
  mkMemStorage
    (chart (collectBalances (CollectionForm.amount body) b))
    (map_set (currentTransactionId s) (collectionTransaction body s invoice)
       (transactions s))
    (set_entries (collectionEntries body s invoice) (journalEntries s))
    (map_set (CollectionForm.invoiceId body) (collectedInvoice body invoice)
       (salesInvoices s))
    (salesItems s)
    (map_set (currentCollectionId s) (collectionRecord body s invoice)
       (collections s))
    (salesReturns s) (returnItems s)
    (currentAccountId s) (currentTransactionId s + 1)
    (currentJournalEntryId s + 1 + 1) (currentSalesInvoiceId s)
    (currentSalesItemId s) (currentCollectionId s + 1)
    (currentSalesReturnId s) (currentReturnItemId s).

Definition returnBalances (isCash : bool) (returnAmount returnCogs : number)
  (b : Balances) : Balances :=
  mkBalances
    (if isCash then toString (parseFloat (b1001 b) - returnAmount)
     else b1001 b)
    (if isCash then b1002 b
     else toString (parseFloat (b1002 b) - returnAmount))
    (toString (parseFloat (b1003 b) + returnCogs))
    (b2001 b)
    (toString (parseFloat (b3001 b) - (returnAmount - returnCogs)))
    (b4001 b)
    (toString (parseFloat (b4002 b) + returnAmount))
    (toString (parseFloat (b5001 b) - returnCogs)).

Definition returnRecord (body : ReturnForm.t) (s : MemStorage)
  : SalesReturn.t :=
  SalesReturn.mk (currentSalesReturnId s) (Some (ReturnForm.invoiceId body))
    (newDate (ReturnForm.date body)) (ReturnForm.returnNumber body)
    (ReturnForm.returnType body)
    (Some (orElse (ReturnForm.reason body) EmptyString))
    (toString (sumAmount (ReturnForm.items body))).

Definition returnTransaction (body : ReturnForm.t) (s : MemStorage)
  (invoice : SalesInvoice.t) : Transaction.t :=
  Transaction.mk (currentTransactionId s) (newDate (ReturnForm.date body))
    (ReturnForm.returnNumber body)
    ("Return from " ++ SalesInvoice.customerName invoice) "return"
    (toString (sumAmount (ReturnForm.items body))).

Definition returnEntries (body : ReturnForm.t) (s : MemStorage)
  (invoice : SalesInvoice.t) : list JournalEntry.t :=
  let isCash := String.eqb (SalesInvoice.paymentMethod invoice) "cash" in
  let returnAmount := sumAmount (ReturnForm.items body) in
  let returnCogs := sumCOGS (ReturnForm.items body) in
  let t := orNull (Some (currentTransactionId s)) in
  let j := currentJournalEntryId s in
  let date := newDate (ReturnForm.date body) in
  let reference := ReturnForm.returnNumber body in
  [ JournalEntry.mk j t None "4002" "Sales Return and Allowances"
      (toString returnAmount) (toString 0) date reference
      ("Return from " ++ SalesInvoice.customerName invoice);
    JournalEntry.mk (j + 1) t None (if isCash then "1001" else "1002")
      (if isCash then "Cash" else "Accounts Receivable")
      (toString 0) (toString returnAmount) date reference
      ("Return from " ++ SalesInvoice.customerName invoice);
    JournalEntry.mk (j + 1 + 1) t None "1003" "Inventory"
      (toString returnCogs) (toString 0) date reference
      ("Return inventory from " ++ SalesInvoice.customerName invoice);
    JournalEntry.mk (j + 1 + 1 + 1) t None "5001" "Cost of Goods Sold"
      (toString 0) (toString returnCogs) date reference
      ("Return COGS from " ++ SalesInvoice.customerName invoice) ].

(** The store a successful return leaves; [m] and [n] are the return item
    table and its counter after the loop over the line items. *)
Definition afterReturn (body : ReturnForm.t) (s : MemStorage) (b : Balances)
  (invoice : SalesInvoice.t) (m : JsMap ReturnItem.t) (n : Z) : MemStorage :=
  mkMemStorage
    (chart (returnBalances
              (String.eqb (SalesInvoice.paymentMethod invoice) "cash")
              (sumAmount (ReturnForm.items body))
              (sumCOGS (ReturnForm.items body)) b))
    (map_set (currentTransactionId s) (returnTransaction body s invoice)
       (transactions s))
    (set_entries (returnEntries body s invoice) (journalEntries s))
    (salesInvoices s) (salesItems s) (collections s)
    (map_set (currentSalesReturnId s) (returnRecord body s) (salesReturns s))
    m
    (currentAccountId s) (currentTransactionId s + 1)
    (currentJournalEntryId s + 1 + 1 + 1 + 1) (currentSalesInvoiceId s)
    (currentSalesItemId s) (currentCollectionId s)
    (currentSalesReturnId s + 1) n.

(** ** The invariant of the reachable stores *)

(** The journal: ids below the counter, transaction ids below the
    transaction counter, and for every transaction the same double as
    debit total and as credit total, which is not NaN. *)
Definition journal_ok (J : JsMap JournalEntry.t) (j tid : Z) : Prop :=
  Forall (fun k => (k < j)%Z) (map_keys J)
  /\ (0 < tid)%Z
  /\ Forall (fun e => forall k, JournalEntry.transactionId e = Some k ->
                               (k < tid)%Z) (map_values J)
  /\ forall t,
      totalDebit (filter (taggedWith t) (map_values J))
      = totalCredit (filter (taggedWith t) (map_values J))
      /\ isNaN (totalDebit (filter (taggedWith t) (map_values J))) = false.


(** What the routes keep true of an invoice: its total is not negative,
    and it is paid with nothing outstanding, or open with nothing paid and
    its total outstanding, or partial with an outstanding amount that is
    not 0. *)
Definition invoice_ok (i : SalesInvoice.t) : Prop :=
  exists paid,
    SalesInvoice.paidAmount i = Some paid
    /\ notNegative (parseFloat (SalesInvoice.totalAmount i)) = true
    /\ (SalesInvoice.status i = "paid"
         /\ SalesInvoice.outstandingAmount i = toString 0
        \/ SalesInvoice.status i = "open"
           /\ paid = toString 0
           /\ SalesInvoice.outstandingAmount i = SalesInvoice.totalAmount i
        \/ SalesInvoice.status i = "partial"
           /\ strictEq (parseFloat (SalesInvoice.outstandingAmount i)) 0
              = false).

Definition Inv (s : MemStorage) : Prop :=
  (exists b, accounts s = chart b)
  /\ journal_ok (journalEntries s) (currentJournalEntryId s)
       (currentTransactionId s)
  /\ Forall invoice_ok (map_values (salesInvoices s)).

(** ** Operations that leave the invoices alone *)

Definition keepsInvoices {A : Type} (m : M A) : Prop :=
  forall s, salesInvoices (snd (m s)) = salesInvoices s.

(** The payment fields of an invoice. *)
Definition paymentFields (i : SalesInvoice.t)
  : option numstr * numstr * string :=
  (SalesInvoice.paidAmount i, SalesInvoice.outstandingAmount i,
   SalesInvoice.status i).

(** ** Requests used as examples *)

(** The cash sale of the specification's scenario: one item, quantity 2,
    unit price 100, unit cost 40. *)
Definition acmeCashSale : SalesForm.t :=
  SalesForm.mk "INV-001" "Acme" "2025-01-15" "cash"
    [Item.mk "Widget" 2 100 40].

(** A credit sale of 100 and, against it, a collection of 150 and a return. *)
Definition acmeCreditSale : SalesForm.t :=
  SalesForm.mk "INV-002" "Acme" "2025-01-16" "credit"
    [Item.mk "Gadget" 1 100 40].

Definition acmeCollection150 : CollectionForm.t :=
  CollectionForm.mk 1 "2025-01-20" 150 "transfer" None.

Definition acmeReturn : ReturnForm.t :=
  ReturnForm.mk "RET-001" 1 "2025-01-21" "return" None
    [Item.mk "Gadget" 1 100 30].

Definition afterCreditSale : MemStorage :=
  snd (submit (Sale acmeCreditSale) Written newMemStorage).

Definition acmePartialCollection : CollectionForm.t :=
  CollectionForm.mk 1 "2025-01-20" 40 "transfer" None.

Definition acmeFinalCollection : CollectionForm.t :=
  CollectionForm.mk 1 "2025-01-25" 60 "transfer" None.

(** A batch of one line: debit Cash 100, no credit. *)
Definition oneSidedBatch : list InsertJournalEntry.t :=
  [ InsertJournalEntry.mk (Some 1%Z) None "1001" "Cash"
      (Some (toString 100)) (Some (toString 0)) (newDate "2025-01-15")
      "ADJ-1" "One-sided entry" ].

(** A cash sale of one washer at 0.1, unit cost 0.05. *)
Definition washerSale : SalesForm.t :=
  SalesForm.mk "INV-003" "Acme" "2025-01-17" "cash"
    [Item.mk "Washer" 1 0.1 0.05].




(** A cash sale of 1e17, unit cost 1, and a return of 2 items at 100, unit
    cost 40, against it. *)
Definition hugeSale : SalesForm.t :=
  SalesForm.mk "INV-005" "Acme" "2025-01-19" "cash"
    [Item.mk "Turbine" 1 1e17 1].

Definition afterHugeSale : MemStorage :=
  snd (submit (Sale hugeSale) Written newMemStorage).

Definition widgetReturn : ReturnForm.t :=
  ReturnForm.mk "RET-002" 1 "2025-01-23" "return" None
    [Item.mk "Widget" 2 100 40].

(** * Vocabulary of the further properties *)

(** ** When a request is accepted *)

Definition collectionAccepted (body : CollectionForm.t) (s : MemStorage)
  : bool :=
  collectionFormSchema body
  && match map_get (CollectionForm.invoiceId body) (salesInvoices s) with
     | Some invoice =>
         negb (gt (CollectionForm.amount body)
                 (parseFloat (SalesInvoice.outstandingAmount invoice)))
     | None => false
     end.

Definition returnAccepted (body : ReturnForm.t) (s : MemStorage) : bool :=
  returnFormSchema body
  && match map_get (ReturnForm.invoiceId body) (salesInvoices s) with
     | Some _ => true
     | None => false
     end.

Definition accepted (e : Event) (s : MemStorage) : bool :=
  match e with
  | Sale body => salesFormSchema body
  | Collect body => collectionAccepted body s
  | Return body => returnAccepted body s
  end.

(** Calls that are fulfilled, and route bodies that end in the write to
    the file followed by [res.json]: whatever the write does, the store
    they leave is the same; they are fulfilled with the same payload when
    the write is done and rejected with its error when it is not. *)
Definition fulfils {A : Type} (m : M A) : Prop :=
  forall s, exists a s', m s = (Fulfilled a, s').

Definition writeOnlyAt {A : Type} (s : MemStorage)
  (m : WriteFile -> M (Response A)) : Prop :=
  exists a s',
    forall w,
      m w s = (match w with
               | Written => Fulfilled (Json a)
               | Rejected message => Thrown message
               end, s').

Definition writeOnly {A : Type} (m : WriteFile -> M (Response A)) : Prop :=
  forall s, writeOnlyAt s m.

Definition written (w : WriteFile) : bool :=
  match w with
  | Written => true
  | Rejected _ => false
  end.

(** ** Rows added to a table *)

(** [this.table.set(x.id, x)] for each row of a list, in order. *)
Definition set_rows {V : Type} (id : V -> Z) (xs : list V) (m : JsMap V)
  : JsMap V :=
  fold_left (fun m x => map_set (id x) x m) xs m.

(** The rows built from a list of inputs while a counter runs from [k]. *)
Fixpoint stampWith {A V : Type} (mk : Z -> A -> V) (k : Z) (xs : list A)
  : list V :=
  match xs with
  | [] => []
  | x :: rest => mk k x :: stampWith mk (k + 1) rest
  end.

(** The sales item and the return item the routes store for a line. *)
Definition storedSalesItem (invoiceId k : Z) (item : Item.t) : SalesItem.t :=
  SalesItem.mk k (Some invoiceId) (Item.description item)
    (toString (Item.quantity item)) (toString (Item.unitPrice item))
    (toString (Item.cogsUnit item))
    (toString (Item.quantity item * Item.unitPrice item)).

Definition storedReturnItem (returnId k : Z) (item : Item.t) : ReturnItem.t :=
  ReturnItem.mk k (Some returnId) (Item.description item)
    (toString (Item.quantity item)) (toString (Item.unitPrice item))
    (toString (Item.cogsUnit item))
    (toString (Item.quantity item * Item.unitPrice item)).

Definition saleItems (body : SalesForm.t) (s : MemStorage) : list SalesItem.t :=
  stampWith (storedSalesItem (currentSalesInvoiceId s)) (currentSalesItemId s)
    (SalesForm.items body).

Definition returnedItems (body : ReturnForm.t) (s : MemStorage)
  : list ReturnItem.t :=
  stampWith (storedReturnItem (currentSalesReturnId s))
    (currentReturnItemId s) (ReturnForm.items body).

(** The stores after an accepted sale and an accepted return, item tables
    included. *)
Definition storeAfterSale (body : SalesForm.t) (s : MemStorage) (b : Balances)
  : MemStorage :=
  afterSale body s b
    (set_rows SalesItem.id (saleItems body s) (salesItems s))
    (currentSalesItemId s + Z.of_nat (List.length (SalesForm.items body))).

Definition storeAfterReturn (body : ReturnForm.t) (s : MemStorage)
  (b : Balances) (invoice : SalesInvoice.t) : MemStorage :=
  afterReturn body s b invoice
    (set_rows ReturnItem.id (returnedItems body s) (returnItems s))
    (currentReturnItemId s + Z.of_nat (List.length (ReturnForm.items body))).

(** ** Ids *)

(** A table whose rows were numbered by its counter: the keys are 1, 2,
    ... in insertion order, every row sits under its own id, and the
    counter is the next number. *)
Definition table_ok {V : Type} (id : V -> Z) (T : JsMap V) (c : Z) : Prop :=
  map_keys T = idsFrom 1 (List.length T)
  /\ c = (1 + Z.of_nat (List.length T))%Z
  /\ Forall (fun kv => id (snd kv) = fst kv) T.

Definition Tables (s : MemStorage) : Prop :=
  table_ok Account.id (accounts s) (currentAccountId s)
  /\ table_ok Transaction.id (transactions s) (currentTransactionId s)
  /\ table_ok JournalEntry.id (journalEntries s) (currentJournalEntryId s)
  /\ table_ok SalesInvoice.id (salesInvoices s) (currentSalesInvoiceId s)
  /\ table_ok SalesItem.id (salesItems s) (currentSalesItemId s)
  /\ table_ok Collection.id (collections s) (currentCollectionId s)
  /\ table_ok SalesReturn.id (salesReturns s) (currentSalesReturnId s)
  /\ table_ok ReturnItem.id (returnItems s) (currentReturnItemId s).

(** ** Sorting

    What the properties ask of the library sort: the sorted array holds
    the elements of the array, each as often as it was there. *)
Definition permutes (sort : Sort) : Prop :=
  forall (A : Type) (cmp : A -> A -> number) (xs : list A),
    Permutation xs (sort A cmp xs).

(** A sort to run the examples with: stable insertion by the
    comparator. *)
Fixpoint insertBy {A : Type} (cmp : A -> A -> number) (x : A)
  (sorted : list A) : list A :=
  match sorted with
  | [] => [x]
  | y :: rest =>
      if lt (cmp x y) 0 then x :: y :: rest
      else y :: insertBy cmp x rest
  end.

Definition insertionSort : Sort :=
  fun A cmp xs => fold_left (fun sorted x => insertBy cmp x sorted) xs [].

(** ** Maps *)

(** A map holds each key once. *)
Fixpoint distinct (ks : list Z) : bool :=
  match ks with
  | [] => true
  | k :: rest => negb (existsb (Z.eqb k) rest) && distinct rest
  end.

Definition keysDistinct (s : MemStorage) : bool :=
  distinct (map_keys (accounts s)) && distinct (map_keys (transactions s))
  && distinct (map_keys (journalEntries s))
  && distinct (map_keys (salesInvoices s))
  && distinct (map_keys (salesItems s)) && distinct (map_keys (collections s))
  && distinct (map_keys (salesReturns s))
  && distinct (map_keys (returnItems s)).

(** ** References between the tables *)

(** A reference that is set and names a row of the table. *)
Definition refersTo {V : Type} (T : JsMap V) (x : option Z) : Prop :=
  exists k v, x = Some k /\ map_get k T = Some v.

Definition Linked (s : MemStorage) : Prop :=
  Forall (fun e => refersTo (transactions s) (JournalEntry.transactionId e))
    (map_values (journalEntries s))
  /\ Forall (fun i => refersTo (salesInvoices s) (SalesItem.invoiceId i))
       (map_values (salesItems s))
  /\ Forall (fun c => refersTo (salesInvoices s) (Collection.invoiceId c))
       (map_values (collections s))
  /\ Forall (fun r => refersTo (salesInvoices s) (SalesReturn.invoiceId r))
       (map_values (salesReturns s))
  /\ Forall (fun i => refersTo (salesReturns s) (ReturnItem.returnId i))
       (map_values (returnItems s)).

(** The line of the request a stored item was made from. *)
Definition salesItemLine (i : SalesItem.t)
  : string * number * number * number * number :=
  (SalesItem.description i, parseFloat (SalesItem.quantity i),
   parseFloat (SalesItem.unitPrice i), parseFloat (SalesItem.cogsUnit i),
   parseFloat (SalesItem.totalAmount i)).

Definition returnItemLine (i : ReturnItem.t)
  : string * number * number * number * number :=
  (ReturnItem.description i, parseFloat (ReturnItem.quantity i),
   parseFloat (ReturnItem.unitPrice i), parseFloat (ReturnItem.cogsUnit i),
   parseFloat (ReturnItem.totalAmount i)).

Definition requestLine (i : Item.t)
  : string * number * number * number * number :=
  (Item.description i, Item.quantity i, Item.unitPrice i, Item.cogsUnit i,
   Item.quantity i * Item.unitPrice i).

(** ** The groups of the journal page *)

(** The entries filed under a key, in the groups of the journal page. *)
Definition groupOf (key : string)
  (groups : list (string * list JournalEntry.t)) : list JournalEntry.t :=
  match find (fun group => String.eqb (fst group) key) groups with
  | Some group => snd group
  | None => []
  end.

(** ** The journal by account *)

(** The accounts the routes write journal lines on. *)
Definition postedCodes : list string :=
  ["1001"; "1002"; "1003"; "4001"; "4002"; "5001"].

(** A line as the routes write them: on one of those accounts, a debit or
    a credit, the other amount being 0, and no amount negative or NaN. *)
Definition line_ok (e : JournalEntry.t) : Prop :=
  In (JournalEntry.accountCode e) postedCodes
  /\ (parseFloat (JournalEntry.debitAmount e) = 0
      \/ parseFloat (JournalEntry.creditAmount e) = 0)
  /\ notNegative (parseFloat (JournalEntry.debitAmount e)) = true
  /\ notNegative (parseFloat (JournalEntry.creditAmount e)) = true.

(** ** Transactions and their journal lines *)

(** A transaction with the journal lines that carry its id: four lines
    for a sale or a return, two for a collection, all with the reference
    and the date of the transaction, the first one debiting its total
    amount. *)
Definition transactionLines (t : Transaction.t) (lines : list JournalEntry.t)
  : Prop :=
  (Transaction.type t = "sale" /\ List.length lines = 4%nat
   \/ Transaction.type t = "collection" /\ List.length lines = 2%nat
   \/ Transaction.type t = "return" /\ List.length lines = 4%nat)
  /\ Forall
       (fun e =>
          JournalEntry.reference e = Transaction.reference t
          /\ JournalEntry.date e = Transaction.date t)
       lines
  /\ exists first rest,
      lines = first :: rest
      /\ JournalEntry.debitAmount first = Transaction.totalAmount t.

Definition Posted (s : MemStorage) : Prop :=
  Forall (fun t => transactionLines t (entriesOf (Transaction.id t) s))
    (map_values (transactions s)).

(** ** What a request leaves in place *)

Definition extends {A : Type} (old new : list A) : Prop :=
  exists added, new = (old ++ added)%list.

(** The fields of an invoice that no route writes after its creation. *)
Definition invoiceHead (i : SalesInvoice.t)
  : Z * string * string * Date * string * numstr :=
  (SalesInvoice.id i, SalesInvoice.invoiceNumber i,
   SalesInvoice.customerName i, SalesInvoice.date i,
   SalesInvoice.paymentMethod i, SalesInvoice.totalAmount i).

(** The second store has every row of the first, unchanged and in the
    same place, but for the balances of the eight accounts and the
    payment fields of the invoices. *)
Definition Keeps (s s' : MemStorage) : Prop :=
  map_keys (accounts s') = map_keys (accounts s)
  /\ extends (transactions s) (transactions s')
  /\ extends (journalEntries s) (journalEntries s')
  /\ extends (map (fun kv => (fst kv, invoiceHead (snd kv))) (salesInvoices s))
       (map (fun kv => (fst kv, invoiceHead (snd kv))) (salesInvoices s'))
  /\ extends (salesItems s) (salesItems s')
  /\ extends (collections s) (collections s')
  /\ extends (salesReturns s) (salesReturns s')
  /\ extends (returnItems s) (returnItems s').

(** ** Exact arithmetic

    An addition or subtraction of doubles is exact when its result is
    finite and stands for the sum or difference of what the operands
    stand for. *)
Definition exactAdd (x y : number) : bool :=
  isFinite (x + y) && Qeq_bool (value (x + y)) (value x + value y).

Definition exactSub (x y : number) : bool :=
  isFinite (x - y) && Qeq_bool (value (x - y)) (value x - value y).

(** The additions and subtractions a route does on the balances (and, for
    a collection, on the invoice) are exact. *)
Definition exactSale (body : SalesForm.t) (s : MemStorage) : bool :=
  let amount := sumAmount (SalesForm.items body) in
  let cogs := sumCOGS (SalesForm.items body) in
  exactAdd
    (balanceOf
       (if String.eqb (SalesForm.paymentMethod body) "cash"
        then "1001" else "1002") s) amount
  && exactSub (balanceOf "1003" s) cogs
  && exactAdd (balanceOf "4001" s) amount
  && exactAdd (balanceOf "5001" s) cogs
  && exactSub amount cogs
  && exactAdd (balanceOf "3001" s) (amount - cogs).

Definition exactCollection (body : CollectionForm.t) (s : MemStorage)
  : bool :=
  let amount := CollectionForm.amount body in
  exactAdd (balanceOf "1001" s) amount
  && exactSub (balanceOf "1002" s) amount
  && match map_get (CollectionForm.invoiceId body) (salesInvoices s) with
     | Some invoice =>
         exactAdd
           (parseFloat (orElse (SalesInvoice.paidAmount invoice) (toString 0)))
           amount
         && exactSub (parseFloat (SalesInvoice.outstandingAmount invoice))
              amount
     | None => true
     end.

Definition exactReturn (body : ReturnForm.t) (s : MemStorage) : bool :=
  let amount := sumAmount (ReturnForm.items body) in
  let cogs := sumCOGS (ReturnForm.items body) in
  match map_get (ReturnForm.invoiceId body) (salesInvoices s) with
  | Some invoice =>
      exactSub
        (balanceOf
           (if String.eqb (SalesInvoice.paymentMethod invoice) "cash"
            then "1001" else "1002") s) amount
      && exactAdd (balanceOf "1003" s) cogs
      && exactAdd (balanceOf "4002" s) amount
      && exactSub (balanceOf "5001" s) cogs
      && exactSub amount cogs
      && exactSub (balanceOf "3001" s) (amount - cogs)
  | None => true
  end.

Definition exactEvent (e : Event) (s : MemStorage) : bool :=
  match e with
  | Sale body => exactSale body s
  | Collect body => exactCollection body s
  | Return body => exactReturn body s
  end.

(** The stores reached by requests whose arithmetic is exact. *)
Inductive ExactlyReachable : MemStorage -> Prop :=
| Exactly_new : ExactlyReachable newMemStorage
| Exactly_submit (s : MemStorage) (e : Event) (writeFile : WriteFile) :
    ExactlyReachable s -> exactEvent e s = true ->
    ExactlyReachable (snd (submit e writeFile s)).

(** The two additions of [getBalanceSheet] that give [totalAssets] are
    exact. *)
Definition exactSheet (s : MemStorage) : bool :=
  exactAdd (balanceOf "1001" s) (balanceOf "1002" s)
  && exactAdd (balanceOf "1001" s + balanceOf "1002" s) (balanceOf "1003" s).

(** The amounts of an invoice as numbers. *)
Definition paidOf (i : SalesInvoice.t) : number :=
  parseFloat (orElse (SalesInvoice.paidAmount i) (toString 0)).

Definition outstandingOf (i : SalesInvoice.t) : number :=
  parseFloat (SalesInvoice.outstandingAmount i).

Definition totalOf (i : SalesInvoice.t) : number :=
  parseFloat (SalesInvoice.totalAmount i).

(** What exact arithmetic keeps true of the balances and of the
    invoices. *)
Definition Exact (s : MemStorage) : Prop :=
  Forall (fun a => isFinite (parseFloat (Account.balance a)) = true)
    (map_values (accounts s))
  /\ (value (balanceOf "1001" s) + value (balanceOf "1002" s)
       + value (balanceOf "1003" s) == value (balanceOf "3001" s))%Q
  /\ balanceOf "2001" s = 0
  /\ (value (balanceOf "1003" s) + value (balanceOf "5001" s) == 450000)%Q
  /\ (value (balanceOf "3001" s)
       == 2825000 + value (balanceOf "4001" s) - value (balanceOf "4002" s)
          - value (balanceOf "5001" s))%Q
  /\ Forall
       (fun i =>
          (value (paidOf i) + value (outstandingOf i) == value (totalOf i))%Q)
       (map_values (salesInvoices s)).

(** * Lemmas *)

(** ** Doubles *)

Lemma Prim2SF_0 : Prim2SF 0 = S754_zero false.
Proof. reflexivity. Qed.

(** [x === 0] holds of the two zeros only. *)
Lemma strictEq_0 (x : number) :
  strictEq x 0
  = match Prim2SF x with
    | S754_zero _ => true
    | _ => false
    end.
Proof.
  unfold strictEq. rewrite FloatAxioms.eqb_spec, Prim2SF_0.
  destruct (Prim2SF x) as [s|s| |s m e]; try destruct s; reflexivity.
Qed.

(** [x > 0] holds of the positive finite doubles and of Infinity. *)
Lemma positive_spec (x : number) :
  positive x
  = match Prim2SF x with
    | S754_finite false _ _ | S754_infinity false => true
    | _ => false
    end.
Proof.
  unfold positive, gt. rewrite FloatAxioms.ltb_spec, Prim2SF_0.
  destruct (Prim2SF x) as [s|s| |s m e]; try destruct s; reflexivity.
Qed.

Lemma canon_strictEq (x : number) :
  canon x = if strictEq x 0 then 0 else x.
Proof. reflexivity. Qed.

Lemma canon_canon (x : number) : canon (canon x) = canon x.
Proof.
  unfold canon. destruct (x =? 0) eqn:E; [reflexivity|]. now rewrite E.
Qed.

Lemma canon_0 : canon 0 = 0.
Proof. reflexivity. Qed.

Lemma parseFloat_toString (x : number) : parseFloat (toString x) = canon x.
Proof. reflexivity. Qed.

Lemma toString_canon (x : number) : toString (canon x) = toString x.
Proof. unfold toString. now rewrite canon_canon. Qed.

Lemma toString_parseFloat_toString (x : number) :
  toString (parseFloat (toString x)) = toString x.
Proof. apply toString_canon. Qed.

(** A double that is not NaN and whose sign bit is clear: 0, a positive
    finite double or Infinity. *)
Lemma notNegative_spec (x : number) :
  notNegative x
  = match Prim2SF x with
    | S754_zero false | S754_finite false _ _ | S754_infinity false => true
    | _ => false
    end.
Proof.
  unfold notNegative, isNaN, signBit.
  destruct (Prim2SF x) as [s|s| |s m e]; try destruct s; reflexivity.
Qed.

Lemma positive_notNegative (x : number) :
  positive x = true -> notNegative x = true.
Proof.
  rewrite positive_spec, notNegative_spec.
  destruct (Prim2SF x) as [s|s| |s m e]; try destruct s; congruence.
Qed.

Lemma notNegative_0 : notNegative 0 = true.
Proof. reflexivity. Qed.

Lemma notNegative_canon (x : number) :
  notNegative x = true -> canon x = x.
Proof.
  rewrite notNegative_spec, canon_strictEq, strictEq_0. intros H.
  destruct (Prim2SF x) as [s|s| |s m e] eqn:E; try reflexivity.
  destruct s; [discriminate|]. apply Prim2SF_inj. now rewrite E.
Qed.

Lemma canon_notNegative (x : number) :
  notNegative x = true -> notNegative (canon x) = true.
Proof. intros H. now rewrite (notNegative_canon x H). Qed.

Section Rounding.

Variables prec emax : Z.

Lemma iter_pos_invariant {A : Type} (f : A -> A) (P : A -> Prop) :
  (forall x, P x -> P (f x)) ->
  forall n x, P x -> P (SpecFloat.iter_pos f n x).
Proof.
  intros Hf. induction n as [n IH|n IH|]; intros x Hx; cbn [SpecFloat.iter_pos]; auto.
Qed.

Lemma shr_1_nonneg (mrs : shr_record) :
  (0 <= shr_m mrs)%Z -> (0 <= shr_m (shr_1 mrs))%Z.
Proof.
  destruct mrs as [m r s]. cbn [shr_m]. intros H.
  destruct m as [|p|p]; [| destruct p | lia]; cbn; lia.
Qed.

Lemma shr_fexp_nonneg (m e : Z) (l : location) :
  (0 <= m)%Z -> (0 <= shr_m (fst (shr_fexp prec emax m e l)))%Z.
Proof.
  intros H. unfold shr_fexp, shr.
  assert (H0 : (0 <= shr_m (shr_record_of_loc m l))%Z)
    by (destruct l as [|[]]; exact H).
  destruct (Z.sub (fexp prec emax (Z.add (Zdigits2 m) e)) e);
    cbn [fst]; try exact H0.
  apply iter_pos_invariant; [exact shr_1_nonneg | exact H0].
Qed.

Lemma round_nearest_even_nonneg (m : Z) (l : location) :
  (0 <= m)%Z -> (0 <= round_nearest_even m l)%Z.
Proof.
  intros H. unfold round_nearest_even.
  destruct l as [|[]]; try destruct (Z.even m); lia.
Qed.

(** Rounding a non-negative mantissa gives 0, a finite double or an
    infinity of the sign asked for, never NaN. *)
Lemma binary_round_aux_sign (sx : bool) (m e : Z) (l : location) :
  (0 <= m)%Z ->
  match binary_round_aux prec emax sx m e l with
  | S754_zero s | S754_infinity s | S754_finite s _ _ => s = sx
  | S754_nan => False
  end.
Proof.
  intros H. unfold binary_round_aux.
  pose proof (shr_fexp_nonneg m e l H) as H1.
  destruct (shr_fexp prec emax m e l) as [mrs' e'] eqn:E1. cbn [fst] in H1.
  pose proof (shr_fexp_nonneg _ e' loc_Exact
                (round_nearest_even_nonneg _ (loc_of_shr_record mrs') H1))
    as H2.
  destruct (shr_fexp prec emax _ e' loc_Exact) as [mrs'' e''].
  cbn [fst] in H2.
  destruct (shr_m mrs'') as [|p|p]; [reflexivity| |lia].
  destruct (Z.leb e'' (Z.sub emax prec)); reflexivity.
Qed.

Lemma binary_round_sign (sx : bool) (m : BinNums.positive) (e : Z) :
  match binary_round prec emax sx m e with
  | S754_zero s | S754_infinity s | S754_finite s _ _ => s = sx
  | S754_nan => False
  end.
Proof.
  unfold binary_round.
  destruct (shl_align m e _) as [mz ez].
  apply binary_round_aux_sign. lia.
Qed.

Lemma SFadd_notNegative (x y : spec_float) :
  match x with
  | S754_zero false | S754_finite false _ _ | S754_infinity false => True
  | _ => False
  end ->
  match y with
  | S754_zero false | S754_finite false _ _ | S754_infinity false => True
  | _ => False
  end ->
  match SFadd prec emax x y with
  | S754_zero false | S754_finite false _ _ | S754_infinity false => True
  | _ => False
  end.
Proof.
  destruct x as [[]|[]| |[] mx ex]; try contradiction;
    destruct y as [[]|[]| |[] my ey]; try contradiction; intros _ _;
    try exact I.
  cbn [SFadd cond_Zopp]. cbv zeta.
  set (a := fst (shl_align mx ex (Z.min ex ey))).
  set (b := fst (shl_align my ey (Z.min ex ey))).
  change (Z.add (Zpos a) (Zpos b)) with (Zpos (a + b)).
  cbn [binary_normalize].
  pose proof (binary_round_sign false (a + b) (Z.min ex ey)) as H.
  destruct (binary_round prec emax false (a + b) (Z.min ex ey))
    as [s|s| |s m e]; try contradiction; now subst s.
Qed.

Lemma SFmul_positive (x y : spec_float) :
  match x with
  | S754_finite false _ _ | S754_infinity false => True
  | _ => False
  end ->
  match y with
  | S754_finite false _ _ | S754_infinity false => True
  | _ => False
  end ->
  match SFmul prec emax x y with
  | S754_zero false | S754_finite false _ _ | S754_infinity false => True
  | _ => False
  end.
Proof.
  destruct x as [[]|[]| |[] mx ex]; try contradiction;
    destruct y as [[]|[]| |[] my ey]; try contradiction; intros _ _;
    try exact I.
  cbn [SFmul xorb].
  pose proof (binary_round_aux_sign false (Zpos (mx * my)) (Z.add ex ey)
                loc_Exact) as H.
  destruct (binary_round_aux prec emax false (Zpos (mx * my)) (Z.add ex ey)
              loc_Exact)
    as [s|s| |s m e]; try (apply H; lia).
  - rewrite H by lia. exact I.
  - rewrite H by lia. exact I.
  - rewrite H by lia. exact I.
Qed.

Lemma SFsub_diag (x : spec_float) :
  SFsub prec emax x x = S754_zero false \/ SFsub prec emax x x = S754_nan.
Proof.
  destruct x as [[]|[]| |s m e]; cbn [SFsub]; auto.
  left. cbv zeta. rewrite Z.sub_diag. reflexivity.
Qed.

Lemma SFcompare_refl (x : spec_float) :
  x <> S754_nan -> SFcompare x x = Some Eq.
Proof.
  destruct x as [[]|[]| |[] m e]; cbn [SFcompare]; try congruence;
    intros _; rewrite Z.compare_refl, Pos.compare_cont_refl; reflexivity.
Qed.

Lemma SFltb_asym (x y : spec_float) :
  SFltb x y = true -> SFltb y x = false.
Proof.
  unfold SFltb.
  destruct x as [[]|[]| |[] mx ex]; destruct y as [[]|[]| |[] my ey];
    cbn [SFcompare]; try congruence;
    rewrite (Z.compare_antisym ex ey);
    assert (H : Pos.compare_cont Eq mx my
                = CompOpp (Pos.compare_cont Eq my mx))
      by (rewrite Pos.compare_cont_antisym; reflexivity);
    rewrite H;
    destruct (Z.compare ex ey); cbn [CompOpp]; try congruence;
    destruct (Pos.compare_cont Eq my mx); cbn [CompOpp]; congruence.
Qed.

End Rounding.

Lemma add_notNegative (x y : number) :
  notNegative x = true -> notNegative y = true ->
  notNegative (x + y) = true.
Proof.
  rewrite !notNegative_spec, FloatAxioms.add_spec. intros Hx Hy.
  pose proof (SFadd_notNegative prec emax (Prim2SF x) (Prim2SF y)) as H.
  unfold SF64add.
  destruct (Prim2SF x) as [[]|[]| |[] mx ex]; try discriminate;
    destruct (Prim2SF y) as [[]|[]| |[] my ey]; try discriminate;
    specialize (H I I);
    destruct (SFadd prec emax _ _) as [[]|[]| |[] m e];
    try contradiction; reflexivity.
Qed.

Lemma mul_positive (x y : number) :
  positive x = true -> positive y = true -> notNegative (x * y) = true.
Proof.
  rewrite !positive_spec, notNegative_spec, FloatAxioms.mul_spec. intros Hx Hy.
  pose proof (SFmul_positive prec emax (Prim2SF x) (Prim2SF y)) as H.
  unfold SF64mul.
  destruct (Prim2SF x) as [[]|[]| |[] mx ex]; try discriminate;
    destruct (Prim2SF y) as [[]|[]| |[] my ey]; try discriminate;
    specialize (H I I);
    destruct (SFmul prec emax _ _) as [[]|[]| |[] m e];
    try contradiction; reflexivity.
Qed.

(** [0 + x] and [x + 0] are [x], but for -0, which gives 0. *)
Lemma add_0_l (x : number) : 0 + x = canon x.
Proof.
  rewrite canon_strictEq, strictEq_0.
  apply Prim2SF_inj. rewrite FloatAxioms.add_spec, Prim2SF_0.
  destruct (Prim2SF x) as [[]|[]| |s m e] eqn:E; try reflexivity;
    now rewrite E.
Qed.

Lemma add_0_r (x : number) : x + 0 = canon x.
Proof.
  rewrite canon_strictEq, strictEq_0.
  apply Prim2SF_inj. rewrite FloatAxioms.add_spec, Prim2SF_0.
  destruct (Prim2SF x) as [[]|[]| |s m e] eqn:E; try reflexivity;
    now rewrite E.
Qed.

Lemma strictEq_refl (x : number) : isNaN x = false -> strictEq x x = true.
Proof.
  unfold strictEq, isNaN. rewrite FloatAxioms.eqb_spec. unfold SFeqb. intros H.
  rewrite SFcompare_refl; [reflexivity|].
  destruct (Prim2SF x); congruence.
Qed.

Lemma notNegative_isNaN (x : number) :
  notNegative x = true -> isNaN x = false.
Proof.
  unfold notNegative. intros H. apply andb_true_iff in H as [H _].
  now apply negb_true_iff.
Qed.

(** The difference of a double and itself is 0 or NaN: it never exceeds
    the tolerance of the journal page, and it is within the tolerance of
    [validateJournalEntry] unless it is NaN. *)
Lemma sub_diag (x : number) : x - x = 0 \/ x - x = nan.
Proof.
  destruct (SFsub_diag prec emax (Prim2SF x)) as [H|H]; [left|right];
    apply Prim2SF_inj; rewrite FloatAxioms.sub_spec; exact H.
Qed.

Lemma gt_abs_sub_diag (x : number) : gt (abs (x - x)) 0.01 = false.
Proof. destruct (sub_diag x) as [-> | ->]; reflexivity. Qed.

Lemma lt_gt_asym (a b : number) : gt a b = true -> lt a b = false.
Proof.
  unfold gt, lt. rewrite !FloatAxioms.ltb_spec. apply SFltb_asym.
Qed.

(** ** Exact values *)

Lemma value_canon (x : number) : value (canon x) = value x.
Proof.
  rewrite canon_strictEq, strictEq_0. unfold value.
  destruct (Prim2SF x) as [s|s| |s m e] eqn:E; rewrite ?E; reflexivity.
Qed.

Lemma isFinite_canon (x : number) : isFinite (canon x) = isFinite x.
Proof.
  rewrite canon_strictEq, strictEq_0. unfold isFinite.
  destruct (Prim2SF x) as [s|s| |s m e] eqn:E; rewrite ?E; reflexivity.
Qed.

Lemma sub_diag_finite (x : number) : isFinite x = true -> x - x = 0.
Proof.
  unfold isFinite. intros H. apply Prim2SF_inj.
  rewrite FloatAxioms.sub_spec, Prim2SF_0. unfold SF64sub.
  destruct (Prim2SF x) as [[]|[]| |s m e]; try discriminate;
    cbn [SFsub]; try reflexivity.
  cbv zeta. rewrite Z.sub_diag. reflexivity.
Qed.




(** The number of binary digits of a mantissa shifted left. *)
Lemma digits2_pos_shift (n : nat) :
  forall m1 m2 : BinNums.positive,
    Z.pos m1 = (Z.pos m2 * 2 ^ Z.of_nat n)%Z ->
    Z.pos (digits2_pos m1) = (Z.pos (digits2_pos m2) + Z.of_nat n)%Z.
Proof.
  induction n as [|n IH]; intros m1 m2 H.
  - change (2 ^ Z.of_nat 0)%Z with 1%Z in H. rewrite Z.mul_1_r in H.
    injection H as ->. cbn [Z.of_nat]. lia.
  - rewrite Nat2Z.inj_succ, Z.pow_succ_r in H by lia.
    assert (Hp : (0 < Z.pos m2 * 2 ^ Z.of_nat n)%Z)
      by (apply Z.mul_pos_pos; [lia | apply Z.pow_pos_nonneg; lia]).
    destruct (Z.pos m2 * 2 ^ Z.of_nat n)%Z as [|p|p] eqn:E; try lia.
    assert (m1 = xO p) by lia. subst m1.
    cbn [digits2_pos]. rewrite Pos2Z.inj_succ, (IH p m2 (eq_sym E)). lia.
Qed.

Lemma Qpower2_pos (e : Z) : (0 < (2 # 1) ^ e)%Q.
Proof. apply Qpower_0_lt. reflexivity. Qed.

(** Two mantissas with exponents that stand for the same number, the
    first exponent being the smaller. *)
Lemma same_number_shift (m1 m2 : BinNums.positive) (e1 e2 : Z) :
  (e1 <= e2)%Z ->
  (inject_Z (Z.pos m1) * (2 # 1) ^ e1 == inject_Z (Z.pos m2) * (2 # 1) ^ e2)%Q ->
  Z.pos m1 = (Z.pos m2 * 2 ^ (e2 - e1))%Z.
Proof.
  intros Hle H.
  replace e2 with (e1 + (e2 - e1))%Z in H at 1 by lia.
  rewrite Qpower_plus in H by discriminate.
  rewrite <- (Zpower_Qpower 2 (e2 - e1)) in H by lia.
  change (inject_Z 2) with (2 # 1) in H.
  pose proof (Qpower2_pos e1) as P.
  assert (H' : (inject_Z (Z.pos m1)
                == inject_Z (Z.pos m2) * inject_Z (2 ^ (e2 - e1)))%Q).
  { apply (Qmult_inj_r _ _ ((2 # 1) ^ e1)); [lra|]. rewrite H. ring. }
  rewrite <- inject_Z_mult in H'. exact (proj1 (inject_Z_injective _ _) H').
Qed.

Lemma canonical_unique (m1 m2 : BinNums.positive) (e1 e2 : Z) :
  canonical_mantissa prec emax m1 e1 = true ->
  canonical_mantissa prec emax m2 e2 = true ->
  (e1 <= e2)%Z ->
  (inject_Z (Z.pos m1) * (2 # 1) ^ e1 == inject_Z (Z.pos m2) * (2 # 1) ^ e2)%Q ->
  e1 = e2 /\ m1 = m2.
Proof.
  intros C1 C2 Hle H.
  pose proof (same_number_shift m1 m2 e1 e2 Hle H) as Hm.
  assert (D : Z.pos (digits2_pos m1)
              = (Z.pos (digits2_pos m2) + (e2 - e1))%Z).
  { rewrite <- (Z2Nat.id (e2 - e1)) by lia.
    apply digits2_pos_shift. rewrite Z2Nat.id by lia. exact Hm. }
  unfold canonical_mantissa in C1, C2.
  apply Z.eqb_eq in C1, C2.
  assert (E : e1 = e2).
  { rewrite <- C1, <- C2. f_equal. lia. }
  split; [exact E|]. subst e2. rewrite Z.sub_diag in Hm.
  change (2 ^ 0)%Z with 1%Z in Hm. lia.
Qed.

Lemma finite_valid (x : number) (s : bool) (m : BinNums.positive) (e : Z) :
  Prim2SF x = S754_finite s m e -> canonical_mantissa prec emax m e = true.
Proof.
  intros E. pose proof (FloatAxioms.Prim2SF_valid x) as V. rewrite E in V.
  cbn [valid_binary] in V. unfold bounded in V.
  now apply andb_true_iff in V as [V _].
Qed.

Lemma signed_pos (s : bool) (m : BinNums.positive) (e : Z) :
  (inject_Z (if s then Z.neg m else Z.pos m) * (2 # 1) ^ e
   == (if s then -1 else 1) * (inject_Z (Z.pos m) * (2 # 1) ^ e))%Q.
Proof.
  destruct s; [|ring].
  change (Z.neg m) with (- Z.pos m)%Z. rewrite inject_Z_opp. ring.
Qed.

Lemma mantissa_pos (m : BinNums.positive) (e : Z) :
  (0 < inject_Z (Z.pos m) * (2 # 1) ^ e)%Q.
Proof.
  apply Qmult_lt_0_compat; [|apply Qpower2_pos].
  change 0%Q with (inject_Z 0). rewrite <- Zlt_Qlt. lia.
Qed.

(** Finite doubles that stand for the same number compare equal. *)
Lemma value_strictEq (x y : number) :
  isFinite x = true -> isFinite y = true ->
  (value x == value y)%Q -> strictEq x y = true.
Proof.
  unfold isFinite, value, strictEq. rewrite FloatAxioms.eqb_spec.
  destruct (Prim2SF x) as [sx|sx| |sx mx ex] eqn:Ex; try discriminate;
    destruct (Prim2SF y) as [sy|sy| |sy my ey] eqn:Ey; try discriminate;
    intros _ _ H.
  - reflexivity.
  - exfalso. rewrite signed_pos in H. pose proof (mantissa_pos my ey).
    destruct sy; lra.
  - exfalso. rewrite signed_pos in H. pose proof (mantissa_pos mx ex).
    destruct sx; lra.
  - rewrite (signed_pos sx), (signed_pos sy) in H.
    pose proof (mantissa_pos mx ex) as Px.
    pose proof (mantissa_pos my ey) as Py.
    pose proof (finite_valid x _ _ _ Ex) as Cx.
    pose proof (finite_valid y _ _ _ Ey) as Cy.
    assert (Hs : sx = sy) by (destruct sx, sy; try reflexivity; lra).
    subst sy.
    assert (H' : (inject_Z (Z.pos mx) * (2 # 1) ^ ex
                  == inject_Z (Z.pos my) * (2 # 1) ^ ey)%Q)
      by (destruct sx; lra).
    assert (E : ex = ey /\ mx = my).
    { destruct (Z.le_ge_cases ex ey) as [L|L].
      - exact (canonical_unique mx my ex ey Cx Cy L H').
      - symmetry in H'.
        destruct (canonical_unique my mx ey ex Cy Cx L H') as [-> ->].
        now split. }
    destruct E as [-> ->]. unfold SFeqb. cbn [SFcompare].
    rewrite Z.compare_refl.
    assert (R : Pos.compare_cont Eq my my = Eq)
      by (apply Pcompare_refl).
    destruct sx; rewrite ?R; reflexivity.
Qed.
(** ** The chart and the maps *)

Lemma newMemStorage_chart : accounts newMemStorage = chart openingBalances.
Proof. reflexivity. Qed.

(** ** Maps as lists *)

Lemma map_set_fresh {V : Type} (k : Z) (v : V) (m : JsMap V) :
  Forall (fun k' => (k' < k)%Z) (map_keys m) -> map_set k v m = (m ++ [(k, v)])%list.
Proof.
  induction m as [|[k' v'] m IH]; intros H; cbn.
  - reflexivity.
  - inversion H as [|? ? Hk Hm]; subst.
    destruct (Z.eqb_spec k k') as [->|_]; [lia|].
    now rewrite IH.
Qed.

Lemma map_values_set_Forall {V : Type} (P : V -> Prop) (k : Z) (v : V)
  (m : JsMap V) :
  Forall P (map_values m) -> P v -> Forall P (map_values (map_set k v m)).
Proof.
  intros Hm Hv. induction m as [|[k' v'] m IH]; cbn.
  - now constructor.
  - inversion Hm; subst. destruct (k =? k')%Z; cbn; constructor; auto.
Qed.

Lemma map_get_In {V : Type} (k : Z) (v : V) (m : JsMap V) :
  map_get k m = Some v -> In v (map_values m).
Proof.
  induction m as [|[k' v'] m IH]; cbn; [discriminate|].
  destruct (k =? k')%Z.
  - intros [= ->]. now left.
  - intros H. right. now apply IH.
Qed.

Lemma map_get_set_same {V : Type} (k : Z) (v : V) (m : JsMap V) :
  map_get k (map_set k v m) = Some v.
Proof.
  induction m as [|[k' v'] m IH]; cbn.
  - now rewrite Z.eqb_refl.
  - destruct (Z.eqb_spec k k') as [->|Hne]; cbn.
    + now rewrite Z.eqb_refl.
    + destruct (Z.eqb_spec k k'); [contradiction|]. exact IH.
Qed.

Lemma map_get_set_other {V : Type} (k k' : Z) (v : V) (m : JsMap V) :
  k <> k' -> map_get k (map_set k' v m) = map_get k m.
Proof.
  intros Hne. induction m as [|[k0 v0] m IH]; cbn.
  - destruct (Z.eqb_spec k k'); [contradiction|reflexivity].
  - destruct (Z.eqb_spec k' k0) as [->|Hne0]; cbn.
    + destruct (Z.eqb_spec k k0); [contradiction|reflexivity].
    + destruct (k =? k0)%Z; [reflexivity|exact IH].
Qed.

Lemma set_entries_fresh (es : list JournalEntry.t) :
  forall (k : Z) (m : JsMap JournalEntry.t),
    Forall (fun k' => (k' < k)%Z) (map_keys m) ->
    map JournalEntry.id es = idsFrom k (List.length es) ->
    set_entries es m = (m ++ map (fun e => (JournalEntry.id e, e)) es)%list.
Proof.
  induction es as [|e es IH]; intros k m Hm Hids; cbn.
  - now rewrite app_nil_r.
  - cbn in Hids. injection Hids as He Hes.
    unfold set_entries in IH. rewrite He, (map_set_fresh k e m Hm).
    rewrite (IH (k + 1)%Z).
    + now rewrite <- app_assoc.
    + unfold map_keys in *. rewrite map_app, Forall_app. split.
      * eapply Forall_impl; [|exact Hm]. cbn. intros; lia.
      * repeat constructor. cbn. lia.
    + exact Hes.
Qed.

(** ** What each route does to a store with the seeded chart *)

(** The loops over the line items only add rows to the item tables. *)
Lemma forOf_salesItems (items : list Item.t) (body : Item.t -> M unit) :
  (forall x s, exists v,
      body x s =
      (Fulfilled tt,
       put_salesItem (currentSalesItemId s) v (currentSalesItemId s + 1)%Z s)) ->
  forall s, exists m n,
    forOf items body s =
    (Fulfilled tt,
     mkMemStorage (accounts s) (transactions s) (journalEntries s)
       (salesInvoices s) m (collections s) (salesReturns s) (returnItems s)
       (currentAccountId s) (currentTransactionId s)
       (currentJournalEntryId s) (currentSalesInvoiceId s) n
       (currentCollectionId s) (currentSalesReturnId s)
       (currentReturnItemId s)).
Proof.
  intros Hbody. induction items as [|x items IH]; intros s.
  - exists (salesItems s), (currentSalesItemId s). destruct s; reflexivity.
  - destruct (Hbody x s) as [v Hv].
    destruct (IH (put_salesItem (currentSalesItemId s) v
                    (currentSalesItemId s + 1)%Z s)) as (m & n & E).
    exists m, n. cbn [forOf]. unfold bind at 1. now rewrite Hv, E.
Qed.

Lemma forOf_returnItems (items : list Item.t) (body : Item.t -> M unit) :
  (forall x s, exists v,
      body x s =
      (Fulfilled tt,
       put_returnItem (currentReturnItemId s) v
         (currentReturnItemId s + 1)%Z s)) ->
  forall s, exists m n,
    forOf items body s =
    (Fulfilled tt,
     mkMemStorage (accounts s) (transactions s) (journalEntries s)
       (salesInvoices s) (salesItems s) (collections s) (salesReturns s) m
       (currentAccountId s) (currentTransactionId s)
       (currentJournalEntryId s) (currentSalesInvoiceId s)
       (currentSalesItemId s) (currentCollectionId s)
       (currentSalesReturnId s) n).
Proof.
  intros Hbody. induction items as [|x items IH]; intros s.
  - exists (returnItems s), (currentReturnItemId s). destruct s; reflexivity.
  - destruct (Hbody x s) as [v Hv].
    destruct (IH (put_returnItem (currentReturnItemId s) v
                    (currentReturnItemId s + 1)%Z s)) as (m & n & E).
    exists m, n. cbn [forOf]. unfold bind at 1. now rewrite Hv, E.
Qed.

(** Evaluation of a route body on an explicit store, amounts left alone. *)
Ltac run :=
  cbv -[PrimFloat.add PrimFloat.sub PrimFloat.mul PrimFloat.eqb PrimFloat.ltb
        toString sumAmount sumCOGS String.append Z.add].

Ltac run_sales_items :=
  match goal with
  | |- context [forOf ?xs ?body ?s0] =>
      let m := fresh "m" in
      let n := fresh "n" in
      let E := fresh "E" in
      destruct (forOf_salesItems xs body) with (s := s0) as (m & n & E);
      [ intros; eexists; reflexivity | rewrite E; clear E; exists m, n ]
  end.

Ltac run_return_items :=
  match goal with
  | |- context [forOf ?xs ?body ?s0] =>
      let m := fresh "m" in
      let n := fresh "n" in
      let E := fresh "E" in
      destruct (forOf_returnItems xs body) with (s := s0) as (m & n & E);
      [ intros; eexists; reflexivity | rewrite E; clear E; exists m, n ]
  end.

Ltac conjuncts := repeat (split; [reflexivity|]); try reflexivity.

(** *** POST /api/sales *)

Lemma postSales_rejected (body : SalesForm.t) (w : WriteFile)
  (s : MemStorage) :
  salesFormSchema body = false ->
  postSales body w s = (Status 400 zodError, s).
Proof.
  intros H. unfold postSales, tryCatch, parse. now rewrite H.
Qed.

Lemma postSales_run (body : SalesForm.t) (w : WriteFile) (s : MemStorage)
  (b : Balances) :
  salesFormSchema body = true ->
  accounts s = chart b ->
  exists m n,
    postSales body w s
    = (answer w (saleInvoice body s), afterSale body s b m n).
Proof.
  intros Hs Ha.
  destruct s as [acc tx je inv sitems col rets ritems n1 n2 n3 n4 n5 n6 n7 n8].
  cbn in Ha; subst acc.
  unfold postSales, tryCatch, parse. rewrite Hs.
  unfold bind at 1, ret at 1.
  unfold bind at 1, createSalesInvoice at 1.
  unfold bind at 1.
  run_sales_items.
  unfold afterSale, saleInvoice, saleEntries, saleTransaction, saleBalances.
  destruct w; destruct (String.eqb (SalesForm.paymentMethod body) "cash");
    run; reflexivity.
Qed.

(** *** POST /api/collections *)

Lemma postCollections_rejected (body : CollectionForm.t) (w : WriteFile)
  (s : MemStorage) :
  collectionFormSchema body = false ->
  postCollections body w s = (Status 400 zodError, s).
Proof.
  intros H. unfold postCollections, tryCatch, parse. now rewrite H.
Qed.

Lemma postCollections_not_found (body : CollectionForm.t) (w : WriteFile)
  (s : MemStorage) :
  collectionFormSchema body = true ->
  map_get (CollectionForm.invoiceId body) (salesInvoices s) = None ->
  postCollections body w s = (Status 404 "Invoice not found", s).
Proof.
  intros H Hget. unfold postCollections, tryCatch, parse. rewrite H.
  unfold bind at 1, ret at 1. unfold bind at 1, getSalesInvoiceById at 1.
  now rewrite Hget.
Qed.

Lemma postCollections_exceeds (body : CollectionForm.t) (w : WriteFile)
  (s : MemStorage) (invoice : SalesInvoice.t) :
  collectionFormSchema body = true ->
  map_get (CollectionForm.invoiceId body) (salesInvoices s) = Some invoice ->
  gt (CollectionForm.amount body)
     (parseFloat (SalesInvoice.outstandingAmount invoice)) = true ->
  postCollections body w s
  = (Status 400 "Collection amount exceeds outstanding balance", s).
Proof.
  intros H Hget Hgt. unfold postCollections, tryCatch, parse. rewrite H.
  unfold bind at 1, ret at 1. unfold bind at 1, getSalesInvoiceById at 1.
  rewrite Hget. cbv beta iota zeta. now rewrite Hgt.
Qed.

Lemma postCollections_run (body : CollectionForm.t) (w : WriteFile)
  (s : MemStorage) (b : Balances) (invoice : SalesInvoice.t) :
  collectionFormSchema body = true ->
  map_get (CollectionForm.invoiceId body) (salesInvoices s) = Some invoice ->
  gt (CollectionForm.amount body)
     (parseFloat (SalesInvoice.outstandingAmount invoice)) = false ->
  accounts s = chart b ->
  postCollections body w s
  = (answer w (collectionRecord body s invoice),
     afterCollection body s b invoice).
Proof.
  intros H Hget Hgt Ha.
  destruct s as [acc tx je inv sitems col rets ritems n1 n2 n3 n4 n5 n6 n7 n8].
  cbn in Ha, Hget; subst acc.
  unfold postCollections, tryCatch, parse. rewrite H.
  unfold bind at 1, ret at 1. unfold bind at 1, getSalesInvoiceById at 1.
  cbn [salesInvoices]. rewrite Hget. cbv beta iota zeta. rewrite Hgt.
  unfold bind at 1, createCollection at 1.
  unfold bind at 1, updateSalesInvoicePayment at 1.
  cbn [salesInvoices put_collection]. rewrite Hget.
  unfold afterCollection, collectionRecord, collectedInvoice,
    collectionTransaction, collectionEntries, collectBalances.
  destruct w; run; reflexivity.
Qed.

(** *** POST /api/sales-returns *)

Lemma postSalesReturns_rejected (body : ReturnForm.t) (w : WriteFile)
  (s : MemStorage) :
  returnFormSchema body = false ->
  postSalesReturns body w s = (Status 400 zodError, s).
Proof.
  intros H. unfold postSalesReturns, tryCatch, parse. now rewrite H.
Qed.

Lemma postSalesReturns_not_found (body : ReturnForm.t) (w : WriteFile)
  (s : MemStorage) :
  returnFormSchema body = true ->
  map_get (ReturnForm.invoiceId body) (salesInvoices s) = None ->
  postSalesReturns body w s = (Status 404 "Invoice not found", s).
Proof.
  intros H Hget. unfold postSalesReturns, tryCatch, parse. rewrite H.
  unfold bind at 1, ret at 1. unfold bind at 1, getSalesInvoiceById at 1.
  now rewrite Hget.
Qed.

Lemma postSalesReturns_run (body : ReturnForm.t) (w : WriteFile)
  (s : MemStorage) (b : Balances) (invoice : SalesInvoice.t) :
  returnFormSchema body = true ->
  map_get (ReturnForm.invoiceId body) (salesInvoices s) = Some invoice ->
  accounts s = chart b ->
  exists m n,
    postSalesReturns body w s
    = (answer w (returnRecord body s), afterReturn body s b invoice m n).
Proof.
  intros H Hget Ha.
  destruct s as [acc tx je inv sitems col rets ritems n1 n2 n3 n4 n5 n6 n7 n8].
  cbn in Ha, Hget; subst acc.
  unfold postSalesReturns, tryCatch, parse. rewrite H.
  unfold bind at 1, ret at 1. unfold bind at 1, getSalesInvoiceById at 1.
  cbn [salesInvoices]. rewrite Hget. cbv beta iota zeta.
  unfold bind at 1, createSalesReturn at 1.
  unfold bind at 1.
  run_return_items.
  unfold afterReturn, returnRecord, returnTransaction, returnEntries,
    returnBalances.
  destruct w; destruct (String.eqb (SalesInvoice.paymentMethod invoice) "cash");
    run; reflexivity.
Qed.

(** ** Amounts of valid requests *)

Lemma itemSchema_positive (i : Item.t) :
  itemSchema i = true ->
  positive (Item.quantity i) = true /\ positive (Item.unitPrice i) = true
  /\ positive (Item.cogsUnit i) = true.
Proof.
  unfold itemSchema. rewrite !andb_true_iff. tauto.
Qed.

Lemma fold_notNegative (f : Item.t -> number) (items : list Item.t) :
  Forall (fun i => notNegative (f i) = true) items ->
  forall a : number,
    notNegative a = true ->
    notNegative (fold_left (fun sum item => sum + f item) items a) = true.
Proof.
  induction 1 as [|i items Hi _ IH]; intros a Ha; cbn [fold_left].
  - exact Ha.
  - apply IH. now apply add_notNegative.
Qed.

Lemma sumAmount_notNegative (items : list Item.t) :
  forallb itemSchema items = true -> notNegative (sumAmount items) = true.
Proof.
  intros H. unfold sumAmount.
  apply (fold_notNegative
           (fun item => Item.quantity item * Item.unitPrice item));
    [|exact notNegative_0].
  rewrite forallb_forall in H. apply Forall_forall. intros i Hi.
  destruct (itemSchema_positive i (H i Hi)) as (Hq & Hp & _).
  now apply mul_positive.
Qed.

Lemma sumCOGS_notNegative (items : list Item.t) :
  forallb itemSchema items = true -> notNegative (sumCOGS items) = true.
Proof.
  intros H. unfold sumCOGS.
  apply (fold_notNegative
           (fun item => Item.quantity item * Item.cogsUnit item));
    [|exact notNegative_0].
  rewrite forallb_forall in H. apply Forall_forall. intros i Hi.
  destruct (itemSchema_positive i (H i Hi)) as (Hq & _ & Hc).
  now apply mul_positive.
Qed.

Lemma salesForm_items (body : SalesForm.t) :
  salesFormSchema body = true ->
  forallb itemSchema (SalesForm.items body) = true.
Proof.
  unfold salesFormSchema, arrayMin1. rewrite !andb_true_iff. tauto.
Qed.

Lemma returnForm_items (body : ReturnForm.t) :
  returnFormSchema body = true ->
  forallb itemSchema (ReturnForm.items body) = true.
Proof.
  unfold returnFormSchema, arrayMin1. rewrite !andb_true_iff. tauto.
Qed.

(** ** The journal, transaction by transaction *)

(** The totals of the four lines of a sale or of a return, and of the two
    lines of a collection: debits and credits add up to the same double,
    in whatever order the zeros come. *)
Lemma four_lines_balanced (a c : number) :
  notNegative a = true -> notNegative c = true ->
  0 + parseFloat (toString a) + parseFloat (toString 0)
  + parseFloat (toString c) + parseFloat (toString 0)
  = 0 + parseFloat (toString 0) + parseFloat (toString a)
    + parseFloat (toString 0) + parseFloat (toString c)
  /\ isNaN
       (0 + parseFloat (toString a) + parseFloat (toString 0)
        + parseFloat (toString c) + parseFloat (toString 0)) = false.
Proof.
  intros Ha Hc. rewrite !parseFloat_toString, canon_0.
  rewrite (notNegative_canon a Ha), (notNegative_canon c Hc).
  change (0 + 0) with 0.
  rewrite !add_0_l, (notNegative_canon a Ha), !add_0_r.
  rewrite (notNegative_canon a Ha).
  pose proof (add_notNegative a c Ha Hc) as Hac.
  rewrite (notNegative_canon (a + c) Hac).
  split; [reflexivity | now apply notNegative_isNaN].
Qed.

Lemma two_lines_balanced (a : number) :
  notNegative a = true ->
  0 + parseFloat (toString a) + parseFloat (toString 0)
  = 0 + parseFloat (toString 0) + parseFloat (toString a)
  /\ isNaN (0 + parseFloat (toString a) + parseFloat (toString 0)) = false.
Proof.
  intros Ha. rewrite !parseFloat_toString, canon_0.
  rewrite (notNegative_canon a Ha).
  change (0 + 0) with 0.
  rewrite !add_0_l, (notNegative_canon a Ha), !add_0_r.
  rewrite (notNegative_canon a Ha).
  split; [reflexivity | now apply notNegative_isNaN].
Qed.

Lemma filter_const {A : Type} (c : bool) (l : list A) :
  filter (fun _ => c) l = if c then l else [].
Proof.
  induction l as [|x l IH]; cbn; destruct c; cbn in *; congruence.
Qed.

(** The entries of one batch all carry the transaction id of the batch. *)
Lemma filter_batch (t : option Z) (tid : Z) (es : list JournalEntry.t) :
  Forall (fun e => JournalEntry.transactionId e = t) es ->
  filter (taggedWith tid) es
  = if match t with Some k => (k =? tid)%Z | None => false end
    then es else [].
Proof.
  intros H. rewrite <- filter_const. apply filter_ext_in.
  intros e He. rewrite Forall_forall in H. unfold taggedWith.
  now rewrite (H e He).
Qed.

Lemma map_values_entries (es : list JournalEntry.t) :
  map_values (map (fun e => (JournalEntry.id e, e)) es) = es.
Proof.
  unfold map_values. rewrite map_map. cbn. apply map_id.
Qed.

(** No entry carries a transaction id that has not been handed out. *)
Lemma filter_tagged_fresh (tid : Z) (es : list JournalEntry.t) :
  Forall (fun e => forall k, JournalEntry.transactionId e = Some k ->
                             (k < tid)%Z) es ->
  filter (taggedWith tid) es = [].
Proof.
  induction 1 as [|e l He _ IH]; [reflexivity|]. cbn [filter].
  unfold taggedWith at 1.
  destruct (JournalEntry.transactionId e) as [k|] eqn:E; [|exact IH].
  specialize (He k eq_refl).
  destruct (Z.eqb_spec k tid); [lia | exact IH].
Qed.

(** ** The invariant is kept *)

Lemma idsFrom_bound (n : nat) :
  forall k : Z, Forall (fun k' => (k' < k + Z.of_nat n)%Z) (idsFrom k n).
Proof.
  induction n as [|n IH]; intros k; cbn [idsFrom]; constructor.
  - lia.
  - eapply Forall_impl; [|apply (IH (k + 1)%Z)]. cbn. intros; lia.
Qed.

Lemma journal_ok_append (J : JsMap JournalEntry.t) (j tid j' : Z)
  (es : list JournalEntry.t) :
  journal_ok J j tid ->
  map JournalEntry.id es = idsFrom j (List.length es) ->
  Forall (fun e => JournalEntry.transactionId e = orNull (Some tid)) es ->
  totalDebit es = totalCredit es /\ isNaN (totalDebit es) = false ->
  (j' = j + Z.of_nat (List.length es))%Z ->
  set_entries es J = (J ++ map (fun e => (JournalEntry.id e, e)) es)%list
  /\ journal_ok (set_entries es J) j' (tid + 1).
Proof.
  intros (Hkeys & Htid & Htids & Hbal) Hids Hsame Hes ->.
  pose proof (set_entries_fresh es j J Hkeys Hids) as E.
  assert (K : map fst (map (fun e => (JournalEntry.id e, e)) es)
              = map JournalEntry.id es)
    by (rewrite map_map; reflexivity).
  pose proof (map_values_entries es) as V. unfold map_values in V.
  split; [exact E|]. rewrite E. unfold journal_ok, map_keys, map_values.
  rewrite !map_app, K, V.
  split; [|split; [|split]].
  - rewrite Forall_app. split.
    + eapply Forall_impl; [|exact Hkeys]. cbn. intros; lia.
    + rewrite Hids. apply idsFrom_bound.
  - lia.
  - rewrite Forall_app. split.
    + eapply Forall_impl; [|exact Htids]. cbn. intros e H k Hk.
      specialize (H k Hk). lia.
    + eapply Forall_impl; [|exact Hsame]. cbn. intros e He k Hk.
      rewrite He in Hk. cbn in Hk.
      destruct (tid =? 0)%Z; [discriminate|]. injection Hk as <-. lia.
  - intros t. rewrite filter_app, (filter_batch _ t es Hsame).
    cbn [orNull]. destruct (Z.eqb_spec tid 0) as [->|_]; [lia|].
    destruct (Z.eqb_spec tid t) as [<-|_].
    + unfold map_values in Htids.
      rewrite (filter_tagged_fresh tid _ Htids). exact Hes.
    + rewrite app_nil_r. apply Hbal.
Qed.

Lemma Inv_new : Inv newMemStorage.
Proof.
  split; [|split].
  - exists openingBalances. reflexivity.
  - split; [constructor|]. split; [reflexivity|].
    split; [constructor|]. intros t. split; reflexivity.
  - constructor.
Qed.

Lemma saleInvoice_ok (body : SalesForm.t) (s : MemStorage) :
  salesFormSchema body = true -> invoice_ok (saleInvoice body s).
Proof.
  intros Hs. apply salesForm_items, sumAmount_notNegative in Hs.
  unfold invoice_ok, saleInvoice.
  cbn [SalesInvoice.paidAmount SalesInvoice.outstandingAmount
       SalesInvoice.totalAmount SalesInvoice.status].
  eexists. split; [reflexivity|].
  split; [rewrite parseFloat_toString; now apply canon_notNegative|].
  destruct (String.eqb (SalesForm.paymentMethod body) "cash").
  - left. split; reflexivity.
  - right. left. repeat split.
Qed.

Lemma collectedInvoice_ok (body : CollectionForm.t) (invoice : SalesInvoice.t) :
  invoice_ok invoice -> invoice_ok (collectedInvoice body invoice).
Proof.
  intros (paid0 & _ & Htotal & _).
  unfold invoice_ok, collectedInvoice, SalesInvoice.with_payment.
  cbn [SalesInvoice.paidAmount SalesInvoice.outstandingAmount
       SalesInvoice.totalAmount SalesInvoice.status].
  eexists. split; [reflexivity|]. split; [exact Htotal|].
  destruct (strictEq
              (parseFloat (SalesInvoice.outstandingAmount invoice)
               - CollectionForm.amount body) 0) eqn:E.
  - left. split; [reflexivity|].
    unfold toString. rewrite canon_strictEq, E. reflexivity.
  - right. right. split; [reflexivity|].
    rewrite parseFloat_toString, canon_strictEq, E. exact E.
Qed.

Lemma saleEntries_balanced (body : SalesForm.t) (s : MemStorage) :
  salesFormSchema body = true ->
  totalDebit (saleEntries body s) = totalCredit (saleEntries body s)
  /\ isNaN (totalDebit (saleEntries body s)) = false.
Proof.
  intros Hs. apply salesForm_items in Hs.
  unfold totalDebit, totalCredit, saleEntries.
  cbn [fold_left JournalEntry.debitAmount JournalEntry.creditAmount].
  apply four_lines_balanced;
    [now apply sumAmount_notNegative | now apply sumCOGS_notNegative].
Qed.

Lemma returnEntries_balanced (body : ReturnForm.t) (s : MemStorage)
  (invoice : SalesInvoice.t) :
  returnFormSchema body = true ->
  totalDebit (returnEntries body s invoice)
  = totalCredit (returnEntries body s invoice)
  /\ isNaN (totalDebit (returnEntries body s invoice)) = false.
Proof.
  intros Hs. apply returnForm_items in Hs.
  unfold totalDebit, totalCredit, returnEntries.
  cbn [fold_left JournalEntry.debitAmount JournalEntry.creditAmount].
  apply four_lines_balanced;
    [now apply sumAmount_notNegative | now apply sumCOGS_notNegative].
Qed.

Lemma collectionEntries_balanced (body : CollectionForm.t) (s : MemStorage)
  (invoice : SalesInvoice.t) :
  collectionFormSchema body = true ->
  totalDebit (collectionEntries body s invoice)
  = totalCredit (collectionEntries body s invoice)
  /\ isNaN (totalDebit (collectionEntries body s invoice)) = false.
Proof.
  intros Hs. unfold totalDebit, totalCredit, collectionEntries.
  cbn [fold_left JournalEntry.debitAmount JournalEntry.creditAmount].
  apply two_lines_balanced. now apply positive_notNegative.
Qed.

Lemma Inv_postSales (body : SalesForm.t) (w : WriteFile) (s : MemStorage) :
  Inv s -> Inv (snd (postSales body w s)).
Proof.
  intros HInv. destruct (salesFormSchema body) eqn:Hs.
  - destruct HInv as ((b & Ha) & HJ & HI).
    destruct (postSales_run body w s b Hs Ha) as (m & n & E).
    rewrite E. unfold afterSale, Inv.
    cbn [snd accounts journalEntries currentJournalEntryId
         currentTransactionId salesInvoices].
    split; [|split].
    + eexists. reflexivity.
    + apply (journal_ok_append _ _ _ _ (saleEntries body s) HJ).
      * reflexivity.
      * repeat constructor.
      * now apply saleEntries_balanced.
      * cbn [saleEntries List.length]. lia.
    + apply map_values_set_Forall; [exact HI|]. now apply saleInvoice_ok.
  - now rewrite (postSales_rejected body w s Hs).
Qed.

Lemma Inv_postCollections (body : CollectionForm.t) (w : WriteFile)
  (s : MemStorage) :
  Inv s -> Inv (snd (postCollections body w s)).
Proof.
  intros HInv. destruct (collectionFormSchema body) eqn:Hs.
  2: now rewrite (postCollections_rejected body w s Hs).
  destruct (map_get (CollectionForm.invoiceId body) (salesInvoices s))
    as [invoice|] eqn:Hget.
  2: now rewrite (postCollections_not_found body w s Hs Hget).
  destruct (gt (CollectionForm.amount body)
              (parseFloat (SalesInvoice.outstandingAmount invoice))) eqn:Hgt.
  1: now rewrite (postCollections_exceeds body w s invoice Hs Hget Hgt).
  destruct HInv as ((b & Ha) & HJ & HI).
  rewrite (postCollections_run body w s b invoice Hs Hget Hgt Ha).
  unfold afterCollection, Inv.
  cbn [snd accounts journalEntries currentJournalEntryId
       currentTransactionId salesInvoices].
  split; [|split].
  - eexists. reflexivity.
  - apply (journal_ok_append _ _ _ _ (collectionEntries body s invoice) HJ).
    + reflexivity.
    + repeat constructor.
    + now apply collectionEntries_balanced.
    + cbn [collectionEntries List.length]. lia.
  - apply map_values_set_Forall; [exact HI|].
    apply collectedInvoice_ok.
    rewrite Forall_forall in HI. apply HI.
    now apply (map_get_In (CollectionForm.invoiceId body)).
Qed.

Lemma Inv_postSalesReturns (body : ReturnForm.t) (w : WriteFile)
  (s : MemStorage) :
  Inv s -> Inv (snd (postSalesReturns body w s)).
Proof.
  intros HInv. destruct (returnFormSchema body) eqn:Hs.
  2: now rewrite (postSalesReturns_rejected body w s Hs).
  destruct (map_get (ReturnForm.invoiceId body) (salesInvoices s))
    as [invoice|] eqn:Hget.
  2: now rewrite (postSalesReturns_not_found body w s Hs Hget).
  destruct HInv as ((b & Ha) & HJ & HI).
  destruct (postSalesReturns_run body w s b invoice Hs Hget Ha)
    as (m & n & E).
  rewrite E. unfold afterReturn, Inv.
  cbn [snd accounts journalEntries currentJournalEntryId
       currentTransactionId salesInvoices].
  split; [|split].
  - eexists. reflexivity.
  - apply (journal_ok_append _ _ _ _ (returnEntries body s invoice) HJ).
    + reflexivity.
    + repeat constructor.
    + now apply returnEntries_balanced.
    + cbn [returnEntries List.length]. lia.
  - exact HI.
Qed.

Lemma Inv_submit (e : Event) (w : WriteFile) (s : MemStorage) :
  Inv s -> Inv (snd (submit e w s)).
Proof.
  intros H. destruct e as [body|body|body]; cbn [submit].
  - pose proof (Inv_postSales body w s H) as H'.
    now destruct (postSales body w s).
  - pose proof (Inv_postCollections body w s H) as H'.
    now destruct (postCollections body w s).
  - pose proof (Inv_postSalesReturns body w s H) as H'.
    now destruct (postSalesReturns body w s).
Qed.

Lemma Reachable_Inv (s : MemStorage) : Reachable s -> Inv s.
Proof.
  induction 1 as [|s e w _ IH].
  - exact Inv_new.
  - now apply Inv_submit.
Qed.

Lemma snd_submit (e : Event) (w : WriteFile) (s : MemStorage) :
  snd (submit e w s)
  = match e with
    | Sale body => snd (postSales body w s)
    | Collect body => snd (postCollections body w s)
    | Return body => snd (postSalesReturns body w s)
    end.
Proof.
  destruct e as [body|body|body]; cbn [submit].
  - now destruct (postSales body w s).
  - now destruct (postCollections body w s).
  - now destruct (postSalesReturns body w s).
Qed.

(** ** Reading the chart *)

Lemma getBalanceSheet_chart (s : MemStorage) (b : Balances) :
  accounts s = chart b -> getBalanceSheet s = (Fulfilled (chartSheet b), s).
Proof.
  intros Ha.
  destruct s as [acc tx je inv sitems col rets ritems n1 n2 n3 n4 n5 n6 n7 n8].
  cbn in Ha; subst acc. unfold chartSheet. run. reflexivity.
Qed.

Lemma balanceOf_chart (s : MemStorage) (b : Balances) :
  accounts s = chart b ->
  balanceOf "1001" s = parseFloat (b1001 b)
  /\ balanceOf "1002" s = parseFloat (b1002 b)
  /\ balanceOf "1003" s = parseFloat (b1003 b)
  /\ balanceOf "2001" s = parseFloat (b2001 b)
  /\ balanceOf "3001" s = parseFloat (b3001 b)
  /\ balanceOf "4001" s = parseFloat (b4001 b)
  /\ balanceOf "4002" s = parseFloat (b4002 b)
  /\ balanceOf "5001" s = parseFloat (b5001 b).
Proof.
  intros Ha. unfold balanceOf. rewrite Ha. conjuncts.
Qed.

(** ** Exact arithmetic *)

Lemma exactAdd_spec (x y : number) :
  exactAdd x y = true ->
  isFinite (x + y) = true /\ (value (x + y) == value x + value y)%Q.
Proof.
  unfold exactAdd. rewrite andb_true_iff, Qeq_bool_iff. tauto.
Qed.

Lemma exactSub_spec (x y : number) :
  exactSub x y = true ->
  isFinite (x - y) = true /\ (value (x - y) == value x - value y)%Q.
Proof.
  unfold exactSub. rewrite andb_true_iff, Qeq_bool_iff. tauto.
Qed.

Lemma value_stored (x : number) : value (parseFloat (toString x)) = value x.
Proof. apply value_canon. Qed.

Lemma isFinite_stored (x : number) :
  isFinite (parseFloat (toString x)) = isFinite x.
Proof. apply isFinite_canon. Qed.

Lemma finite_chart (b : Balances) :
  isFinite (parseFloat (b1001 b)) = true ->
  isFinite (parseFloat (b1002 b)) = true ->
  isFinite (parseFloat (b1003 b)) = true ->
  isFinite (parseFloat (b2001 b)) = true ->
  isFinite (parseFloat (b3001 b)) = true ->
  isFinite (parseFloat (b4001 b)) = true ->
  isFinite (parseFloat (b4002 b)) = true ->
  isFinite (parseFloat (b5001 b)) = true ->
  Forall (fun a => isFinite (parseFloat (Account.balance a)) = true)
    (map_values (chart b)).
Proof. intros. repeat constructor; assumption. Qed.

Lemma chart_finite (b : Balances) :
  Forall (fun a => isFinite (parseFloat (Account.balance a)) = true)
    (map_values (chart b)) ->
  isFinite (parseFloat (b1001 b)) = true
  /\ isFinite (parseFloat (b1002 b)) = true
  /\ isFinite (parseFloat (b1003 b)) = true
  /\ isFinite (parseFloat (b2001 b)) = true
  /\ isFinite (parseFloat (b3001 b)) = true
  /\ isFinite (parseFloat (b4001 b)) = true
  /\ isFinite (parseFloat (b4002 b)) = true
  /\ isFinite (parseFloat (b5001 b)) = true.
Proof.
  intros H. unfold chart, map_values in H. cbn [map snd] in H.
  repeat match goal with
         | H : Forall _ (_ :: _) |- _ => inversion H; subst; clear H
         end.
  cbn [Account.balance] in *. tauto.
Qed.

Lemma Exact_new : Exact newMemStorage.
Proof.
  split.
  { rewrite newMemStorage_chart.
    apply finite_chart; vm_compute; reflexivity. }
  split; [vm_compute; reflexivity|]. split; [reflexivity|].
  split; [vm_compute; reflexivity|]. split; [vm_compute; reflexivity|].
  constructor.
Qed.

Lemma Exact_postSales (body : SalesForm.t) (w : WriteFile) (s : MemStorage) :
  Inv s -> Exact s -> exactSale body s = true ->
  Exact (snd (postSales body w s)).
Proof.
  intros ((b & Ha) & _) HE Hex. destruct (salesFormSchema body) eqn:Hs.
  2: now rewrite (postSales_rejected body w s Hs).
  destruct (postSales_run body w s b Hs Ha) as (m & n & E).
  rewrite E. cbn [snd]. clear E.
  unfold exactSale in Hex.
  destruct (balanceOf_chart s b Ha)
    as (B1 & B2 & B3 & B4 & B5 & B6 & B7 & B8).
  unfold Exact in HE.
  assert (Hex' :
    exactAdd
      (if String.eqb (SalesForm.paymentMethod body) "cash"
       then parseFloat (b1001 b) else parseFloat (b1002 b))
      (sumAmount (SalesForm.items body)) = true
    /\ exactSub (parseFloat (b1003 b)) (sumCOGS (SalesForm.items body)) = true
    /\ exactAdd (parseFloat (b4001 b)) (sumAmount (SalesForm.items body))
       = true
    /\ exactAdd (parseFloat (b5001 b)) (sumCOGS (SalesForm.items body)) = true
    /\ exactSub (sumAmount (SalesForm.items body))
         (sumCOGS (SalesForm.items body)) = true
    /\ exactAdd (parseFloat (b3001 b))
         (sumAmount (SalesForm.items body) - sumCOGS (SalesForm.items body))
       = true).
  { rewrite B3, B5, B6, B8 in Hex.
    destruct (String.eqb (SalesForm.paymentMethod body) "cash");
      rewrite ?B1, ?B2 in Hex; rewrite !andb_true_iff in Hex; tauto. }
  clear Hex. destruct Hex' as (X1 & X2 & X3 & X4 & X5 & X6).
  rewrite B1, B2, B3, B4, B5, B6, B7, B8, Ha in HE.
  destruct HE as (HF & E2 & E3 & E4 & E5 & EI).
  apply chart_finite in HF.
  destruct HF as (F1 & F2 & F3 & F4 & F5 & F6 & F7 & F8).
  apply exactSub_spec in X2 as [G2 V2]. apply exactAdd_spec in X3 as [G3 V3].
  apply exactAdd_spec in X4 as [G4 V4]. apply exactSub_spec in X5 as [G5 V5].
  apply exactAdd_spec in X6 as [G6 V6]. apply exactAdd_spec in X1 as [G1 V1].
  destruct (balanceOf_chart (afterSale body s b m n) _ eq_refl)
    as (C1 & C2 & C3 & C4 & C5 & C6 & C7 & C8).
  unfold Exact. rewrite C1, C2, C3, C4, C5, C6, C7, C8.
  clear C1 C2 C3 C4 C5 C6 C7 C8.
  unfold afterSale. cbn [accounts salesInvoices].
  unfold saleBalances.
  cbn [b1001 b1002 b1003 b2001 b3001 b4001 b4002 b5001].
  split; [|split; [|split; [|split; [|split]]]].
  - destruct (String.eqb (SalesForm.paymentMethod body) "cash");
      apply finite_chart;
      cbn [b1001 b1002 b1003 b2001 b3001 b4001 b4002 b5001];
      rewrite ?isFinite_stored; assumption.
  - destruct (String.eqb (SalesForm.paymentMethod body) "cash");
      rewrite !value_stored; lra.
  - exact E3.
  - rewrite !value_stored. lra.
  - rewrite !value_stored. lra.
  - apply map_values_set_Forall; [exact EI|].
    unfold paidOf, outstandingOf, totalOf, saleInvoice.
    cbn [SalesInvoice.paidAmount SalesInvoice.outstandingAmount
         SalesInvoice.totalAmount orElse].
    destruct (String.eqb (SalesForm.paymentMethod body) "cash");
      change (value (parseFloat (toString 0))) with 0%Q; lra.
Qed.

Lemma Exact_postCollections (body : CollectionForm.t) (w : WriteFile)
  (s : MemStorage) :
  Inv s -> Exact s -> exactCollection body s = true ->
  Exact (snd (postCollections body w s)).
Proof.
  intros ((b & Ha) & _) HE Hex. destruct (collectionFormSchema body) eqn:Hs.
  2: now rewrite (postCollections_rejected body w s Hs).
  destruct (map_get (CollectionForm.invoiceId body) (salesInvoices s))
    as [invoice|] eqn:Hget.
  2: now rewrite (postCollections_not_found body w s Hs Hget).
  destruct (gt (CollectionForm.amount body)
              (parseFloat (SalesInvoice.outstandingAmount invoice))) eqn:Hgt.
  1: now rewrite (postCollections_exceeds body w s invoice Hs Hget Hgt).
  rewrite (postCollections_run body w s b invoice Hs Hget Hgt Ha).
  cbn [snd].
  unfold exactCollection in Hex. rewrite Hget in Hex.
  destruct (balanceOf_chart s b Ha)
    as (B1 & B2 & B3 & B4 & B5 & B6 & B7 & B8).
  rewrite B1, B2, !andb_true_iff in Hex.
  destruct Hex as ((X1 & X2) & X3 & X4).
  unfold Exact in HE.
  rewrite B1, B2, B3, B4, B5, B6, B7, B8, Ha in HE.
  destruct HE as (HF & E2 & E3 & E4 & E5 & EI).
  apply chart_finite in HF.
  destruct HF as (F1 & F2 & F3 & F4 & F5 & F6 & F7 & F8).
  apply exactAdd_spec in X1 as [G1 V1]. apply exactSub_spec in X2 as [G2 V2].
  apply exactAdd_spec in X3 as [G3 V3]. apply exactSub_spec in X4 as [G4 V4].
  destruct (balanceOf_chart (afterCollection body s b invoice) _ eq_refl)
    as (C1 & C2 & C3 & C4 & C5 & C6 & C7 & C8).
  unfold Exact. rewrite C1, C2, C3, C4, C5, C6, C7, C8.
  clear C1 C2 C3 C4 C5 C6 C7 C8.
  unfold afterCollection. cbn [accounts salesInvoices].
  unfold collectBalances.
  cbn [b1001 b1002 b1003 b2001 b3001 b4001 b4002 b5001].
  split; [|split; [|split; [|split; [|split]]]].
  - apply finite_chart;
      cbn [b1001 b1002 b1003 b2001 b3001 b4001 b4002 b5001];
      rewrite ?isFinite_stored; assumption.
  - rewrite !value_stored. lra.
  - exact E3.
  - exact E4.
  - exact E5.
  - apply map_values_set_Forall; [exact EI|].
    assert (Hi : (value (paidOf invoice) + value (outstandingOf invoice)
                  == value (totalOf invoice))%Q).
    { rewrite Forall_forall in EI. apply EI.
      now apply (map_get_In (CollectionForm.invoiceId body)). }
    unfold paidOf, outstandingOf, totalOf in *.
    unfold collectedInvoice, SalesInvoice.with_payment.
    cbn [SalesInvoice.paidAmount SalesInvoice.outstandingAmount
         SalesInvoice.totalAmount orElse].
    rewrite !value_stored. lra.
Qed.

Lemma Exact_postSalesReturns (body : ReturnForm.t) (w : WriteFile)
  (s : MemStorage) :
  Inv s -> Exact s -> exactReturn body s = true ->
  Exact (snd (postSalesReturns body w s)).
Proof.
  intros ((b & Ha) & _) HE Hex. destruct (returnFormSchema body) eqn:Hs.
  2: now rewrite (postSalesReturns_rejected body w s Hs).
  destruct (map_get (ReturnForm.invoiceId body) (salesInvoices s))
    as [invoice|] eqn:Hget.
  2: now rewrite (postSalesReturns_not_found body w s Hs Hget).
  destruct (postSalesReturns_run body w s b invoice Hs Hget Ha)
    as (m & n & E).
  rewrite E. cbn [snd]. clear E.
  unfold exactReturn in Hex. rewrite Hget in Hex.
  destruct (balanceOf_chart s b Ha)
    as (B1 & B2 & B3 & B4 & B5 & B6 & B7 & B8).
  unfold Exact in HE.
  assert (Hex' :
    exactSub
      (if String.eqb (SalesInvoice.paymentMethod invoice) "cash"
       then parseFloat (b1001 b) else parseFloat (b1002 b))
      (sumAmount (ReturnForm.items body)) = true
    /\ exactAdd (parseFloat (b1003 b)) (sumCOGS (ReturnForm.items body)) = true
    /\ exactAdd (parseFloat (b4002 b)) (sumAmount (ReturnForm.items body))
       = true
    /\ exactSub (parseFloat (b5001 b)) (sumCOGS (ReturnForm.items body))
       = true
    /\ exactSub (sumAmount (ReturnForm.items body))
         (sumCOGS (ReturnForm.items body)) = true
    /\ exactSub (parseFloat (b3001 b))
         (sumAmount (ReturnForm.items body) - sumCOGS (ReturnForm.items body))
       = true).
  { rewrite B3, B5, B7, B8 in Hex.
    destruct (String.eqb (SalesInvoice.paymentMethod invoice) "cash");
      rewrite ?B1, ?B2 in Hex; rewrite !andb_true_iff in Hex; tauto. }
  clear Hex. destruct Hex' as (X1 & X2 & X3 & X4 & X5 & X6).
  rewrite B1, B2, B3, B4, B5, B6, B7, B8, Ha in HE.
  destruct HE as (HF & E2 & E3 & E4 & E5 & EI).
  apply chart_finite in HF.
  destruct HF as (F1 & F2 & F3 & F4 & F5 & F6 & F7 & F8).
  apply exactAdd_spec in X2 as [G2 V2]. apply exactAdd_spec in X3 as [G3 V3].
  apply exactSub_spec in X4 as [G4 V4]. apply exactSub_spec in X5 as [G5 V5].
  apply exactSub_spec in X6 as [G6 V6]. apply exactSub_spec in X1 as [G1 V1].
  destruct (balanceOf_chart (afterReturn body s b invoice m n) _ eq_refl)
    as (C1 & C2 & C3 & C4 & C5 & C6 & C7 & C8).
  unfold Exact. rewrite C1, C2, C3, C4, C5, C6, C7, C8.
  clear C1 C2 C3 C4 C5 C6 C7 C8.
  unfold afterReturn. cbn [accounts salesInvoices].
  unfold returnBalances.
  cbn [b1001 b1002 b1003 b2001 b3001 b4001 b4002 b5001].
  split; [|split; [|split; [|split; [|split]]]].
  - destruct (String.eqb (SalesInvoice.paymentMethod invoice) "cash");
      apply finite_chart;
      cbn [b1001 b1002 b1003 b2001 b3001 b4001 b4002 b5001];
      rewrite ?isFinite_stored; assumption.
  - destruct (String.eqb (SalesInvoice.paymentMethod invoice) "cash");
      rewrite !value_stored; lra.
  - exact E3.
  - rewrite !value_stored. lra.
  - rewrite !value_stored. lra.
  - exact EI.
Qed.

Lemma ExactlyReachable_Reachable (s : MemStorage) :
  ExactlyReachable s -> Reachable s.
Proof.
  induction 1 as [|s e w _ IH _]; [constructor | now constructor].
Qed.

Lemma ExactlyReachable_Exact (s : MemStorage) : ExactlyReachable s -> Exact s.
Proof.
  induction 1 as [|s e w Hr IH Hex]; [exact Exact_new|].
  pose proof (Reachable_Inv s (ExactlyReachable_Reachable s Hr)) as HInv.
  rewrite snd_submit. destruct e as [body|body|body]; cbn [exactEvent] in Hex.
  - now apply Exact_postSales.
  - now apply Exact_postCollections.
  - now apply Exact_postSalesReturns.
Qed.
(** * The claims *)

(** ** C10: the seeded chart *)

(** C10.  A freshly constructed store holds exactly eight accounts: Cash
    with balance 2375000, Inventory with 450000, Share Capital with
    2825000 and five accounts with balance 0; its balance sheet has
    totalAssets 2825000, totalLiabilities 0 and totalEquity 2825000, so
    the accounting equation holds in the initial state. *)
Theorem new_store_seeded_and_balanced :
  map nameAndBalance (map_values (accounts newMemStorage))
  = [ ("Cash", 2375000); ("Accounts Receivable", 0); ("Inventory", 450000);
      ("Accounts Payable", 0); ("Share Capital - Ordinary", 2825000);
      ("Sales Revenue", 0); ("Sales Return and Allowances", 0);
      ("Cost of Goods Sold", 0) ]
  /\ List.length (accounts newMemStorage) = 8%nat
  /\ exists bs,
      getBalanceSheet newMemStorage = (Fulfilled bs, newMemStorage)
      /\ totalAssets bs = 2825000
      /\ totalLiabilities bs = 0
      /\ totalEquity bs = 2825000
      /\ strictEq (totalAssets bs) (totalLiabilities bs + totalEquity bs)
         = true.
Proof.
  split; [reflexivity|]. split; [reflexivity|].
  exists (chartSheet openingBalances).
  split; [apply getBalanceSheet_chart; reflexivity|].
  repeat split; reflexivity.
Qed.

(** ** C1: the accounting equation *)

(** C1, as stated, fails after the cash sale of one washer at 0.1 (unit
    cost 0.05) on a fresh store: the sale is accepted, and the balance
    sheet computed afterwards has totalAssets 2825000.0500000003 and
    totalLiabEquity 2825000.05, two different doubles. *)
Lemma accounting_equation_fails_after_washer_sale :
  let s' := snd (submit (Sale washerSale) Written newMemStorage) in
  Reachable newMemStorage
  /\ fst (submit (Sale washerSale) Written newMemStorage) = true
  /\ exists bs,
      getBalanceSheet s' = (Fulfilled bs, s')
      /\ totalAssets bs = 2825000.0500000003
      /\ totalLiabEquity bs = 2825000.05
      /\ totalLiabEquity bs = totalLiabilities bs + totalEquity bs
      /\ strictEq (totalAssets bs) (totalLiabEquity bs) = false.
Proof.
  split; [exact Reachable_new|]. split; [vm_compute; reflexivity|].
  eexists. split; [vm_compute; reflexivity|].
  repeat split; vm_compute; reflexivity.
Qed.

(** C1 (amended).  After an event on a store reached by events whose
    additions and subtractions were all exact, the event's own being
    exact too, the balance sheet is computed, with totalAssets = cash +
    accounts receivable + inventory, totalLiabilities = accounts payable,
    totalEquity = share capital and totalLiabEquity their sum; and when
    the two additions that give totalAssets are exact as well,
    totalAssets and totalLiabEquity are finite, stand for the same
    number, that of totalLiabilities plus that of totalEquity, and
    compare equal: totalAssets === totalLiabilities + totalEquity. *)
Theorem accounting_equation_when_exact (s : MemStorage) (e : Event)
  (w : WriteFile) :
  ExactlyReachable s ->
  exactEvent e s = true ->
  let s' := snd (submit e w s) in
  exists bs,
    getBalanceSheet s' = (Fulfilled bs, s')
    /\ totalAssets bs
       = balanceOf "1001" s' + balanceOf "1002" s' + balanceOf "1003" s'
    /\ totalLiabilities bs = balanceOf "2001" s'
    /\ totalEquity bs = balanceOf "3001" s'
    /\ totalLiabEquity bs = totalLiabilities bs + totalEquity bs
    /\ (exactSheet s' = true ->
        isFinite (totalAssets bs) = true
        /\ isFinite (totalLiabEquity bs) = true
        /\ (value (totalAssets bs)
            == value (totalLiabilities bs) + value (totalEquity bs))%Q
        /\ (value (totalAssets bs) == value (totalLiabEquity bs))%Q
        /\ strictEq (totalAssets bs) (totalLiabilities bs + totalEquity bs)
           = true
        /\ strictEq (totalAssets bs) (totalLiabEquity bs) = true).
Proof.
  intros Hr Hex s'.
  assert (Hr' : ExactlyReachable s') by now apply Exactly_submit.
  pose proof (ExactlyReachable_Exact s' Hr') as HE.
  destruct (Reachable_Inv s' (ExactlyReachable_Reachable s' Hr'))
    as ((b & Ha) & _).
  exists (chartSheet b). split; [now apply getBalanceSheet_chart|].
  unfold exactSheet. unfold Exact in HE.
  destruct (balanceOf_chart s' b Ha)
    as (B1 & B2 & B3 & B4 & B5 & B6 & B7 & B8).
  rewrite B1, B2, B3, B4, B5, B6, B7, B8, Ha in HE. rewrite B1, B2, B3, B4, B5.
  clear B1 B2 B3 B4 B5 B6 B7 B8.
  destruct HE as (HF & E2 & E3 & _).
  apply chart_finite in HF. destruct HF as (_ & _ & _ & _ & F5 & _).
  unfold chartSheet.
  cbn [totalAssets totalLiabilities totalEquity totalLiabEquity].
  repeat (split; [reflexivity|]).
  rewrite andb_true_iff. intros [X1 X2].
  apply exactAdd_spec in X1 as [G1 V1]. apply exactAdd_spec in X2 as [G2 V2].
  rewrite E3, add_0_l, isFinite_canon, value_canon.
  change (value 0) with 0%Q.
  assert (V : (value (parseFloat (b1001 b) + parseFloat (b1002 b)
                      + parseFloat (b1003 b))
               == value (parseFloat (b3001 b)))%Q) by lra.
  assert (S : strictEq
                (parseFloat (b1001 b) + parseFloat (b1002 b)
                 + parseFloat (b1003 b))
                (canon (parseFloat (b3001 b))) = true).
  { apply value_strictEq; [exact G2 | now rewrite isFinite_canon|].
    now rewrite value_canon. }
  split; [exact G2|]. split; [exact F5|]. split; [lra|].
  split; [exact V|]. split; exact S.
Qed.

Lemma accounting_equation_when_exact_witness :
  ExactlyReachable newMemStorage
  /\ exactEvent (Sale acmeCashSale) newMemStorage = true
  /\ exists bs,
      getBalanceSheet (snd (submit (Sale acmeCashSale) Written newMemStorage))
      = (Fulfilled bs, snd (submit (Sale acmeCashSale) Written newMemStorage))
      /\ totalLiabEquity bs = totalLiabilities bs + totalEquity bs.
Proof.
  assert (Hex : exactEvent (Sale acmeCashSale) newMemStorage = true)
    by (vm_compute; reflexivity).
  split; [exact Exactly_new|]. split; [exact Hex|].
  destruct (accounting_equation_when_exact newMemStorage
              (Sale acmeCashSale) Written Exactly_new Hex)
    as (bs & Hbs & _ & _ & _ & Hsum & _).
  exists bs. split; [exact Hbs | exact Hsum].
Defined.

(** After the cash sale of the scenario on a fresh store every addition
    is exact, and the sheet balances at 2825120. *)
Example cash_sale_sheet_balances :
  let s' := snd (submit (Sale acmeCashSale) Written newMemStorage) in
  exactEvent (Sale acmeCashSale) newMemStorage = true
  /\ exactSheet s' = true
  /\ exists bs,
      getBalanceSheet s' = (Fulfilled bs, s')
      /\ totalAssets bs = 2825120
      /\ totalLiabEquity bs = 2825120.
Proof.
  split; [vm_compute; reflexivity|]. split; [vm_compute; reflexivity|].
  eexists. split; [vm_compute; reflexivity|].
  split; vm_compute; reflexivity.
Qed.

(** No tolerance rescues the equation: after one cash sale of 1e17 (unit
    cost 1) on a fresh store the two totals of the sheet differ by 16. *)
Example huge_sale_sheet_off_by_16 :
  exists bs,
    getBalanceSheet afterHugeSale = (Fulfilled bs, afterHugeSale)
    /\ totalAssets bs = 1.0000000000282501e17
    /\ totalLiabEquity bs = 1.0000000000282499e17
    /\ totalAssets bs - totalLiabEquity bs = 16.
Proof.
  eexists. split; [vm_compute; reflexivity|].
  repeat split; vm_compute; reflexivity.
Qed.

Lemma Reachable_afterCreditSale : Reachable afterCreditSale.
Proof. apply Reachable_submit, Reachable_new. Defined.

(** ** C3: every transaction is balanced *)

(** C3.  In every reachable store, for every transaction the store
    holds, the journal entries tagged with its id have the same double as
    debit total and as credit total, and the two compare equal; so they
    agree within 0.01: the test of the journal page,
    |totalDebit - totalCredit| > 0.01, fails, and when the total is
    finite their difference is 0. *)
Theorem journal_balanced_per_transaction (s : MemStorage)
  (t : Transaction.t) :
  Reachable s ->
  In t (map_values (transactions s)) ->
  totalDebit (entriesOf (Transaction.id t) s)
  = totalCredit (entriesOf (Transaction.id t) s)
  /\ strictEq (totalDebit (entriesOf (Transaction.id t) s))
       (totalCredit (entriesOf (Transaction.id t) s)) = true
  /\ showsUnbalanced (entriesOf (Transaction.id t) s) = false
  /\ (isFinite (totalDebit (entriesOf (Transaction.id t) s)) = true ->
      totalDebit (entriesOf (Transaction.id t) s)
      - totalCredit (entriesOf (Transaction.id t) s) = 0).
Proof.
  intros Hr _. destruct (Reachable_Inv s Hr) as (_ & (_ & _ & _ & Hbal) & _).
  destruct (Hbal (Transaction.id t)) as [Heq Hnan]. unfold entriesOf.
  unfold showsUnbalanced. rewrite <- Heq.
  split; [reflexivity|]. split; [now apply strictEq_refl|].
  split; [apply gt_abs_sub_diag | apply sub_diag_finite].
Qed.

Lemma journal_balanced_per_transaction_witness :
  Reachable afterCreditSale
  /\ In (saleTransaction acmeCreditSale newMemStorage)
       (map_values (transactions afterCreditSale))
  /\ totalDebit
       (entriesOf
          (Transaction.id (saleTransaction acmeCreditSale newMemStorage))
          afterCreditSale)
     = totalCredit
          (entriesOf
             (Transaction.id (saleTransaction acmeCreditSale newMemStorage))
             afterCreditSale).
Proof.
  assert (Hin : In (saleTransaction acmeCreditSale newMemStorage)
                  (map_values (transactions afterCreditSale)))
    by (vm_compute; left; reflexivity).
  split; [exact Reachable_afterCreditSale|]. split; [exact Hin|].
  exact (proj1 (journal_balanced_per_transaction afterCreditSale
                  (saleTransaction acmeCreditSale newMemStorage)
                  Reachable_afterCreditSale Hin)).
Defined.

(** The lines a route appends are the entries of the transaction it has
    just created, and of no other. *)
Lemma entries_of_new_transaction (J : JsMap JournalEntry.t) (j tid : Z)
  (es : list JournalEntry.t) :
  journal_ok J j tid ->
  Forall (fun e => JournalEntry.transactionId e = orNull (Some tid)) es ->
  filter (taggedWith tid)
    (map_values (J ++ map (fun e => (JournalEntry.id e, e)) es)%list)
  = es.
Proof.
  intros (_ & Htid & Htids & _) Hsame.
  unfold map_values. rewrite map_app, filter_app.
  pose proof (map_values_entries es) as V. unfold map_values in V.
  rewrite V, (filter_batch _ tid es Hsame). cbn [orNull].
  destruct (Z.eqb_spec tid 0) as [->|_]; [lia|]. rewrite Z.eqb_refl.
  unfold map_values in Htids.
  now rewrite (filter_tagged_fresh tid _ Htids).
Qed.

Lemma sale_transaction_entries (body : SalesForm.t) (w : WriteFile)
  (s : MemStorage) :
  Reachable s ->
  salesFormSchema body = true ->
  entriesOf (currentTransactionId s) (snd (postSales body w s))
  = saleEntries body s.
Proof.
  intros Hr Hs. destruct (Reachable_Inv s Hr) as ((b & Ha) & HJ & _).
  destruct (postSales_run body w s b Hs Ha) as (m & n & E). rewrite E.
  unfold entriesOf, afterSale. cbn [snd journalEntries].
  rewrite (set_entries_fresh (saleEntries body s) (currentJournalEntryId s));
    [|apply HJ|reflexivity].
  apply (entries_of_new_transaction _ _ _ _ HJ). repeat constructor.
Qed.

(** The transaction of that sale has its four lines in the journal. *)
Example credit_sale_lines :
  map posting (entriesOf 1 afterCreditSale)
  = [("1002", 100, 0); ("4001", 0, 100); ("5001", 40, 0); ("1003", 0, 40)].
Proof. vm_compute. reflexivity. Qed.


(** ** C5: invoices stay consistent *)




(** The credit sale of 100: open; after collecting 40: partial with 60
    outstanding, Cash up by 40 and Accounts Receivable down to 60; after
    collecting the remaining 60: paid. *)
Example credit_sale_then_collections :
  option_map paymentFields (map_get 1 (salesInvoices afterCreditSale))
  = Some (Some (toString 0), toString 100, "open")
  /\ option_map paymentFields
       (map_get 1
          (salesInvoices
             (snd (submit (Collect acmePartialCollection) Written
                     afterCreditSale))))
     = Some (Some (toString 40), toString 60, "partial")
  /\ map nameAndBalance
       (firstn 2
          (map_values
             (accounts
                (snd (submit (Collect acmePartialCollection) Written
                        afterCreditSale)))))
     = [("Cash", 2375040); ("Accounts Receivable", 60)]
  /\ option_map paymentFields
       (map_get 1
          (salesInvoices
             (snd (submit (Collect acmeFinalCollection) Written
                     (snd (submit (Collect acmePartialCollection) Written
                             afterCreditSale))))))
     = Some (Some (toString 100), toString 0, "paid").
Proof. vm_compute. repeat split; reflexivity. Qed.

(** Nor is the sum within a fixed tolerance of the total on every store:
    three collections of 8 against a credit sale of 1e17 are accepted,
    each is lost in the outstanding amount, which stays at 1e17, and all
    are added to the paid amount, 24; the two add up to 32 more than the
    total. *)
Example absorbed_collections_accumulate :
  let sale :=
    Sale (SalesForm.mk "INV-012" "Acme" "2025-01-28" "credit"
            [Item.mk "Ingot" 1 1e17 1]) in
  let collect := Collect (CollectionForm.mk 1 "2025-01-29" 8 "cash" None) in
  let s1 := snd (submit sale Written newMemStorage) in
  let s2 := snd (submit collect Written s1) in
  let s3 := snd (submit collect Written s2) in
  let s4 := snd (submit collect Written s3) in
  fst (submit collect Written s1) = true
  /\ fst (submit collect Written s2) = true
  /\ fst (submit collect Written s3) = true
  /\ option_map
       (fun i =>
          (paidOf i, outstandingOf i, totalOf i, SalesInvoice.status i,
           paidOf i + outstandingOf i - totalOf i))
       (map_get 1 (salesInvoices s4))
     = Some (24, 1e17, 1e17, "partial", 32).
Proof. vm_compute. repeat split; reflexivity. Qed.

(** ** C4: a collection above the outstanding amount *)

(** C4.  A collection whose amount exceeds the outstanding amount of the
    invoice it refers to is answered with status 400 (message
    "Collection amount exceeds outstanding balance" once the request
    passed validation) and leaves the whole store as it was: no
    collection, transaction or journal entry is added, and no account
    balance or invoice field changes. *)
Theorem collection_above_outstanding_rejected (body : CollectionForm.t)
  (w : WriteFile) (s : MemStorage) (invoice : SalesInvoice.t) :
  map_get (CollectionForm.invoiceId body) (salesInvoices s) = Some invoice ->
  gt (CollectionForm.amount body)
     (parseFloat (SalesInvoice.outstandingAmount invoice)) = true ->
  snd (postCollections body w s) = s
  /\ exists message,
      fst (postCollections body w s) = Status 400 message
      /\ (collectionFormSchema body = true ->
          message = "Collection amount exceeds outstanding balance").
Proof.
  intros Hget Hlt.
  destruct (collectionFormSchema body) eqn:Hs.
  - rewrite (postCollections_exceeds body w s invoice Hs Hget Hlt).
    split; [reflexivity|]. eexists. split; [reflexivity|]. reflexivity.
  - rewrite (postCollections_rejected body w s Hs).
    split; [reflexivity|]. eexists. split; [reflexivity|]. discriminate.
Qed.

Lemma collection_above_outstanding_rejected_witness :
  map_get (CollectionForm.invoiceId acmeCollection150)
    (salesInvoices afterCreditSale)
  = Some (saleInvoice acmeCreditSale newMemStorage)
  /\ gt (CollectionForm.amount acmeCollection150)
       (parseFloat
          (SalesInvoice.outstandingAmount
             (saleInvoice acmeCreditSale newMemStorage))) = true
  /\ snd (postCollections acmeCollection150 Written afterCreditSale)
     = afterCreditSale.
Proof.
  assert (Hget : map_get (CollectionForm.invoiceId acmeCollection150)
                   (salesInvoices afterCreditSale)
                 = Some (saleInvoice acmeCreditSale newMemStorage))
    by (vm_compute; reflexivity).
  assert (Hlt : gt (CollectionForm.amount acmeCollection150)
                  (parseFloat
                     (SalesInvoice.outstandingAmount
                        (saleInvoice acmeCreditSale newMemStorage))) = true)
    by (vm_compute; reflexivity).
  split; [exact Hget|]. split; [exact Hlt|].
  exact (proj1 (collection_above_outstanding_rejected acmeCollection150
                  Written afterCreditSale
                  (saleInvoice acmeCreditSale newMemStorage) Hget Hlt)).
Defined.

(** ** C9: returns leave the invoices alone *)

Lemma keeps_ret {A : Type} (a : A) : keepsInvoices (ret a).
Proof. intros s. reflexivity. Qed.

Lemma keeps_throw {A : Type} (e : string) : keepsInvoices (@throw A e).
Proof. intros s. reflexivity. Qed.

Lemma keeps_bind {A B : Type} (m : M A) (f : A -> M B) :
  keepsInvoices m -> (forall a, keepsInvoices (f a)) ->
  keepsInvoices (bind m f).
Proof.
  intros Hm Hf s. unfold bind. specialize (Hm s).
  destruct (m s) as [[a|e] s1]; cbn [snd] in *.
  - now rewrite (Hf a s1).
  - exact Hm.
Qed.

Lemma keeps_forOf {A : Type} (xs : list A) (body : A -> M unit) :
  (forall x, keepsInvoices (body x)) -> keepsInvoices (forOf xs body).
Proof.
  intros Hbody. induction xs as [|x xs IH]; cbn [forOf].
  - apply keeps_ret.
  - apply keeps_bind; [apply Hbody | intros _; exact IH].
Qed.

Lemma keeps_parse {A : Type} (schema : A -> bool) (body : A) :
  keepsInvoices (parse schema body).
Proof.
  unfold parse. destruct (schema body); [apply keeps_ret | apply keeps_throw].
Qed.

Lemma keeps_getSalesInvoiceById (id : Z) :
  keepsInvoices (getSalesInvoiceById id).
Proof. intros s. reflexivity. Qed.

Lemma keeps_createSalesReturn (r : InsertSalesReturn.t) :
  keepsInvoices (createSalesReturn r).
Proof. intros s. reflexivity. Qed.

Lemma keeps_createReturnItem (i : InsertReturnItem.t) :
  keepsInvoices (createReturnItem i).
Proof. intros s. reflexivity. Qed.

Lemma keeps_createTransaction (t : InsertTransaction.t) :
  keepsInvoices (createTransaction t).
Proof. intros s. reflexivity. Qed.

Lemma keeps_createJournalEntry (e : InsertJournalEntry.t) :
  keepsInvoices (createJournalEntry e).
Proof. intros s. reflexivity. Qed.

Lemma keeps_createJournalEntries (entries : list InsertJournalEntry.t) :
  keepsInvoices (createJournalEntries entries).
Proof.
  unfold createJournalEntries. generalize (@nil JournalEntry.t).
  induction entries as [|entry rest IH]; intros acc;
    cbn [createJournalEntries_from].
  - apply keeps_ret.
  - apply keeps_bind; [apply keeps_createJournalEntry | intros e; apply IH].
Qed.

Lemma keeps_getAccountByCode (code : string) :
  keepsInvoices (getAccountByCode code).
Proof. intros s. reflexivity. Qed.

Lemma keeps_updateAccountBalance (code : string) (balance : number) :
  keepsInvoices (updateAccountBalance code balance).
Proof.
  unfold updateAccountBalance.
  apply keeps_bind; [apply keeps_getAccountByCode|].
  intros [account|]; [|apply keeps_ret]. intros s. reflexivity.
Qed.

Lemma keeps_saveToFile (w : WriteFile) : keepsInvoices (saveToFile w).
Proof. destruct w; [apply keeps_ret | apply keeps_throw]. Qed.

Lemma keeps_tryCatch {A : Type} (body : M (Response A)) :
  keepsInvoices body ->
  forall s, salesInvoices (snd (tryCatch body s)) = salesInvoices s.
Proof.
  intros H s. unfold tryCatch. specialize (H s).
  now destruct (body s) as [[r|e] s1].
Qed.

Create HintDb keeps.

#[local] Hint Resolve keeps_ret keeps_throw keeps_parse
  keeps_getSalesInvoiceById keeps_createSalesReturn keeps_createReturnItem
  keeps_createTransaction keeps_createJournalEntries keeps_getAccountByCode
  keeps_updateAccountBalance keeps_saveToFile : keeps.

(** Walks a route body, one [await] at a time. *)
Ltac keeps :=
  repeat first
    [ solve [auto with keeps]
    | apply keeps_forOf; intros ?
    | apply keeps_bind; [|intros ?]
    | progress cbv zeta
    | match goal with
      | |- keepsInvoices (match ?x with _ => _ end) => destruct x
      end ].

(** C9.  Whatever the store and the request, and whether the write to
    the file succeeds or not, POST /api/sales-returns leaves the invoice
    table as it was; in particular paidAmount, outstandingAmount and
    status of every invoice are the same before and after. *)
Theorem sales_return_keeps_invoice_payment (body : ReturnForm.t)
  (w : WriteFile) (s : MemStorage) :
  salesInvoices (snd (postSalesReturns body w s)) = salesInvoices s
  /\ forall id,
      option_map paymentFields
        (map_get id (salesInvoices (snd (postSalesReturns body w s))))
      = option_map paymentFields (map_get id (salesInvoices s)).
Proof.
  assert (H : salesInvoices (snd (postSalesReturns body w s))
              = salesInvoices s).
  { unfold postSalesReturns. apply keeps_tryCatch. keeps. }
  split; [exact H|]. intros id. now rewrite H.
Qed.

(** ** C6: the cash sale scenario *)

Lemma min1_true (s : string) : s <> EmptyString -> min1 s = true.
Proof.
  intros H. unfold min1. apply negb_true_iff. now apply String.eqb_neq.
Qed.

Lemma Reachable_afterHugeSale : Reachable afterHugeSale.
Proof. apply Reachable_submit, Reachable_new. Defined.

(** C6, as stated, fails on the store a cash sale of 1e17 leaves: the
    cash sale of the scenario is accepted there, and Cash and Sales
    Revenue go up by 192, not by 200, Share Capital by 128, not by
    120. *)
Lemma cash_sale_after_huge_sale_misses_200 :
  let s' := snd (postSales acmeCashSale Written afterHugeSale) in
  Reachable afterHugeSale
  /\ succeeded (fst (postSales acmeCashSale Written afterHugeSale)) = true
  /\ balanceOf "1001" s' - balanceOf "1001" afterHugeSale = 192
  /\ balanceOf "4001" s' - balanceOf "4001" afterHugeSale = 192
  /\ balanceOf "3001" s' - balanceOf "3001" afterHugeSale = 128
  /\ ~ (value (balanceOf "1001" s')
        == value (balanceOf "1001" afterHugeSale) + 200)%Q.
Proof.
  split; [exact Reachable_afterHugeSale|].
  split; [vm_compute; reflexivity|].
  split; [vm_compute; reflexivity|].
  split; [vm_compute; reflexivity|].
  split; [vm_compute; reflexivity|].
  intros H. apply Qeq_bool_iff in H. vm_compute in H. discriminate H.
Qed.

(** C6 (amended).  In every reachable store, a cash sale of one item with
    quantity 2, unit price 100 and unit cost 40 is accepted (and answered
    with the invoice unless the write to the file fails).  Cash and Sales
    Revenue become the doubles nearest to their balance plus 200, Cost of
    Goods Sold to its balance plus 80, Share Capital to its balance plus
    120, Inventory to its balance less 80; each of these changes is
    exactly +200, +200, +80, +120 and -80 whenever that addition or
    subtraction is exact; the other three accounts are left alone.  The
    journal receives exactly the four lines Cash, Sales Revenue, Cost of
    Goods Sold and Inventory (none on Share Capital); the invoice created
    and stored has status paid and outstanding amount 0. *)
Theorem cash_sale_scenario (s : MemStorage) (w : WriteFile)
  (invoiceNumber customerName date description : string) :
  Reachable s ->
  invoiceNumber <> EmptyString -> customerName <> EmptyString ->
  description <> EmptyString ->
  let body :=
    SalesForm.mk invoiceNumber customerName date "cash"
      [Item.mk description 2 100 40] in
  let s' := snd (postSales body w s) in
  exists invoice es,
    fst (postSales body w s) = answer w invoice
    /\ map_get (SalesInvoice.id invoice) (salesInvoices s') = Some invoice
    /\ SalesInvoice.status invoice = "paid"
    /\ parseFloat (SalesInvoice.outstandingAmount invoice) = 0
    /\ balanceOf "1001" s' = parseFloat (toString (balanceOf "1001" s + 200))
    /\ balanceOf "1003" s' = parseFloat (toString (balanceOf "1003" s - 80))
    /\ balanceOf "4001" s' = parseFloat (toString (balanceOf "4001" s + 200))
    /\ balanceOf "5001" s' = parseFloat (toString (balanceOf "5001" s + 80))
    /\ balanceOf "3001" s' = parseFloat (toString (balanceOf "3001" s + 120))
    /\ (exactAdd (balanceOf "1001" s) 200 = true ->
        (value (balanceOf "1001" s') == value (balanceOf "1001" s) + 200)%Q)
    /\ (exactSub (balanceOf "1003" s) 80 = true ->
        (value (balanceOf "1003" s') == value (balanceOf "1003" s) - 80)%Q)
    /\ (exactAdd (balanceOf "4001" s) 200 = true ->
        (value (balanceOf "4001" s') == value (balanceOf "4001" s) + 200)%Q)
    /\ (exactAdd (balanceOf "5001" s) 80 = true ->
        (value (balanceOf "5001" s') == value (balanceOf "5001" s) + 80)%Q)
    /\ (exactAdd (balanceOf "3001" s) 120 = true ->
        (value (balanceOf "3001" s') == value (balanceOf "3001" s) + 120)%Q)
    /\ balanceOf "1002" s' = balanceOf "1002" s
    /\ balanceOf "2001" s' = balanceOf "2001" s
    /\ balanceOf "4002" s' = balanceOf "4002" s
    /\ map_values (journalEntries s')
       = (map_values (journalEntries s) ++ es)%list
    /\ map posting es
       = [("1001", 200, 0); ("4001", 0, 200); ("5001", 80, 0);
          ("1003", 0, 80)].
Proof.
  intros Hr Hn Hc Hd body s'.
  destruct (Reachable_Inv s Hr) as ((b & Ha) & HJ & _).
  assert (Hs : salesFormSchema body = true).
  { unfold salesFormSchema, body, arrayMin1, itemSchema.
    cbn [SalesForm.invoiceNumber SalesForm.customerName
         SalesForm.paymentMethod SalesForm.items forallb Item.description
         Item.quantity Item.unitPrice Item.cogsUnit].
    now rewrite (min1_true _ Hn), (min1_true _ Hc), (min1_true _ Hd). }
  destruct (postSales_run body w s b Hs Ha) as (m & n & E).
  subst s'. rewrite E. cbn [fst snd].
  destruct (journal_ok_append _ _ _
              (currentJournalEntryId s + 1 + 1 + 1 + 1)%Z
              (saleEntries body s) HJ) as [EJ _].
  { reflexivity. }
  { repeat constructor. }
  { now apply saleEntries_balanced. }
  { cbn [saleEntries List.length]. lia. }
  exists (saleInvoice body s), (saleEntries body s).
  split; [reflexivity|].
  split; [apply map_get_set_same|].
  split; [reflexivity|].
  split; [reflexivity|].
  destruct (balanceOf_chart s b Ha)
    as (-> & -> & -> & -> & -> & -> & -> & ->).
  destruct (balanceOf_chart (afterSale body s b m n) _ eq_refl)
    as (-> & -> & -> & -> & -> & -> & -> & ->).
  unfold afterSale. cbn [journalEntries]. rewrite EJ.
  unfold map_values. rewrite map_app.
  pose proof (map_values_entries (saleEntries body s)) as V.
  unfold map_values in V. rewrite V.
  assert (A200 : sumAmount (SalesForm.items body) = 200) by reflexivity.
  assert (C80 : sumCOGS (SalesForm.items body) = 80) by reflexivity.
  unfold saleBalances.
  cbn [b1001 b1002 b1003 b2001 b3001 b4001 b4002 b5001].
  rewrite A200, C80.
  change (String.eqb (SalesForm.paymentMethod body) "cash") with true.
  cbv iota. change (200 - 80) with 120.
  assert (V200 : (value 200 == 200)%Q) by (vm_compute; reflexivity).
  assert (V80 : (value 80 == 80)%Q) by (vm_compute; reflexivity).
  assert (V120 : (value 120 == 120)%Q) by (vm_compute; reflexivity).
  repeat (split; [reflexivity|]).
  split.
  { intros X. apply exactAdd_spec in X as [_ X]. rewrite value_stored. lra. }
  split.
  { intros X. apply exactSub_spec in X as [_ X]. rewrite value_stored. lra. }
  split.
  { intros X. apply exactAdd_spec in X as [_ X]. rewrite value_stored. lra. }
  split.
  { intros X. apply exactAdd_spec in X as [_ X]. rewrite value_stored. lra. }
  split.
  { intros X. apply exactAdd_spec in X as [_ X]. rewrite value_stored. lra. }
  repeat (split; [reflexivity|]). reflexivity.
Qed.

Lemma cash_sale_scenario_witness :
  Reachable newMemStorage
  /\ "INV-001" <> EmptyString /\ "Acme" <> EmptyString
  /\ "Widget" <> EmptyString
  /\ exists invoice,
      fst (postSales acmeCashSale Written newMemStorage) = Json invoice
      /\ SalesInvoice.status invoice = "paid"
      /\ balanceOf "3001" (snd (postSales acmeCashSale Written newMemStorage))
         = parseFloat (toString (balanceOf "3001" newMemStorage + 120)).
Proof.
  assert (H1 : "INV-001" <> EmptyString) by discriminate.
  assert (H2 : "Acme" <> EmptyString) by discriminate.
  assert (H3 : "Widget" <> EmptyString) by discriminate.
  split; [exact Reachable_new|].
  split; [exact H1|]. split; [exact H2|]. split; [exact H3|].
  destruct (cash_sale_scenario newMemStorage Written "INV-001" "Acme"
              "2025-01-15" "Widget" Reachable_new H1 H2 H3)
    as (invoice & es & Hfst & _ & Hst & _ & _ & _ & _ & _ & Hsc & _).
  exists invoice. split; [exact Hfst|]. split; [exact Hst | exact Hsc].
Defined.

(** On a fresh store the five additions are exact, and the balances are
    those of the scenario. *)
Example cash_sale_on_fresh_store :
  let s' := snd (postSales acmeCashSale Written newMemStorage) in
  exactEvent (Sale acmeCashSale) newMemStorage = true
  /\ map nameAndBalance (map_values (accounts s'))
     = [ ("Cash", 2375200); ("Accounts Receivable", 0);
         ("Inventory", 449920); ("Accounts Payable", 0);
         ("Share Capital - Ordinary", 2825120); ("Sales Revenue", 200);
         ("Sales Return and Allowances", 0); ("Cost of Goods Sold", 80) ]
  /\ option_map paymentFields (map_get 1 (salesInvoices s'))
     = Some (Some (toString 200), toString 0, "paid").
Proof. vm_compute. repeat split; reflexivity. Qed.

(** ** C7: the postings of a sales return *)

(** C7, as stated, fails on the store a cash sale of 1e17 leaves: a
    return of 2 items at 100 (unit cost 40) against that sale is
    accepted, returnAmount - returnCogs is 120, and Share Capital goes
    down by 128. *)
Lemma return_after_huge_sale_misses_120 :
  let s' := snd (postSalesReturns widgetReturn Written afterHugeSale) in
  Reachable afterHugeSale
  /\ succeeded (fst (postSalesReturns widgetReturn Written afterHugeSale))
     = true
  /\ sumAmount (ReturnForm.items widgetReturn)
     - sumCOGS (ReturnForm.items widgetReturn) = 120
  /\ balanceOf "3001" afterHugeSale - balanceOf "3001" s' = 128
  /\ ~ (value (balanceOf "3001" s')
        == value (balanceOf "3001" afterHugeSale) - 120)%Q.
Proof.
  split; [exact Reachable_afterHugeSale|].
  split; [vm_compute; reflexivity|].
  split; [vm_compute; reflexivity|].
  split; [vm_compute; reflexivity|].
  intros H. apply Qeq_bool_iff in H. vm_compute in H. discriminate H.
Qed.

(** C7 (amended).  In every reachable store, a valid sales return against
    an existing invoice is accepted (and answered with the return unless
    the write to the file fails) and appends exactly four journal lines,
    in this order: debit Sales Return and Allowances (4002) returnAmount;
    credit Cash (1001) when the invoice was paid by cash, otherwise credit
    Accounts Receivable (1002), returnAmount; debit Inventory (1003)
    returnCogs; credit Cost of Goods Sold (5001) returnCogs; returnAmount
    and returnCogs being the sums of quantity x unitPrice and of quantity
    x cogsUnit as doubles add them.  The Share Capital balance becomes the
    double nearest to its balance less (returnAmount - returnCogs),
    although no line is posted on Share Capital; it goes down by exactly
    returnAmount - returnCogs whenever the two subtractions are exact. *)
Theorem sales_return_postings (body : ReturnForm.t) (w : WriteFile)
  (s : MemStorage) (invoice : SalesInvoice.t) :
  Reachable s ->
  returnFormSchema body = true ->
  map_get (ReturnForm.invoiceId body) (salesInvoices s) = Some invoice ->
  let returnAmount := sumAmount (ReturnForm.items body) in
  let returnCogs := sumCOGS (ReturnForm.items body) in
  let s' := snd (postSalesReturns body w s) in
  exists es salesReturn,
    fst (postSalesReturns body w s) = answer w salesReturn
    /\ map_values (journalEntries s')
       = (map_values (journalEntries s) ++ es)%list
    /\ map posting es
       = [ ("4002", returnAmount, 0);
           (if String.eqb (SalesInvoice.paymentMethod invoice) "cash"
            then "1001" else "1002", 0, returnAmount);
           ("1003", returnCogs, 0);
           ("5001", 0, returnCogs) ]
    /\ balanceOf "3001" s'
       = parseFloat
           (toString (balanceOf "3001" s - (returnAmount - returnCogs)))
    /\ (exactSub returnAmount returnCogs = true ->
        exactSub (balanceOf "3001" s) (returnAmount - returnCogs) = true ->
        (value (balanceOf "3001" s')
         == value (balanceOf "3001" s)
            - (value returnAmount - value returnCogs))%Q).
Proof.
  intros Hr Hs Hget returnAmount returnCogs s'.
  destruct (Reachable_Inv s Hr) as ((b & Ha) & HJ & _).
  destruct (postSalesReturns_run body w s b invoice Hs Hget Ha)
    as (m & n & E).
  subst s'. rewrite E. cbn [fst snd].
  destruct (journal_ok_append _ _ _
              (currentJournalEntryId s + 1 + 1 + 1 + 1)%Z
              (returnEntries body s invoice) HJ) as [EJ _].
  { reflexivity. }
  { repeat constructor. }
  { now apply returnEntries_balanced. }
  { cbn [returnEntries List.length]. lia. }
  exists (returnEntries body s invoice), (returnRecord body s).
  split; [reflexivity|].
  destruct (balanceOf_chart s b Ha) as (_ & _ & _ & _ & -> & _).
  destruct (balanceOf_chart (afterReturn body s b invoice m n) _ eq_refl)
    as (_ & _ & _ & _ & -> & _).
  unfold afterReturn. cbn [journalEntries]. rewrite EJ.
  unfold map_values. rewrite map_app.
  pose proof (map_values_entries (returnEntries body s invoice)) as V.
  unfold map_values in V. rewrite V.
  split; [reflexivity|].
  split; [|split].
  - pose proof (sumAmount_notNegative _ (returnForm_items body Hs)) as HA.
    pose proof (sumCOGS_notNegative _ (returnForm_items body Hs)) as HC.
    unfold returnEntries, posting.
    cbn [map JournalEntry.accountCode JournalEntry.debitAmount
         JournalEntry.creditAmount].
    rewrite !parseFloat_toString, canon_0.
    rewrite (notNegative_canon _ HA), (notNegative_canon _ HC).
    now destruct (String.eqb (SalesInvoice.paymentMethod invoice) "cash").
  - reflexivity.
  - intros X1 X2. apply exactSub_spec in X1 as [_ X1].
    apply exactSub_spec in X2 as [_ X2].
    unfold returnBalances. cbn [b3001].
    rewrite value_stored. subst returnAmount returnCogs.
    rewrite X2, X1. reflexivity.
Qed.

Lemma sales_return_postings_witness :
  Reachable afterCreditSale
  /\ returnFormSchema acmeReturn = true
  /\ map_get (ReturnForm.invoiceId acmeReturn) (salesInvoices afterCreditSale)
     = Some (saleInvoice acmeCreditSale newMemStorage)
  /\ balanceOf "3001"
       (snd (postSalesReturns acmeReturn Written afterCreditSale))
     = parseFloat
         (toString
            (balanceOf "3001" afterCreditSale
             - (sumAmount (ReturnForm.items acmeReturn)
                - sumCOGS (ReturnForm.items acmeReturn)))).
Proof.
  assert (Hs : returnFormSchema acmeReturn = true) by (vm_compute; reflexivity).
  assert (Hget : map_get (ReturnForm.invoiceId acmeReturn)
                   (salesInvoices afterCreditSale)
                 = Some (saleInvoice acmeCreditSale newMemStorage))
    by (vm_compute; reflexivity).
  split; [exact Reachable_afterCreditSale|].
  split; [exact Hs|]. split; [exact Hget|].
  destruct (sales_return_postings acmeReturn Written afterCreditSale
              (saleInvoice acmeCreditSale newMemStorage)
              Reachable_afterCreditSale Hs Hget)
    as (es & r & _ & _ & _ & Hsc & _).
  exact Hsc.
Defined.

(** The return of the example: accepted, posted on Accounts Receivable
    since the sale was on credit, and the invoice is untouched. *)
Example credit_sale_return :
  succeeded (fst (postSalesReturns acmeReturn Written afterCreditSale)) = true
  /\ map posting
       (entriesOf 2
          (snd (postSalesReturns acmeReturn Written afterCreditSale)))
     = [("4002", 100, 0); ("1002", 0, 100); ("1003", 30, 0); ("5001", 0, 30)]
  /\ map nameAndBalance
       (map_values
          (accounts
             (snd (postSalesReturns acmeReturn Written afterCreditSale))))
     = [ ("Cash", 2375000); ("Accounts Receivable", 0);
         ("Inventory", 449990); ("Accounts Payable", 0);
         ("Share Capital - Ordinary", 2824990); ("Sales Revenue", 100);
         ("Sales Return and Allowances", 100); ("Cost of Goods Sold", 10) ]
  /\ map_get 1
       (salesInvoices
          (snd (postSalesReturns acmeReturn Written afterCreditSale)))
     = map_get 1 (salesInvoices afterCreditSale).
Proof. vm_compute. repeat split; reflexivity. Qed.

(** ** C8: [updateAccountBalance] on an unknown code *)

Lemma find_mutate_first {V : Type} (p : V -> bool) (f : V -> V)
  (m : JsMap V) (v : V) :
  find p (map_values m) = Some v ->
  p (f v) = true ->
  find p (map_values (mutate_first p f m)) = Some (f v).
Proof.
  intros Hfind Hp. induction m as [|[k v'] m IH]; cbn in *; [discriminate|].
  destruct (p v') eqn:E; cbn.
  - injection Hfind as ->. now rewrite Hp.
  - rewrite E. now apply IH.
Qed.

Lemma find_map_set {V : Type} (p : V -> bool) (k : Z) (v : V) (m : JsMap V) :
  find p (map_values m) = Some v ->
  p v = true ->
  find p (map_values (map_set k v m)) = Some v.
Proof.
  intros Hfind Hp. induction m as [|[k' v'] m IH]; cbn in *; [discriminate|].
  destruct (k =? k')%Z; cbn.
  - now rewrite Hp.
  - destruct (p v'); [exact Hfind | now apply IH].
Qed.

(** C8, as stated, fails at code 9999 of a fresh store: no account has
    that code, yet the call is fulfilled, nothing is thrown and the store
    is left as it was. *)
Lemma updateAccountBalance_unknown_code_is_silent :
  find (hasCode "9999") (map_values (accounts newMemStorage)) = None
  /\ updateAccountBalance "9999" 500 newMemStorage
     = (Fulfilled tt, newMemStorage)
  /\ ~ (exists e,
          fst (updateAccountBalance "9999" 500 newMemStorage) = Thrown e).
Proof.
  split; [reflexivity|]. split; [reflexivity|].
  intros [e He]. cbv in He. discriminate He.
Qed.

(** C8 (amended).  [updateAccountBalance(code, balance)] never throws and
    yields no value.  When no account has the code it leaves the store as
    it was; otherwise the first account with that code is afterwards
    found with its balance replaced by the decimal string of [balance]
    and its other fields as before. *)
Theorem updateAccountBalance_sets_or_skips (code : string) (balance : number)
  (s : MemStorage) :
  match find (hasCode code) (map_values (accounts s)) with
  | None => updateAccountBalance code balance s = (Fulfilled tt, s)
  | Some account =>
      fst (updateAccountBalance code balance s) = Fulfilled tt
      /\ find (hasCode code)
           (map_values (accounts (snd (updateAccountBalance code balance s))))
         = Some (Account.with_balance (toString balance) account)
  end.
Proof.
  unfold updateAccountBalance, bind, getAccountByCode.
  destruct (find (hasCode code) (map_values (accounts s)))
    as [account|] eqn:Hfind; [|reflexivity].
  cbn [fst snd set_accounts accounts]. split; [reflexivity|].
  assert (Hcode : hasCode code (Account.with_balance (toString balance) account)
                  = true).
  { apply find_some in Hfind as [_ H]. exact H. }
  apply find_map_set; [|exact Hcode].
  now apply find_mutate_first.
Qed.

(** On the seeded chart: Cash is overwritten with the number given. *)
Example updateAccountBalance_cash :
  balanceOf "1001" (snd (updateAccountBalance "1001" 500 newMemStorage)) = 500
  /\ balanceOf "1003" (snd (updateAccountBalance "1001" 500 newMemStorage))
     = 450000.
Proof. vm_compute. split; reflexivity. Qed.

(** ** C2: [createJournalEntries] and unbalanced batches *)

Lemma stamp_ids (entries : list InsertJournalEntry.t) :
  forall k, map JournalEntry.id (stamp k entries)
            = idsFrom k (List.length entries).
Proof.
  induction entries as [|entry rest IH]; intros k; cbn; [reflexivity|].
  now rewrite IH.
Qed.

Lemma stamp_length (entries : list InsertJournalEntry.t) :
  forall k, List.length (stamp k entries) = List.length entries.
Proof.
  induction entries as [|entry rest IH]; intros k; cbn; [reflexivity|].
  now rewrite IH.
Qed.

Lemma createJournalEntries_from_run (entries : list InsertJournalEntry.t) :
  forall (acc : list JournalEntry.t) (s : MemStorage),
    let k := currentJournalEntryId s in
    let r := createJournalEntries_from acc entries s in
    fst r = Fulfilled (acc ++ stamp k entries)%list
    /\ journalEntries (snd r) = set_entries (stamp k entries) (journalEntries s)
    /\ currentJournalEntryId (snd r)
       = (k + Z.of_nat (List.length entries))%Z.
Proof.
  induction entries as [|entry rest IH]; intros acc s k r; subst k r.
  - cbn. rewrite app_nil_r, Z.add_0_r. auto.
  - cbn [createJournalEntries_from]. unfold bind, createJournalEntry.
    cbv zeta. cbn [JournalEntry.id].
    destruct (IH (acc ++ [storedEntry (currentJournalEntryId s) entry])%list
                (put_journalEntry (currentJournalEntryId s)
                   (storedEntry (currentJournalEntryId s) entry)
                   (currentJournalEntryId s + 1)%Z s))
      as (H1 & H2 & H3).
    cbn [currentJournalEntryId journalEntries put_journalEntry] in H1, H2, H3.
    unfold storedEntry in *. rewrite H1, H2, H3.
    cbn [stamp List.length set_entries fold_left JournalEntry.id].
    rewrite <- app_assoc. cbn [app].
    repeat split. unfold storedEntry. lia.
Qed.

Lemma idsFrom_lower (n : nat) :
  forall k : Z, Forall (fun k' => (k <= k')%Z) (idsFrom k n).
Proof.
  induction n as [|n IH]; intros k; cbn [idsFrom]; constructor.
  - lia.
  - eapply Forall_impl; [|apply (IH (k + 1)%Z)]. cbn. intros; lia.
Qed.

Lemma set_entries_get_other (es : list JournalEntry.t) (k : Z) :
  Forall (fun k' => k' <> k) (map JournalEntry.id es) ->
  forall J, map_get k (set_entries es J) = map_get k J.
Proof.
  induction es as [|e es IH]; intros H J; [reflexivity|].
  cbn in H. inversion H as [|? ? He Hes]; subst.
  cbn [set_entries fold_left]. fold (set_entries es).
  rewrite (IH Hes). apply map_get_set_other. congruence.
Qed.

Lemma set_entries_persisted (es : list JournalEntry.t) :
  forall (k : Z) (J : JsMap JournalEntry.t),
    map JournalEntry.id es = idsFrom k (List.length es) ->
    Forall (fun e => map_get (JournalEntry.id e) (set_entries es J) = Some e)
      es.
Proof.
  induction es as [|e es IH]; intros k J Hids; constructor.
  - cbn in Hids. injection Hids as He Hes.
    cbn [set_entries fold_left]. fold (set_entries es).
    rewrite set_entries_get_other; [apply map_get_set_same|].
    rewrite Hes, He.
    eapply Forall_impl; [|apply (idsFrom_lower (List.length es) (k + 1)%Z)].
    cbn. intros; lia.
  - cbn in Hids. injection Hids as He Hes.
    cbn [set_entries fold_left]. fold (set_entries es).
    exact (IH (k + 1)%Z _ Hes).
Qed.

(** C2, as stated, fails at that batch on a fresh store: debits and
    credits differ by 100, yet nothing is thrown and the line is in the
    journal afterwards. *)
Lemma createJournalEntries_accepts_unbalanced_batch :
  gt (abs (batchDebit oneSidedBatch - batchCredit oneSidedBatch)) 0.01 = true
  /\ ~ (exists e,
          fst (createJournalEntries oneSidedBatch newMemStorage) = Thrown e)
  /\ journalEntries newMemStorage = []
  /\ map posting
       (map_values
          (journalEntries
             (snd (createJournalEntries oneSidedBatch newMemStorage))))
     = [("1001", 100, 0)].
Proof.
  split; [reflexivity|].
  split; [intros [e He]; cbv in He; discriminate He|].
  split; reflexivity.
Qed.

(** C2 (amended).  [createJournalEntries] checks nothing: for every batch,
    balanced or not, and every store it is fulfilled with one stored entry
    per entry of the batch, in order, numbered consecutively from the
    journal counter; every one of them is in the journal afterwards under
    its id, and the counter has advanced by the size of the batch. *)
Theorem createJournalEntries_stores_every_entry
  (entries : list InsertJournalEntry.t) (s : MemStorage) :
  let k := currentJournalEntryId s in
  let r := createJournalEntries entries s in
  fst r = Fulfilled (stamp k entries)
  /\ List.length (stamp k entries) = List.length entries
  /\ map JournalEntry.id (stamp k entries) = idsFrom k (List.length entries)
  /\ journalEntries (snd r) = set_entries (stamp k entries) (journalEntries s)
  /\ Forall
       (fun e => map_get (JournalEntry.id e) (journalEntries (snd r)) = Some e)
       (stamp k entries)
  /\ currentJournalEntryId (snd r) = (k + Z.of_nat (List.length entries))%Z.
Proof.
  intros k r. subst k r. unfold createJournalEntries.
  destruct (createJournalEntries_from_run entries [] s) as (H1 & H2 & H3).
  cbn [app] in H1.
  split; [exact H1|]. split; [apply stamp_length|].
  split; [apply stamp_ids|]. split; [exact H2|]. split; [|exact H3].
  rewrite H2. apply (set_entries_persisted _ (currentJournalEntryId s)).
  now rewrite stamp_ids, stamp_length.
Qed.

(** * Further properties *)

(** ** A request is accepted or changes nothing *)

Lemma fulfils_ret {A : Type} (a : A) : fulfils (ret a).
Proof. intros s. now exists a, s. Qed.

Lemma fulfils_bind {A B : Type} (m : M A) (f : A -> M B) :
  fulfils m -> (forall a, fulfils (f a)) -> fulfils (bind m f).
Proof.
  intros Hm Hf s. destruct (Hm s) as (a & s1 & E).
  destruct (Hf a s1) as (b & s2 & E2).
  exists b, s2. unfold bind. now rewrite E.
Qed.

Lemma fulfils_forOf {A : Type} (xs : list A) (body : A -> M unit) :
  (forall x, fulfils (body x)) -> fulfils (forOf xs body).
Proof.
  intros Hbody. induction xs as [|x xs IH]; cbn [forOf].
  - apply fulfils_ret.
  - apply fulfils_bind; [apply Hbody | intros _; exact IH].
Qed.

Lemma fulfils_getSalesInvoiceById (id : Z) : fulfils (getSalesInvoiceById id).
Proof. intros s. eexists. eexists. reflexivity. Qed.

Lemma fulfils_createSalesInvoice (i : InsertSalesInvoice.t) :
  fulfils (createSalesInvoice i).
Proof. intros s. eexists. eexists. reflexivity. Qed.

Lemma fulfils_createSalesItem (i : InsertSalesItem.t) :
  fulfils (createSalesItem i).
Proof. intros s. eexists. eexists. reflexivity. Qed.

Lemma fulfils_createCollection (c : InsertCollection.t) :
  fulfils (createCollection c).
Proof. intros s. eexists. eexists. reflexivity. Qed.

Lemma fulfils_createSalesReturn (r : InsertSalesReturn.t) :
  fulfils (createSalesReturn r).
Proof. intros s. eexists. eexists. reflexivity. Qed.

Lemma fulfils_createReturnItem (i : InsertReturnItem.t) :
  fulfils (createReturnItem i).
Proof. intros s. eexists. eexists. reflexivity. Qed.

Lemma fulfils_createTransaction (t : InsertTransaction.t) :
  fulfils (createTransaction t).
Proof. intros s. eexists. eexists. reflexivity. Qed.

Lemma fulfils_createJournalEntry (e : InsertJournalEntry.t) :
  fulfils (createJournalEntry e).
Proof. intros s. eexists. eexists. reflexivity. Qed.

Lemma fulfils_createJournalEntries (entries : list InsertJournalEntry.t) :
  fulfils (createJournalEntries entries).
Proof.
  unfold createJournalEntries. generalize (@nil JournalEntry.t).
  induction entries as [|entry rest IH]; intros acc;
    cbn [createJournalEntries_from].
  - apply fulfils_ret.
  - apply fulfils_bind; [apply fulfils_createJournalEntry | intros e; apply IH].
Qed.

Lemma fulfils_getAccountByCode (code : string) :
  fulfils (getAccountByCode code).
Proof. intros s. eexists. eexists. reflexivity. Qed.

Lemma fulfils_updateAccountBalance (code : string) (balance : number) :
  fulfils (updateAccountBalance code balance).
Proof.
  unfold updateAccountBalance.
  apply fulfils_bind; [apply fulfils_getAccountByCode|].
  intros [account|]; [|apply fulfils_ret].
  intros s. eexists. eexists. reflexivity.
Qed.

Lemma fulfils_updateSalesInvoicePayment (id : Z) (paid outstanding : number)
  (status : string) :
  fulfils (updateSalesInvoicePayment id paid outstanding status).
Proof.
  intros s. unfold updateSalesInvoicePayment.
  destruct (map_get id (salesInvoices s)); eexists; eexists; reflexivity.
Qed.

Lemma writeOnly_save {A : Type} (a : A) :
  writeOnly (fun w => saveToFile w ;;; ret (Json a)).
Proof. intros s. exists a, s. intros [|message]; reflexivity. Qed.

Lemma writeOnly_bind {A B : Type} (m : M A)
  (f : A -> WriteFile -> M (Response B)) :
  fulfils m -> (forall a, writeOnly (f a)) ->
  writeOnly (fun w => bind m (fun a => f a w)).
Proof.
  intros Hm Hf s. destruct (Hm s) as (a & s1 & E).
  destruct (Hf a s1) as (b & s2 & E2).
  exists b, s2. intros w. unfold bind. now rewrite E, E2.
Qed.

Lemma writeOnlyAt_bind {A B : Type} (m : M A)
  (f : A -> WriteFile -> M (Response B)) (s s1 : MemStorage) (a : A) :
  m s = (Fulfilled a, s1) -> writeOnlyAt s1 (f a) ->
  writeOnlyAt s (fun w => bind m (fun a => f a w)).
Proof.
  intros E (b & s2 & E2). exists b, s2. intros w. unfold bind.
  now rewrite E, E2.
Qed.

Lemma tryCatch_writeOnlyAt {A : Type}
  (route : WriteFile -> MemStorage -> Response A * MemStorage)
  (m : WriteFile -> M (Response A)) (s : MemStorage) :
  (forall w, route w = tryCatch (m w)) ->
  writeOnlyAt s m ->
  exists a s', forall w, route w s = (answer w a, s').
Proof.
  intros Hroute (a & s' & E). exists a, s'. intros w.
  rewrite Hroute. unfold tryCatch. rewrite E. now destruct w.
Qed.

Create HintDb fulfils.

#[local] Hint Resolve fulfils_ret writeOnly_save fulfils_getSalesInvoiceById
  fulfils_createSalesInvoice fulfils_createSalesItem fulfils_createCollection
  fulfils_createSalesReturn fulfils_createReturnItem
  fulfils_createTransaction fulfils_createJournalEntries
  fulfils_getAccountByCode fulfils_updateAccountBalance
  fulfils_updateSalesInvoicePayment : fulfils.

(** Walks a route body that no storage call can make fail. *)
Ltac answers :=
  repeat first
    [ solve [auto with fulfils]
    | apply fulfils_forOf; intros ?
    | apply writeOnly_bind; [|intros ?]
    | apply fulfils_bind; [|intros ?]
    | progress cbv beta zeta
    | match goal with
      | |- fulfils (if ?x then _ else _) => destruct x
      end ].

Lemma postSales_accepted (body : SalesForm.t) (s : MemStorage) :
  salesFormSchema body = true ->
  exists invoice s', forall w, postSales body w s = (answer w invoice, s').
Proof.
  intros Hs.
  eapply (tryCatch_writeOnlyAt (postSales body));
    [intros w; unfold postSales; reflexivity|].
  unfold parse. rewrite Hs.
  eapply writeOnlyAt_bind; [reflexivity|]. cbv beta.
  refine ((_ : writeOnly _) s). answers.
Qed.

Lemma postCollections_accepted (body : CollectionForm.t) (s : MemStorage)
  (invoice : SalesInvoice.t) :
  collectionFormSchema body = true ->
  map_get (CollectionForm.invoiceId body) (salesInvoices s) = Some invoice ->
  gt (CollectionForm.amount body)
     (parseFloat (SalesInvoice.outstandingAmount invoice)) = false ->
  exists collection s',
    forall w, postCollections body w s = (answer w collection, s').
Proof.
  intros Hs Hget Hgt.
  eapply (tryCatch_writeOnlyAt (postCollections body));
    [intros w; unfold postCollections; reflexivity|].
  unfold parse. rewrite Hs.
  eapply writeOnlyAt_bind; [reflexivity|]. cbv beta.
  eapply writeOnlyAt_bind;
    [unfold getSalesInvoiceById; rewrite Hget; reflexivity|].
  cbv beta iota zeta. rewrite Hgt.
  refine ((_ : writeOnly _) s). answers.
Qed.

Lemma postSalesReturns_accepted (body : ReturnForm.t) (s : MemStorage)
  (invoice : SalesInvoice.t) :
  returnFormSchema body = true ->
  map_get (ReturnForm.invoiceId body) (salesInvoices s) = Some invoice ->
  exists salesReturn s',
    forall w, postSalesReturns body w s = (answer w salesReturn, s').
Proof.
  intros Hs Hget.
  eapply (tryCatch_writeOnlyAt (postSalesReturns body));
    [intros w; unfold postSalesReturns; reflexivity|].
  unfold parse. rewrite Hs.
  eapply writeOnlyAt_bind; [reflexivity|]. cbv beta.
  eapply writeOnlyAt_bind;
    [unfold getSalesInvoiceById; rewrite Hget; reflexivity|].
  cbv beta iota zeta.
  refine ((_ : writeOnly _) s). answers.
Qed.

Lemma succeeded_answer {A : Type} (w : WriteFile) (a : A) :
  succeeded (answer w a) = written w.
Proof. now destruct w. Qed.

(** X1.  Whatever the store, a sale, collection or sales return is
    accepted exactly when it passes validation, the invoice it refers to
    exists and, for a collection, the amount does not exceed the
    outstanding amount.  A request that is not accepted leaves the store
    exactly as it was.  An accepted request is answered with success when
    the write to the file is done, and with status 400 and the message of
    the error when the write fails; the store it leaves is the same in
    both cases. *)
Theorem rejected_requests_change_nothing (e : Event) (s : MemStorage) :
  (accepted e s = false ->
   forall w, fst (submit e w s) = false /\ snd (submit e w s) = s)
  /\ (accepted e s = true ->
      (forall w,
          fst (submit e w s) = written w
          /\ snd (submit e w s) = snd (submit e Written s))
      /\ match e with
         | Sale body =>
             exists invoice,
               forall w, fst (postSales body w s) = answer w invoice
         | Collect body =>
             exists collection,
               forall w, fst (postCollections body w s) = answer w collection
         | Return body =>
             exists salesReturn,
               forall w,
                 fst (postSalesReturns body w s) = answer w salesReturn
         end).
Proof.
  destruct e as [body|body|body]; cbn [submit accepted].
  - destruct (salesFormSchema body) eqn:Hs.
    + split; [discriminate|]. intros _.
      destruct (postSales_accepted body s Hs) as (a & s' & H).
      split; [|exists a; intros w; now rewrite H].
      intros w. rewrite (H w), (H Written). cbn [fst snd].
      split; [apply succeeded_answer | reflexivity].
    + split; [|discriminate]. intros _ w.
      rewrite (postSales_rejected body w s Hs). cbn. auto.
  - unfold collectionAccepted.
    destruct (collectionFormSchema body) eqn:Hs.
    2: { split; [|discriminate]. intros _ w.
         rewrite (postCollections_rejected body w s Hs). cbn. auto. }
    destruct (map_get (CollectionForm.invoiceId body) (salesInvoices s))
      as [invoice|] eqn:Hget.
    2: { split; [|discriminate]. intros _ w.
         rewrite (postCollections_not_found body w s Hs Hget). cbn. auto. }
    destruct (gt (CollectionForm.amount body)
                (parseFloat (SalesInvoice.outstandingAmount invoice)))
      eqn:Hgt.
    + split; [|discriminate]. intros _ w.
      rewrite (postCollections_exceeds body w s invoice Hs Hget Hgt).
      cbn. auto.
    + split; [discriminate|]. intros _.
      destruct (postCollections_accepted body s invoice Hs Hget Hgt)
        as (a & s' & H).
      split; [|exists a; intros w; now rewrite H].
      intros w. rewrite (H w), (H Written). cbn [fst snd].
      split; [apply succeeded_answer | reflexivity].
  - unfold returnAccepted.
    destruct (returnFormSchema body) eqn:Hs.
    2: { split; [|discriminate]. intros _ w.
         rewrite (postSalesReturns_rejected body w s Hs). cbn. auto. }
    destruct (map_get (ReturnForm.invoiceId body) (salesInvoices s))
      as [invoice|] eqn:Hget.
    2: { split; [|discriminate]. intros _ w.
         rewrite (postSalesReturns_not_found body w s Hs Hget). cbn. auto. }
    split; [discriminate|]. intros _.
    destruct (postSalesReturns_accepted body s invoice Hs Hget)
      as (a & s' & H).
    split; [|exists a; intros w; now rewrite H].
    intros w. rewrite (H w), (H Written). cbn [fst snd].
    split; [apply succeeded_answer | reflexivity].
Qed.

Lemma rejected_requests_change_nothing_witness :
  accepted (Collect acmeCollection150) afterCreditSale = false
  /\ snd (submit (Collect acmeCollection150) Written afterCreditSale)
     = afterCreditSale.
Proof.
  assert (H : accepted (Collect acmeCollection150) afterCreditSale = false)
    by (vm_compute; reflexivity).
  split; [exact H|].
  exact (proj2 (proj1 (rejected_requests_change_nothing
                         (Collect acmeCollection150) afterCreditSale)
                  H Written)).
Defined.

(** A sale accepted while the write to the file fails: answered with
    status 400 and the message of the error, and posted all the same. *)
Example sale_posted_though_write_fails :
  fst (postSales acmeCashSale (Rejected "ENOSPC") newMemStorage)
  = Status 400 "ENOSPC"
  /\ snd (postSales acmeCashSale (Rejected "ENOSPC") newMemStorage)
     = snd (postSales acmeCashSale Written newMemStorage)
  /\ balanceOf "1001"
       (snd (postSales acmeCashSale (Rejected "ENOSPC") newMemStorage))
     = 2375200.
Proof. vm_compute. repeat split; reflexivity. Qed.

(** ** The stores the routes build, item tables included *)

Lemma forOf_salesItems_closed (items : list Item.t) (body : Item.t -> M unit)
  (mk : Z -> Item.t -> SalesItem.t) :
  (forall x s,
      body x s
      = (Fulfilled tt,
         put_salesItem (currentSalesItemId s) (mk (currentSalesItemId s) x)
           (currentSalesItemId s + 1)%Z s)) ->
  (forall k x, SalesItem.id (mk k x) = k) ->
  forall s,
    forOf items body s
    = (Fulfilled tt,
       mkMemStorage (accounts s) (transactions s) (journalEntries s)
         (salesInvoices s)
         (set_rows SalesItem.id (stampWith mk (currentSalesItemId s) items)
            (salesItems s))
         (collections s) (salesReturns s) (returnItems s)
         (currentAccountId s) (currentTransactionId s)
         (currentJournalEntryId s) (currentSalesInvoiceId s)
         (currentSalesItemId s + Z.of_nat (List.length items))
         (currentCollectionId s) (currentSalesReturnId s)
         (currentReturnItemId s)).
Proof.
  intros Hbody Hid. induction items as [|x items IH]; intros s.
  - destruct s. cbn. now rewrite Z.add_0_r.
  - cbn [forOf]. unfold bind at 1. rewrite Hbody, IH.
    destruct s. cbn [put_salesItem accounts transactions journalEntries
      salesInvoices salesItems collections salesReturns returnItems
      currentAccountId currentTransactionId currentJournalEntryId
      currentSalesInvoiceId currentSalesItemId currentCollectionId
      currentSalesReturnId currentReturnItemId stampWith List.length].
    unfold set_rows. cbn [fold_left]. rewrite Hid.
    do 2 f_equal. lia.
Qed.

Lemma forOf_returnItems_closed (items : list Item.t) (body : Item.t -> M unit)
  (mk : Z -> Item.t -> ReturnItem.t) :
  (forall x s,
      body x s
      = (Fulfilled tt,
         put_returnItem (currentReturnItemId s) (mk (currentReturnItemId s) x)
           (currentReturnItemId s + 1)%Z s)) ->
  (forall k x, ReturnItem.id (mk k x) = k) ->
  forall s,
    forOf items body s
    = (Fulfilled tt,
       mkMemStorage (accounts s) (transactions s) (journalEntries s)
         (salesInvoices s) (salesItems s) (collections s) (salesReturns s)
         (set_rows ReturnItem.id (stampWith mk (currentReturnItemId s) items)
            (returnItems s))
         (currentAccountId s) (currentTransactionId s)
         (currentJournalEntryId s) (currentSalesInvoiceId s)
         (currentSalesItemId s) (currentCollectionId s)
         (currentSalesReturnId s)
         (currentReturnItemId s + Z.of_nat (List.length items))).
Proof.
  intros Hbody Hid. induction items as [|x items IH]; intros s.
  - destruct s. cbn. now rewrite Z.add_0_r.
  - cbn [forOf]. unfold bind at 1. rewrite Hbody, IH.
    destruct s. cbn [put_returnItem accounts transactions journalEntries
      salesInvoices salesItems collections salesReturns returnItems
      currentAccountId currentTransactionId currentJournalEntryId
      currentSalesInvoiceId currentSalesItemId currentCollectionId
      currentSalesReturnId currentReturnItemId stampWith List.length].
    unfold set_rows. cbn [fold_left]. rewrite Hid.
    do 2 f_equal. lia.
Qed.

Lemma postSales_store (body : SalesForm.t) (w : WriteFile) (s : MemStorage)
  (b : Balances) :
  salesFormSchema body = true ->
  accounts s = chart b ->
  postSales body w s = (answer w (saleInvoice body s), storeAfterSale body s b).
Proof.
  intros Hs Ha.
  destruct s as [acc tx je inv sitems col rets ritems n1 n2 n3 n4 n5 n6 n7 n8].
  cbn in Ha; subst acc.
  unfold postSales, tryCatch, parse. rewrite Hs.
  unfold bind at 1, ret at 1.
  unfold bind at 1, createSalesInvoice at 1.
  unfold bind at 1.
  match goal with
  | |- context [forOf ?xs ?body ?s0] =>
      rewrite (forOf_salesItems_closed xs body (storedSalesItem n4))
        by (intros; reflexivity)
  end.
  unfold storeAfterSale, saleItems, afterSale, saleInvoice, saleEntries,
    saleTransaction, saleBalances.
  generalize (set_rows SalesItem.id
                (stampWith (storedSalesItem n4) n5 (SalesForm.items body))
                sitems).
  intros m.
  cbn [salesItems currentSalesItemId currentSalesInvoiceId
       put_salesInvoice].
  generalize (n5 + Z.of_nat (List.length (SalesForm.items body)))%Z.
  intros n.
  destruct w; destruct (String.eqb (SalesForm.paymentMethod body) "cash");
    run; reflexivity.
Qed.

Lemma postSalesReturns_store (body : ReturnForm.t) (w : WriteFile)
  (s : MemStorage) (b : Balances) (invoice : SalesInvoice.t) :
  returnFormSchema body = true ->
  map_get (ReturnForm.invoiceId body) (salesInvoices s) = Some invoice ->
  accounts s = chart b ->
  postSalesReturns body w s
  = (answer w (returnRecord body s), storeAfterReturn body s b invoice).
Proof.
  intros H Hget Ha.
  destruct s as [acc tx je inv sitems col rets ritems n1 n2 n3 n4 n5 n6 n7 n8].
  cbn in Ha, Hget; subst acc.
  unfold postSalesReturns, tryCatch, parse. rewrite H.
  unfold bind at 1, ret at 1. unfold bind at 1, getSalesInvoiceById at 1.
  cbn [salesInvoices]. rewrite Hget. cbv beta iota zeta.
  unfold bind at 1, createSalesReturn at 1.
  unfold bind at 1.
  match goal with
  | |- context [forOf ?xs ?body ?s0] =>
      rewrite (forOf_returnItems_closed xs body (storedReturnItem n7))
        by (intros; reflexivity)
  end.
  unfold storeAfterReturn, returnedItems, afterReturn, returnRecord,
    returnTransaction, returnEntries, returnBalances.
  generalize (set_rows ReturnItem.id
                (stampWith (storedReturnItem n7) n8 (ReturnForm.items body))
                ritems).
  intros m.
  cbn [returnItems currentReturnItemId currentSalesReturnId
       put_salesReturn].
  generalize (n8 + Z.of_nat (List.length (ReturnForm.items body)))%Z.
  intros n.
  destruct w; destruct (String.eqb (SalesInvoice.paymentMethod invoice) "cash");
    run; reflexivity.
Qed.

(** Induction over the reachable stores, one case per accepted request. *)
Lemma Reachable_by_route (P : MemStorage -> Prop) :
  P newMemStorage ->
  (forall s body b,
      Reachable s -> P s -> salesFormSchema body = true ->
      accounts s = chart b -> P (storeAfterSale body s b)) ->
  (forall s body b invoice,
      Reachable s -> P s -> collectionFormSchema body = true ->
      map_get (CollectionForm.invoiceId body) (salesInvoices s)
      = Some invoice ->
      gt (CollectionForm.amount body)
         (parseFloat (SalesInvoice.outstandingAmount invoice)) = false ->
      accounts s = chart b -> P (afterCollection body s b invoice)) ->
  (forall s body b invoice,
      Reachable s -> P s -> returnFormSchema body = true ->
      map_get (ReturnForm.invoiceId body) (salesInvoices s) = Some invoice ->
      accounts s = chart b -> P (storeAfterReturn body s b invoice)) ->
  forall s, Reachable s -> P s.
Proof.
  intros Hnew Hsale Hcollect Hreturn s Hr.
  induction Hr as [|s e w Hr IH]; [exact Hnew|].
  destruct (Reachable_Inv s Hr) as ((b & Ha) & _).
  destruct e as [body|body|body]; cbn [submit].
  - destruct (salesFormSchema body) eqn:Hs.
    + rewrite (postSales_store body w s b Hs Ha). cbn [snd]. now apply Hsale.
    + now rewrite (postSales_rejected body w s Hs).
  - destruct (collectionFormSchema body) eqn:Hs.
    2: now rewrite (postCollections_rejected body w s Hs).
    destruct (map_get (CollectionForm.invoiceId body) (salesInvoices s))
      as [invoice|] eqn:Hget.
    2: now rewrite (postCollections_not_found body w s Hs Hget).
    destruct (gt (CollectionForm.amount body)
                (parseFloat (SalesInvoice.outstandingAmount invoice)))
      eqn:Hgt.
    1: now rewrite (postCollections_exceeds body w s invoice Hs Hget Hgt).
    rewrite (postCollections_run body w s b invoice Hs Hget Hgt Ha).
    cbn [snd]. now apply Hcollect.
  - destruct (returnFormSchema body) eqn:Hs.
    2: now rewrite (postSalesReturns_rejected body w s Hs).
    destruct (map_get (ReturnForm.invoiceId body) (salesInvoices s))
      as [invoice|] eqn:Hget.
    2: now rewrite (postSalesReturns_not_found body w s Hs Hget).
    rewrite (postSalesReturns_store body w s b invoice Hs Hget Ha).
    cbn [snd]. now apply Hreturn.
Qed.

(** ** Ids are handed out once, in order *)

Lemma idsFrom_app (n m : nat) :
  forall k : Z,
    idsFrom k (n + m) = (idsFrom k n ++ idsFrom (k + Z.of_nat n) m)%list.
Proof.
  induction n as [|n IH]; intros k.
  - cbn. now rewrite Z.add_0_r.
  - cbn [Nat.add idsFrom app]. rewrite IH. do 3 f_equal. lia.
Qed.

Lemma stampWith_ids {A V : Type} (id : V -> Z) (mk : Z -> A -> V)
  (xs : list A) :
  (forall k x, id (mk k x) = k) ->
  forall k, map id (stampWith mk k xs) = idsFrom k (List.length xs).
Proof.
  intros Hid. induction xs as [|x xs IH]; intros k; cbn; [reflexivity|].
  now rewrite Hid, IH.
Qed.

Lemma stampWith_length {A V : Type} (mk : Z -> A -> V) (xs : list A) :
  forall k, List.length (stampWith mk k xs) = List.length xs.
Proof.
  induction xs as [|x xs IH]; intros k; cbn; [reflexivity|]. now rewrite IH.
Qed.

Lemma set_rows_fresh {V : Type} (id : V -> Z) (xs : list V) :
  forall (k : Z) (m : JsMap V),
    Forall (fun k' => (k' < k)%Z) (map_keys m) ->
    map id xs = idsFrom k (List.length xs) ->
    set_rows id xs m = (m ++ map (fun x => (id x, x)) xs)%list.
Proof.
  induction xs as [|x xs IH]; intros k m Hm Hids; cbn.
  - now rewrite app_nil_r.
  - cbn in Hids. injection Hids as Hx Hxs.
    unfold set_rows in IH. rewrite Hx, (map_set_fresh k x m Hm).
    rewrite (IH (k + 1)%Z).
    + now rewrite <- app_assoc.
    + unfold map_keys in *. rewrite map_app, Forall_app. split.
      * eapply Forall_impl; [|exact Hm]. cbn. intros; lia.
      * repeat constructor. cbn. lia.
    + exact Hxs.
Qed.

Lemma table_ok_below {V : Type} (id : V -> Z) (T : JsMap V) (c : Z) :
  table_ok id T c -> Forall (fun k => (k < c)%Z) (map_keys T).
Proof.
  intros (Hk & -> & _). rewrite Hk. apply idsFrom_bound.
Qed.

Lemma map_get_above {V : Type} (k : Z) (m : JsMap V) :
  Forall (fun k' => (k' < k)%Z) (map_keys m) -> map_get k m = None.
Proof.
  induction m as [|[k' v] m IH]; cbn; [reflexivity|].
  intros H. inversion H as [|? ? Hk Hm]; subst.
  destruct (Z.eqb_spec k k'); [lia | now apply IH].
Qed.

Lemma table_ok_rows {V : Type} (id : V -> Z) (T : JsMap V) (c c' : Z)
  (xs : list V) :
  table_ok id T c ->
  map id xs = idsFrom c (List.length xs) ->
  c' = (c + Z.of_nat (List.length xs))%Z ->
  set_rows id xs T = (T ++ map (fun x => (id x, x)) xs)%list
  /\ table_ok id (set_rows id xs T) c'.
Proof.
  intros HT Hids ->.
  pose proof (set_rows_fresh id xs c T (table_ok_below id T c HT) Hids) as E.
  split; [exact E|]. rewrite E. destruct HT as (Hk & Hc & Hid).
  unfold table_ok, map_keys in *.
  rewrite map_app, map_map, length_app, length_map. cbn [fst].
  split; [|split].
  - rewrite idsFrom_app, Hk. f_equal.
    change (map (fun x => id x) xs) with (map id xs).
    rewrite Hids. f_equal. lia.
  - lia.
  - rewrite Forall_app. split; [exact Hid|].
    rewrite Forall_map. cbn. now apply Forall_forall.
Qed.

Lemma table_ok_put {V : Type} (id : V -> Z) (T : JsMap V) (c c' : Z) (v : V) :
  table_ok id T c -> id v = c -> c' = (c + 1)%Z ->
  map_set c v T = (T ++ [(c, v)])%list /\ table_ok id (map_set c v T) c'.
Proof.
  intros HT Hv ->.
  destruct (table_ok_rows id T c (c + 1)%Z [v] HT) as [E H].
  - cbn. now rewrite Hv.
  - reflexivity.
  - cbn in E, H. rewrite Hv in E, H. now split.
Qed.

Lemma table_ok_update {V : Type} (id : V -> Z) (T : JsMap V) (c k : Z)
  (old new : V) :
  table_ok id T c -> map_get k T = Some old -> id new = k ->
  table_ok id (map_set k new T) c.
Proof.
  intros (Hk & Hc & Hid) Hget Hnew.
  assert (E : map_keys (map_set k new T) = map_keys T
              /\ List.length (map_set k new T) = List.length T
              /\ Forall (fun kv => id (snd kv) = fst kv) (map_set k new T)).
  { clear Hk Hc. unfold map_keys.
    induction T as [|[k' v'] T IH]; cbn in *; [discriminate|].
    apply Forall_cons_iff in Hid as [Hv HT].
    destruct (Z.eqb_spec k k') as [Heq|Hne]; cbn.
    - rewrite Heq. repeat split. constructor; [cbn; congruence | exact HT].
    - destruct (IH HT Hget) as (E1 & E2 & E3).
      rewrite E1, E2. repeat split. now constructor. }
  destruct E as (E1 & E2 & E3). unfold table_ok. now rewrite E1, E2.
Qed.

Lemma map_get_In_pair {V : Type} (k : Z) (v : V) (m : JsMap V) :
  map_get k m = Some v -> In (k, v) m.
Proof.
  induction m as [|[k' v'] m IH]; cbn; [discriminate|].
  destruct (Z.eqb_spec k k') as [->|_].
  - intros [= ->]. now left.
  - intros H. right. now apply IH.
Qed.

Lemma table_ok_id {V : Type} (id : V -> Z) (T : JsMap V) (c k : Z) (v : V) :
  table_ok id T c -> map_get k T = Some v -> id v = k.
Proof.
  intros (_ & _ & Hid) Hget. rewrite Forall_forall in Hid.
  exact (Hid (k, v) (map_get_In_pair k v T Hget)).
Qed.

Lemma table_ok_chart (b b' : Balances) (c : Z) :
  table_ok Account.id (chart b) c -> table_ok Account.id (chart b') c.
Proof.
  intros (Hk & Hc & _). split; [exact Hk|]. split; [exact Hc|].
  repeat constructor.
Qed.

Ltac table_rows :=
  match goal with
  | H : table_ok ?id ?T ?c |- table_ok ?id (set_entries ?es ?T) ?c' =>
      change (set_entries es T) with (set_rows id es T);
      apply (table_ok_rows id T c c' es H); [reflexivity | cbn; lia]
  | H : table_ok ?id ?T ?c |- table_ok ?id (map_set ?c ?v ?T) ?c' =>
      apply (table_ok_put id T c c' v H); [reflexivity | lia]
  end.

Lemma Tables_new : Tables newMemStorage.
Proof.
  unfold Tables, table_ok. vm_compute.
  repeat (split; [try reflexivity; repeat constructor|]).
  repeat constructor.
Qed.

Lemma Reachable_Tables (s : MemStorage) : Reachable s -> Tables s.
Proof.
  revert s. apply Reachable_by_route.
  - exact Tables_new.
  - intros s body b _ (Ta & Tt & Tj & Ti & Tsi & Tc & Tr & Tri) Hs Ha.
    rewrite Ha in Ta.
    unfold Tables, storeAfterSale, afterSale.
    cbn [accounts transactions journalEntries salesInvoices salesItems
         collections salesReturns returnItems currentAccountId
         currentTransactionId currentJournalEntryId currentSalesInvoiceId
         currentSalesItemId currentCollectionId currentSalesReturnId
         currentReturnItemId].
    split; [now apply (table_ok_chart b)|].
    split; [table_rows|]. split; [table_rows|]. split; [table_rows|].
    split; [|auto].
    apply (table_ok_rows _ _ _ _ _ Tsi).
    + unfold saleItems. rewrite stampWith_ids, stampWith_length; reflexivity.
    + unfold saleItems. now rewrite stampWith_length.
  - intros s body b invoice _ (Ta & Tt & Tj & Ti & Tsi & Tc & Tr & Tri)
      Hs Hget Hgt Ha.
    rewrite Ha in Ta.
    unfold Tables, afterCollection.
    cbn [accounts transactions journalEntries salesInvoices salesItems
         collections salesReturns returnItems currentAccountId
         currentTransactionId currentJournalEntryId currentSalesInvoiceId
         currentSalesItemId currentCollectionId currentSalesReturnId
         currentReturnItemId].
    split; [now apply (table_ok_chart b)|].
    split; [table_rows|]. split; [table_rows|].
    split; [|split; [exact Tsi|split; [table_rows|auto]]].
    apply (table_ok_update _ _ _ _ invoice _ Ti Hget).
    exact (table_ok_id _ _ _ _ _ Ti Hget).
  - intros s body b invoice _ (Ta & Tt & Tj & Ti & Tsi & Tc & Tr & Tri)
      Hs Hget Ha.
    rewrite Ha in Ta.
    unfold Tables, storeAfterReturn, afterReturn.
    cbn [accounts transactions journalEntries salesInvoices salesItems
         collections salesReturns returnItems currentAccountId
         currentTransactionId currentJournalEntryId currentSalesInvoiceId
         currentSalesItemId currentCollectionId currentSalesReturnId
         currentReturnItemId].
    split; [now apply (table_ok_chart b)|].
    split; [table_rows|]. split; [table_rows|].
    split; [exact Ti|]. split; [exact Tsi|]. split; [exact Tc|].
    split; [table_rows|].
    apply (table_ok_rows _ _ _ _ _ Tri).
    + unfold returnedItems.
      rewrite stampWith_ids, stampWith_length; reflexivity.
    + unfold returnedItems. now rewrite stampWith_length.
Qed.

(** X2.  In every store the routes reach, every table holds its rows
    under the keys 1, 2, ... in insertion order, each row under its own
    id, and the counter of the table is the next number; so the id the
    next create call hands out is in use nowhere in its table. *)
Theorem ids_are_consecutive_and_fresh (s : MemStorage) :
  Reachable s ->
  Tables s
  /\ map_get (currentTransactionId s) (transactions s) = None
  /\ map_get (currentJournalEntryId s) (journalEntries s) = None
  /\ map_get (currentSalesInvoiceId s) (salesInvoices s) = None
  /\ map_get (currentSalesItemId s) (salesItems s) = None
  /\ map_get (currentCollectionId s) (collections s) = None
  /\ map_get (currentSalesReturnId s) (salesReturns s) = None
  /\ map_get (currentReturnItemId s) (returnItems s) = None.
Proof.
  intros Hr. pose proof (Reachable_Tables s Hr) as T.
  split; [exact T|].
  destruct T as (Ta & Tt & Tj & Ti & Tsi & Tc & Tr & Tri).
  repeat split; apply map_get_above; eapply table_ok_below; eassumption.
Qed.

Lemma ids_are_consecutive_and_fresh_witness :
  Reachable afterCreditSale
  /\ map_keys (journalEntries afterCreditSale) = [1; 2; 3; 4]%Z
  /\ map_get (currentJournalEntryId afterCreditSale)
       (journalEntries afterCreditSale) = None.
Proof.
  split; [exact Reachable_afterCreditSale|].
  split; [vm_compute; reflexivity|].
  exact (proj1 (proj2 (proj2 (ids_are_consecutive_and_fresh afterCreditSale
                                Reachable_afterCreditSale)))).
Defined.

(** ** What an accepted request posts *)

Lemma appended_entries (s : MemStorage) (es : list JournalEntry.t) :
  Inv s ->
  map JournalEntry.id es
  = idsFrom (currentJournalEntryId s) (List.length es) ->
  map_values (set_entries es (journalEntries s))
  = (map_values (journalEntries s) ++ es)%list.
Proof.
  intros (_ & (Hkeys & _) & _) Hids.
  rewrite (set_entries_fresh es (currentJournalEntryId s) _ Hkeys Hids).
  unfold map_values. rewrite map_app. f_equal. apply map_values_entries.
Qed.

Lemma stored_notNegative (x : number) :
  notNegative x = true -> parseFloat (toString x) = x.
Proof. intros H. rewrite parseFloat_toString. now apply notNegative_canon. Qed.

(** X3.  In every reachable store a valid sale is accepted (and answered
    with the invoice unless the write to the file fails).  It debits Cash
    (cash sale) or Accounts Receivable (credit sale) and credits Sales
    Revenue with the amount, debits Cost of Goods Sold and credits
    Inventory with the cost, in that order and with no other line, amount
    and cost being the sums of quantity x unitPrice and of quantity x
    cogsUnit as doubles add them.  The balance of each of those accounts
    becomes the double nearest to the old balance plus or minus that
    amount, Share Capital the one nearest to its balance plus
    (amount - cost); Accounts Payable and Sales Returns stay; when these
    additions and subtractions are exact the balances move by exactly the
    amount, the cost and amount - cost.  The invoice is stored under an id
    not used before, paid with nothing outstanding for a cash sale and
    open with the whole amount outstanding otherwise. *)
Theorem sale_postings (body : SalesForm.t) (w : WriteFile) (s : MemStorage) :
  Reachable s ->
  salesFormSchema body = true ->
  let isCash := String.eqb (SalesForm.paymentMethod body) "cash" in
  let amount := sumAmount (SalesForm.items body) in
  let cogs := sumCOGS (SalesForm.items body) in
  let s' := snd (postSales body w s) in
  exists invoice,
    fst (postSales body w s) = answer w invoice
    /\ map_get (SalesInvoice.id invoice) (salesInvoices s) = None
    /\ map_get (SalesInvoice.id invoice) (salesInvoices s') = Some invoice
    /\ paymentFields invoice
       = (Some (toString (if isCash then amount else 0)),
          toString (if isCash then 0 else amount),
          if isCash then "paid" else "open")
    /\ parseFloat (SalesInvoice.totalAmount invoice) = amount
    /\ map posting (map_values (journalEntries s'))
       = (map posting (map_values (journalEntries s))
          ++ [ (if isCash then "1001" else "1002", amount, 0);
               ("4001", 0, amount); ("5001", cogs, 0); ("1003", 0, cogs) ])%list
    /\ balanceOf "1001" s'
       = (if isCash then parseFloat (toString (balanceOf "1001" s + amount))
          else balanceOf "1001" s)
    /\ balanceOf "1002" s'
       = (if isCash then balanceOf "1002" s
          else parseFloat (toString (balanceOf "1002" s + amount)))
    /\ balanceOf "1003" s' = parseFloat (toString (balanceOf "1003" s - cogs))
    /\ balanceOf "2001" s' = balanceOf "2001" s
    /\ balanceOf "3001" s'
       = parseFloat (toString (balanceOf "3001" s + (amount - cogs)))
    /\ balanceOf "4001" s'
       = parseFloat (toString (balanceOf "4001" s + amount))
    /\ balanceOf "4002" s' = balanceOf "4002" s
    /\ balanceOf "5001" s' = parseFloat (toString (balanceOf "5001" s + cogs))
    /\ (exactSale body s = true ->
        (value (balanceOf (if isCash then "1001" else "1002") s')
         == value (balanceOf (if isCash then "1001" else "1002") s)
            + value amount)%Q
        /\ (value (balanceOf "1003" s')
            == value (balanceOf "1003" s) - value cogs)%Q
        /\ (value (balanceOf "3001" s')
            == value (balanceOf "3001" s) + (value amount - value cogs))%Q
        /\ (value (balanceOf "4001" s')
            == value (balanceOf "4001" s) + value amount)%Q
        /\ (value (balanceOf "5001" s')
            == value (balanceOf "5001" s) + value cogs)%Q).
Proof.
  intros Hr Hs isCash amount cogs s'.
  pose proof (Reachable_Inv s Hr) as HInv.
  assert (Hfresh : map_get (currentSalesInvoiceId s) (salesInvoices s) = None).
  { destruct (Reachable_Tables s Hr) as (_ & _ & _ & Ti & _).
    apply map_get_above. exact (table_ok_below _ _ _ Ti). }
  pose proof (sumAmount_notNegative _ (salesForm_items body Hs)) as HA.
  pose proof (sumCOGS_notNegative _ (salesForm_items body Hs)) as HC.
  destruct HInv as ((b & Ha) & HJ & HI).
  subst s'. rewrite (postSales_store body w s b Hs Ha). cbn [fst snd].
  exists (saleInvoice body s).
  split; [reflexivity|]. split; [exact Hfresh|].
  split; [apply map_get_set_same|].
  unfold exactSale.
  assert (B : forall s0 : MemStorage,
             accounts s0 = chart b \/ True ->
             balanceOf (if isCash then "1001" else "1002") s0
             = if isCash then balanceOf "1001" s0 else balanceOf "1002" s0)
    by (intros; now destruct isCash).
  fold isCash amount cogs. rewrite !B by auto. clear B.
  destruct (balanceOf_chart s b Ha)
    as (-> & -> & -> & -> & -> & -> & -> & ->).
  destruct (balanceOf_chart (storeAfterSale body s b) _ eq_refl)
    as (-> & -> & -> & -> & -> & -> & -> & ->).
  unfold storeAfterSale, afterSale. cbn [journalEntries].
  rewrite (appended_entries s (saleEntries body s)
             (conj (ex_intro _ b Ha) (conj HJ HI)) eq_refl).
  rewrite map_app.
  unfold saleInvoice, saleEntries, saleBalances, paymentFields, posting.
  fold isCash amount cogs.
  cbn [SalesInvoice.paidAmount SalesInvoice.outstandingAmount
       SalesInvoice.status SalesInvoice.totalAmount map
       JournalEntry.accountCode JournalEntry.debitAmount
       JournalEntry.creditAmount b1001 b1002 b1003 b2001 b3001 b4001 b4002
       b5001].
  rewrite !(stored_notNegative amount HA), !(stored_notNegative cogs HC).
  change (parseFloat (toString 0)) with 0.
  split; [now destruct isCash|]. split; [reflexivity|].
  split; [now destruct isCash|].
  split; [now destruct isCash|]. split; [now destruct isCash|].
  repeat (split; [reflexivity|]).
  rewrite !andb_true_iff.
  intros (((((X1 & X2) & X3) & X4) & X5) & X6).
  apply exactSub_spec in X2 as [_ X2]. apply exactAdd_spec in X3 as [_ X3].
  apply exactAdd_spec in X4 as [_ X4]. apply exactSub_spec in X5 as [_ X5].
  apply exactAdd_spec in X6 as [_ X6].
  rewrite !value_stored.
  split; [|repeat split; lra].
  destruct isCash; apply exactAdd_spec in X1 as [_ X1];
    rewrite value_stored; exact X1.
Qed.

Lemma sale_postings_witness :
  Reachable newMemStorage
  /\ salesFormSchema acmeCreditSale = true
  /\ exists invoice,
      fst (postSales acmeCreditSale Written newMemStorage) = Json invoice
      /\ balanceOf "1002" (snd (postSales acmeCreditSale Written newMemStorage))
         = 100.
Proof.
  assert (Hs : salesFormSchema acmeCreditSale = true)
    by (vm_compute; reflexivity).
  split; [exact Reachable_new|]. split; [exact Hs|].
  destruct (sale_postings acmeCreditSale Written newMemStorage Reachable_new
              Hs)
    as (invoice & H1 & _ & _ & _ & _ & _ & _ & H2 & _).
  exists invoice. split; [exact H1 | exact H2].
Defined.

(** X4.  In every reachable store a valid collection that does not exceed
    the outstanding amount of an existing invoice is accepted (and
    answered with the collection unless the write to the file fails).
    The invoice keeps its other fields, its paid amount becomes the old
    one plus the amount collected and its outstanding amount the old one
    less the amount, as doubles add and subtract, and its status becomes
    paid when that difference is 0 and partial otherwise; a collection
    record is stored under an id not used before; the journal receives
    exactly a debit of Cash and a credit of Accounts Receivable; Cash
    becomes the double nearest to its balance plus the amount and Accounts
    Receivable the one nearest to its balance less the amount, which are
    exactly the amount more and less when the two operations are exact;
    the other six balances stay. *)
Theorem collection_postings (body : CollectionForm.t) (w : WriteFile)
  (s : MemStorage) (invoice : SalesInvoice.t) :
  Reachable s ->
  collectionFormSchema body = true ->
  map_get (CollectionForm.invoiceId body) (salesInvoices s) = Some invoice ->
  gt (CollectionForm.amount body)
     (parseFloat (SalesInvoice.outstandingAmount invoice)) = false ->
  let amount := CollectionForm.amount body in
  let outstanding := parseFloat (SalesInvoice.outstandingAmount invoice) in
  let s' := snd (postCollections body w s) in
  exists collection paid,
    fst (postCollections body w s) = answer w collection
    /\ map_get (Collection.id collection) (collections s) = None
    /\ map_get (Collection.id collection) (collections s') = Some collection
    /\ Collection.invoiceId collection = Some (CollectionForm.invoiceId body)
    /\ parseFloat (Collection.amount collection) = amount
    /\ SalesInvoice.paidAmount invoice = Some paid
    /\ map_get (CollectionForm.invoiceId body) (salesInvoices s')
       = Some
           (SalesInvoice.with_payment
              (toString (parseFloat paid + amount))
              (toString (outstanding - amount))
              (if strictEq (outstanding - amount) 0 then "paid"
               else "partial")
              invoice)
    /\ map posting (map_values (journalEntries s'))
       = (map posting (map_values (journalEntries s))
          ++ [("1001", amount, 0); ("1002", 0, amount)])%list
    /\ balanceOf "1001" s'
       = parseFloat (toString (balanceOf "1001" s + amount))
    /\ balanceOf "1002" s'
       = parseFloat (toString (balanceOf "1002" s - amount))
    /\ balanceOf "1003" s' = balanceOf "1003" s
    /\ balanceOf "2001" s' = balanceOf "2001" s
    /\ balanceOf "3001" s' = balanceOf "3001" s
    /\ balanceOf "4001" s' = balanceOf "4001" s
    /\ balanceOf "4002" s' = balanceOf "4002" s
    /\ balanceOf "5001" s' = balanceOf "5001" s
    /\ (exactAdd (balanceOf "1001" s) amount = true ->
        (value (balanceOf "1001" s')
         == value (balanceOf "1001" s) + value amount)%Q)
    /\ (exactSub (balanceOf "1002" s) amount = true ->
        (value (balanceOf "1002" s')
         == value (balanceOf "1002" s) - value amount)%Q).
Proof.
  intros Hr Hs Hget Hle amount outstanding s'.
  pose proof (Reachable_Inv s Hr) as HInv.
  assert (Hfresh : map_get (currentCollectionId s) (collections s) = None).
  { destruct (Reachable_Tables s Hr) as (_ & _ & _ & _ & _ & Tc & _).
    apply map_get_above. exact (table_ok_below _ _ _ Tc). }
  destruct HInv as ((b & Ha) & HJ & HI).
  assert (Hok : invoice_ok invoice).
  { rewrite Forall_forall in HI. apply HI.
    now apply (map_get_In (CollectionForm.invoiceId body)). }
  destruct Hok as (paid & Hpaid & _).
  subst s'. rewrite (postCollections_run body w s b invoice Hs Hget Hle Ha).
  cbn [fst snd].
  exists (collectionRecord body s invoice), paid.
  split; [reflexivity|]. split; [exact Hfresh|].
  destruct (balanceOf_chart s b Ha)
    as (-> & -> & -> & -> & -> & -> & -> & ->).
  destruct (balanceOf_chart (afterCollection body s b invoice) _ eq_refl)
    as (-> & -> & -> & -> & -> & -> & -> & ->).
  unfold afterCollection. cbn [journalEntries collections salesInvoices].
  rewrite (appended_entries s (collectionEntries body s invoice)
             (conj (ex_intro _ b Ha) (conj HJ HI)) eq_refl).
  rewrite map_app.
  pose proof (positive_notNegative _ Hs) as HA. fold amount in HA.
  split; [apply map_get_set_same|].
  split; [reflexivity|].
  split; [apply (stored_notNegative amount HA)|]. split; [exact Hpaid|].
  split.
  { rewrite map_get_set_same. unfold collectedInvoice. rewrite Hpaid.
    reflexivity. }
  unfold collectionEntries, collectBalances, posting.
  fold amount.
  cbn [map JournalEntry.accountCode JournalEntry.debitAmount
       JournalEntry.creditAmount b1001 b1002 b1003 b2001 b3001 b4001 b4002
       b5001].
  rewrite !(stored_notNegative amount HA).
  change (parseFloat (toString 0)) with 0.
  repeat (split; [reflexivity|]).
  split; intros X.
  - apply exactAdd_spec in X as [_ X]. now rewrite value_stored.
  - apply exactSub_spec in X as [_ X]. now rewrite value_stored.
Qed.

Lemma collection_postings_witness :
  Reachable afterCreditSale
  /\ collectionFormSchema acmePartialCollection = true
  /\ map_get (CollectionForm.invoiceId acmePartialCollection)
       (salesInvoices afterCreditSale)
     = Some (saleInvoice acmeCreditSale newMemStorage)
  /\ gt (CollectionForm.amount acmePartialCollection)
       (parseFloat
          (SalesInvoice.outstandingAmount
             (saleInvoice acmeCreditSale newMemStorage))) = false
  /\ balanceOf "1002"
       (snd (postCollections acmePartialCollection Written afterCreditSale))
     = 60.
Proof.
  assert (Hs : collectionFormSchema acmePartialCollection = true)
    by (vm_compute; reflexivity).
  assert (Hget : map_get (CollectionForm.invoiceId acmePartialCollection)
                   (salesInvoices afterCreditSale)
                 = Some (saleInvoice acmeCreditSale newMemStorage))
    by (vm_compute; reflexivity).
  assert (Hle : gt (CollectionForm.amount acmePartialCollection)
                  (parseFloat
                     (SalesInvoice.outstandingAmount
                        (saleInvoice acmeCreditSale newMemStorage))) = false)
    by (vm_compute; reflexivity).
  split; [exact Reachable_afterCreditSale|]. split; [exact Hs|].
  split; [exact Hget|]. split; [exact Hle|].
  destruct (collection_postings acmePartialCollection Written afterCreditSale
              (saleInvoice acmeCreditSale newMemStorage)
              Reachable_afterCreditSale Hs Hget Hle)
    as (c & p & _ & _ & _ & _ & _ & _ & _ & _ & _ & H & _).
  exact H.
Defined.

(** Three collections of 0.1 against a credit sale of 0.3: the first two
    are accepted and leave 0.09999999999999998 outstanding, so that the
    third is refused and the invoice stays partial. *)
Example three_dimes :
  let sale := SalesForm.mk "INV-006" "Acme" "2025-01-24" "credit"
                [Item.mk "Shim" 1 0.3 0.1] in
  let dime := CollectionForm.mk 1 "2025-01-25" 0.1 "cash" None in
  let s0 := snd (submit (Sale sale) Written newMemStorage) in
  let s1 := snd (submit (Collect dime) Written s0) in
  let s2 := snd (submit (Collect dime) Written s1) in
  fst (submit (Collect dime) Written s0) = true
  /\ fst (submit (Collect dime) Written s1) = true
  /\ option_map paymentFields (map_get 1 (salesInvoices s2))
     = Some (Some (toString 0.2), toString 0.09999999999999998, "partial")
  /\ postCollections dime Written s2
     = (Status 400 "Collection amount exceeds outstanding balance", s2).
Proof. vm_compute. repeat split; reflexivity. Qed.

(** X5.  In every reachable store a valid sales return against an
    existing invoice is accepted whatever its amounts, also above the
    total of the invoice or after earlier returns (and answered with the
    return unless the write to the file fails).  A return record with the
    returned amount is stored under an id not used before; Sales Returns
    becomes the double nearest to its balance plus the returned amount and
    Inventory to its balance plus the returned cost, Cost of Goods Sold to
    its balance less the returned cost, and Cash (for an invoice paid by
    cash) or Accounts Receivable (otherwise) to its balance less the
    returned amount; Sales Revenue and Accounts Payable stay.  When these
    operations are exact the balances move by exactly the returned amount
    and cost. *)
Theorem sales_return_balances (body : ReturnForm.t) (w : WriteFile)
  (s : MemStorage) (invoice : SalesInvoice.t) :
  Reachable s ->
  returnFormSchema body = true ->
  map_get (ReturnForm.invoiceId body) (salesInvoices s) = Some invoice ->
  let isCash := String.eqb (SalesInvoice.paymentMethod invoice) "cash" in
  let returnAmount := sumAmount (ReturnForm.items body) in
  let returnCogs := sumCOGS (ReturnForm.items body) in
  let s' := snd (postSalesReturns body w s) in
  exists salesReturn,
    fst (postSalesReturns body w s) = answer w salesReturn
    /\ map_get (SalesReturn.id salesReturn) (salesReturns s) = None
    /\ map_get (SalesReturn.id salesReturn) (salesReturns s')
       = Some salesReturn
    /\ SalesReturn.invoiceId salesReturn = Some (ReturnForm.invoiceId body)
    /\ parseFloat (SalesReturn.totalAmount salesReturn) = returnAmount
    /\ balanceOf "1001" s'
       = (if isCash
          then parseFloat (toString (balanceOf "1001" s - returnAmount))
          else balanceOf "1001" s)
    /\ balanceOf "1002" s'
       = (if isCash then balanceOf "1002" s
          else parseFloat (toString (balanceOf "1002" s - returnAmount)))
    /\ balanceOf "1003" s'
       = parseFloat (toString (balanceOf "1003" s + returnCogs))
    /\ balanceOf "2001" s' = balanceOf "2001" s
    /\ balanceOf "4001" s' = balanceOf "4001" s
    /\ balanceOf "4002" s'
       = parseFloat (toString (balanceOf "4002" s + returnAmount))
    /\ balanceOf "5001" s'
       = parseFloat (toString (balanceOf "5001" s - returnCogs))
    /\ (exactReturn body s = true ->
        (value (balanceOf (if isCash then "1001" else "1002") s')
         == value (balanceOf (if isCash then "1001" else "1002") s)
            - value returnAmount)%Q
        /\ (value (balanceOf "1003" s')
            == value (balanceOf "1003" s) + value returnCogs)%Q
        /\ (value (balanceOf "4002" s')
            == value (balanceOf "4002" s) + value returnAmount)%Q
        /\ (value (balanceOf "5001" s')
            == value (balanceOf "5001" s) - value returnCogs)%Q).
Proof.
  intros Hr Hs Hget isCash returnAmount returnCogs s'.
  pose proof (Reachable_Inv s Hr) as HInv.
  assert (Hfresh : map_get (currentSalesReturnId s) (salesReturns s) = None).
  { destruct (Reachable_Tables s Hr) as (_ & _ & _ & _ & _ & _ & Tr & _).
    apply map_get_above. exact (table_ok_below _ _ _ Tr). }
  pose proof (sumAmount_notNegative _ (returnForm_items body Hs)) as HA.
  destruct HInv as ((b & Ha) & HJ & HI).
  subst s'. rewrite (postSalesReturns_store body w s b invoice Hs Hget Ha).
  cbn [fst snd].
  exists (returnRecord body s).
  split; [reflexivity|]. split; [exact Hfresh|].
  unfold exactReturn. rewrite Hget.
  assert (B : forall s0 : MemStorage,
             balanceOf (if isCash then "1001" else "1002") s0
             = if isCash then balanceOf "1001" s0 else balanceOf "1002" s0)
    by (intros; now destruct isCash).
  fold isCash returnAmount returnCogs. rewrite !B. clear B.
  destruct (balanceOf_chart s b Ha)
    as (-> & -> & -> & -> & -> & -> & -> & ->).
  destruct (balanceOf_chart (storeAfterReturn body s b invoice) _ eq_refl)
    as (-> & -> & -> & -> & _ & -> & -> & ->).
  unfold storeAfterReturn, afterReturn. cbn [salesReturns].
  split; [apply map_get_set_same|].
  split; [reflexivity|].
  split; [apply (stored_notNegative _ HA)|].
  unfold returnBalances. fold isCash returnAmount returnCogs.
  cbn [b1001 b1002 b1003 b2001 b3001 b4001 b4002 b5001].
  split; [now destruct isCash|]. split; [now destruct isCash|].
  repeat (split; [reflexivity|]).
  rewrite !andb_true_iff.
  intros (((((X1 & X2) & X3) & X4) & X5) & X6).
  apply exactAdd_spec in X2 as [_ X2]. apply exactAdd_spec in X3 as [_ X3].
  apply exactSub_spec in X4 as [_ X4].
  rewrite !value_stored.
  split; [|repeat split; assumption].
  destruct isCash; apply exactSub_spec in X1 as [_ X1];
    rewrite value_stored; exact X1.
Qed.

Lemma sales_return_balances_witness :
  Reachable afterCreditSale
  /\ returnFormSchema acmeReturn = true
  /\ map_get (ReturnForm.invoiceId acmeReturn) (salesInvoices afterCreditSale)
     = Some (saleInvoice acmeCreditSale newMemStorage)
  /\ balanceOf "4002"
       (snd (postSalesReturns acmeReturn Written afterCreditSale))
     = 100.
Proof.
  assert (Hs : returnFormSchema acmeReturn = true) by (vm_compute; reflexivity).
  assert (Hget : map_get (ReturnForm.invoiceId acmeReturn)
                   (salesInvoices afterCreditSale)
                 = Some (saleInvoice acmeCreditSale newMemStorage))
    by (vm_compute; reflexivity).
  split; [exact Reachable_afterCreditSale|].
  split; [exact Hs|]. split; [exact Hget|].
  destruct (sales_return_balances acmeReturn Written afterCreditSale
              (saleInvoice acmeCreditSale newMemStorage)
              Reachable_afterCreditSale Hs Hget)
    as (r & _ & _ & _ & _ & _ & _ & _ & _ & _ & _ & H & _).
  exact H.
Defined.

(** ** The ledger *)

Lemma Reachable_revenue (s : MemStorage) :
  Reachable s ->
  balanceOf "2001" s = 0
  /\ notNegative (balanceOf "4001" s) = true
  /\ notNegative (balanceOf "4002" s) = true.
Proof.
  revert s. apply Reachable_by_route.
  - repeat split; reflexivity.
  - intros s body b _ (H1 & H2 & H3) Hs Ha.
    pose proof (sumAmount_notNegative _ (salesForm_items body Hs)) as HA.
    destruct (balanceOf_chart s b Ha) as (_ & _ & _ & B4 & _ & B6 & B7 & _).
    rewrite B4 in H1. rewrite B6 in H2. rewrite B7 in H3.
    destruct (balanceOf_chart (storeAfterSale body s b) _ eq_refl)
      as (_ & _ & _ & -> & _ & -> & -> & _).
    unfold saleBalances. cbn [b2001 b4001 b4002].
    split; [exact H1|]. split; [|exact H3].
    rewrite parseFloat_toString. apply canon_notNegative.
    now apply add_notNegative.
  - intros s body b invoice _ (H1 & H2 & H3) Hs Hget Hgt Ha.
    destruct (balanceOf_chart s b Ha) as (_ & _ & _ & B4 & _ & B6 & B7 & _).
    rewrite B4 in H1. rewrite B6 in H2. rewrite B7 in H3.
    destruct (balanceOf_chart (afterCollection body s b invoice) _ eq_refl)
      as (_ & _ & _ & -> & _ & -> & -> & _).
    unfold collectBalances. cbn [b2001 b4001 b4002]. auto.
  - intros s body b invoice _ (H1 & H2 & H3) Hs Hget Ha.
    pose proof (sumAmount_notNegative _ (returnForm_items body Hs)) as HA.
    destruct (balanceOf_chart s b Ha) as (_ & _ & _ & B4 & _ & B6 & B7 & _).
    rewrite B4 in H1. rewrite B6 in H2. rewrite B7 in H3.
    destruct (balanceOf_chart (storeAfterReturn body s b invoice) _ eq_refl)
      as (_ & _ & _ & -> & _ & -> & -> & _).
    unfold returnBalances. cbn [b2001 b4001 b4002].
    split; [exact H1|]. split; [exact H2|].
    rewrite parseFloat_toString. apply canon_notNegative.
    now apply add_notNegative.
Qed.

(** X6.  In every reachable store Accounts Payable is 0, and Sales
    Revenue and Sales Returns are not negative (and not NaN).  In a store
    reached by events whose additions and subtractions were all exact,
    every balance is finite; Cash, Accounts Receivable and Inventory add
    up to Share Capital; Inventory and Cost of Goods Sold add up to the
    opening inventory of 450000; Share Capital is the opening capital of
    2825000 plus Sales Revenue minus Sales Returns minus Cost of Goods
    Sold; and Cash, Accounts Receivable and Sales Returns add up to the
    opening cash of 2375000 plus Sales Revenue. *)
Theorem ledger_identities (s : MemStorage) :
  Reachable s ->
  balanceOf "2001" s = 0
  /\ notNegative (balanceOf "4001" s) = true
  /\ notNegative (balanceOf "4002" s) = true
  /\ (ExactlyReachable s ->
      Forall (fun a => isFinite (parseFloat (Account.balance a)) = true)
        (map_values (accounts s))
      /\ (value (balanceOf "1001" s) + value (balanceOf "1002" s)
          + value (balanceOf "1003" s) == value (balanceOf "3001" s))%Q
      /\ (value (balanceOf "1003" s) + value (balanceOf "5001" s)
          == 450000)%Q
      /\ (value (balanceOf "3001" s)
          == 2825000 + value (balanceOf "4001" s)
             - value (balanceOf "4002" s) - value (balanceOf "5001" s))%Q
      /\ (value (balanceOf "1001" s) + value (balanceOf "1002" s)
          + value (balanceOf "4002" s)
          == 2375000 + value (balanceOf "4001" s))%Q).
Proof.
  intros Hr. destruct (Reachable_revenue s Hr) as (H1 & H2 & H3).
  split; [exact H1|]. split; [exact H2|]. split; [exact H3|].
  intros Hx. destruct (ExactlyReachable_Exact s Hx)
    as (HF & E2 & E3 & E4 & E5 & _).
  split; [exact HF|]. split; [exact E2|]. split; [exact E4|].
  split; [exact E5|]. lra.
Qed.

Lemma ledger_identities_witness :
  Reachable afterCreditSale /\ balanceOf "2001" afterCreditSale = 0.
Proof.
  split; [exact Reachable_afterCreditSale|].
  exact (proj1 (ledger_identities afterCreditSale
                  Reachable_afterCreditSale)).
Defined.

(** After three credit sales of one shim at 0.5 (unit cost 0.3), whose
    additions are not all exact, Inventory and Cost of Goods Sold add up
    to 450000.00000000006. *)
Example three_small_sales :
  let sale n :=
    Sale (SalesForm.mk n "Acme" "2025-01-26" "credit"
            [Item.mk "Shim" 1 0.5 0.3]) in
  let s1 := snd (submit (sale "INV-007") Written newMemStorage) in
  let s2 := snd (submit (sale "INV-008") Written s1) in
  let s3 := snd (submit (sale "INV-009") Written s2) in
  balanceOf "1003" s3 + balanceOf "5001" s3 = 450000.00000000006
  /\ exactEvent (sale "INV-007") newMemStorage = false.
Proof. vm_compute. split; reflexivity. Qed.

(** ** Sorting *)

Lemma insertBy_Permutation {A : Type} (cmp : A -> A -> number) (x : A)
  (sorted : list A) :
  Permutation (x :: sorted) (insertBy cmp x sorted).
Proof.
  induction sorted as [|y rest IH]; cbn [insertBy]; [reflexivity|].
  destruct (lt (cmp x y) 0); [reflexivity|].
  rewrite perm_swap. now constructor.
Qed.

Lemma insertionSort_from {A : Type} (cmp : A -> A -> number)
  (xs acc : list A) :
  Permutation (acc ++ xs)%list
    (fold_left (fun sorted x => insertBy cmp x sorted) xs acc).
Proof.
  revert acc. induction xs as [|x xs IH]; intros acc; cbn [fold_left].
  - now rewrite app_nil_r.
  - apply Permutation_trans with (insertBy cmp x acc ++ xs)%list; [|apply IH].
    apply Permutation_trans with ((x :: acc) ++ xs)%list.
    + symmetry. apply Permutation_middle.
    + apply Permutation_app_tail, insertBy_Permutation.
Qed.

Lemma insertionSort_permutes : permutes insertionSort.
Proof. intros A cmp xs. apply (insertionSort_from cmp xs []). Defined.

(** ** Export and import *)

Lemma map_set_absent {V : Type} (k : Z) (v : V) (m : JsMap V) :
  map_get k m = None -> map_set k v m = (m ++ [(k, v)])%list.
Proof.
  induction m as [|[k' v'] m IH]; cbn; [reflexivity|].
  destruct (k =? k')%Z; [discriminate|].
  intros H. now rewrite IH.
Qed.

Lemma distinct_NoDup (ks : list Z) : distinct ks = true -> NoDup ks.
Proof.
  induction ks as [|k rest IH]; cbn [distinct]; [constructor|].
  rewrite andb_true_iff, negb_true_iff. intros [Hk Hrest].
  constructor; [|now apply IH].
  intros Hin.
  assert (Ht : existsb (Z.eqb k) rest = true).
  { apply existsb_exists. exists k. split; [exact Hin|apply Z.eqb_refl]. }
  congruence.
Qed.

Lemma map_get_not_key {V : Type} (k : Z) (m : JsMap V) :
  ~ In k (map_keys m) -> map_get k m = None.
Proof.
  induction m as [|[k' v'] m IH]; cbn; [reflexivity|].
  intros H. destruct (Z.eqb_spec k k') as [->|_].
  - exfalso. apply H. now left.
  - apply IH. intros Hin. apply H. now right.
Qed.

Lemma newMap_from {V : Type} (entries acc : JsMap V) :
  NoDup (map_keys (acc ++ entries)%list) ->
  fold_left (fun m kv => map_set (fst kv) (snd kv) m) entries acc
  = (acc ++ entries)%list.
Proof.
  revert acc. induction entries as [|[k v] entries IH]; intros acc Hnd;
    cbn [fold_left fst snd].
  - now rewrite app_nil_r.
  - assert (Hk : map_get k acc = None).
    { apply map_get_not_key. unfold map_keys in *.
      rewrite map_app in Hnd. cbn [map fst] in Hnd.
      apply NoDup_remove_2 in Hnd. intros Hin. apply Hnd.
      apply in_or_app. now left. }
    rewrite (map_set_absent k v acc Hk), IH.
    + now rewrite <- app_assoc.
    + now rewrite <- app_assoc.
Qed.

Lemma newMap_entries {V : Type} (m : JsMap V) :
  distinct (map_keys m) = true -> newMap (map_entries m) = m.
Proof.
  intros H. unfold newMap, map_entries.
  apply (newMap_from m []). now apply distinct_NoDup.
Qed.

(** X10.  A store whose maps hold each key once is restored by importing
    what it exports, whatever the store was that imports: the export
    route answers with the data and leaves the store as it is, and after
    [importData] the eight tables, with their rows in the same order, and
    the eight counters are those of the exporting store.  The import route
    leaves that store too; it answers that the data were imported when
    the write to the file is done, and with status 400 and "Failed to
    import data" when the write fails. *)
Theorem export_import_round_trip (s s0 : MemStorage) :
  keysDistinct s = true ->
  exists data,
    exportData s = (Fulfilled data, s)
    /\ getExportDataRoute s = (Json data, s)
    /\ importData data s0 = (Fulfilled tt, s)
    /\ postImportData data Written s0
       = (Json "Data imported successfully", s)
    /\ forall message,
        postImportData data (Rejected message) s0
        = (Status 400 "Failed to import data", s).
Proof.
  unfold keysDistinct. rewrite !andb_true_iff.
  intros [[[[[[[H1 H2] H3] H4] H5] H6] H7] H8].
  destruct s as [acc tx je inv sitems col rets ritems n1 n2 n3 n4 n5 n6 n7 n8].
  cbn [accounts transactions journalEntries salesInvoices salesItems
       collections salesReturns returnItems] in *.
  exists (mkSnapshot (map_entries acc) (map_entries tx) (map_entries je)
            (map_entries inv) (map_entries sitems) (map_entries col)
            (map_entries rets) (map_entries ritems)
            (Some (mkCounters n1 n2 n3 n4 n5 n6 n7 n8))).
  split; [reflexivity|]. split; [reflexivity|].
  assert (E : importData
                (mkSnapshot (map_entries acc) (map_entries tx)
                   (map_entries je) (map_entries inv) (map_entries sitems)
                   (map_entries col) (map_entries rets) (map_entries ritems)
                   (Some (mkCounters n1 n2 n3 n4 n5 n6 n7 n8))) s0
              = (Fulfilled tt,
                 mkMemStorage acc tx je inv sitems col rets ritems
                   n1 n2 n3 n4 n5 n6 n7 n8)).
  { unfold importData.
    cbn [dAccounts dTransactions dJournalEntries dSalesInvoices dSalesItems
         dCollections dSalesReturns dReturnItems dCounters orElse
         cAccountId cTransactionId cJournalEntryId cSalesInvoiceId
         cSalesItemId cCollectionId cSalesReturnId cReturnItemId].
    now rewrite !newMap_entries. }
  split; [exact E|].
  split; [|intros message];
    unfold postImportData, tryCatchWith, bind, saveToFile, ret, throw;
    cbv beta; now rewrite E.
Qed.

Lemma export_import_round_trip_witness :
  keysDistinct afterCreditSale = true
  /\ exists data,
      exportData afterCreditSale = (Fulfilled data, afterCreditSale)
      /\ importData data newMemStorage = (Fulfilled tt, afterCreditSale).
Proof.
  assert (H : keysDistinct afterCreditSale = true) by (vm_compute; reflexivity).
  split; [exact H|].
  destruct (export_import_round_trip afterCreditSale newMemStorage H)
    as (data & E1 & _ & E2 & _).
  exists data. split; [exact E1|exact E2].
Defined.

(** ** References *)

Lemma refersTo_set {V : Type} (T : JsMap V) (k : Z) (v : V) (x : option Z) :
  refersTo T x -> refersTo (map_set k v T) x.
Proof.
  intros (k' & v' & -> & Hget).
  destruct (Z.eq_dec k' k) as [->|Hne].
  - exists k, v. split; [reflexivity|apply map_get_set_same].
  - exists k', v'. split; [reflexivity|].
    now rewrite (map_get_set_other k' k v T Hne).
Qed.

Lemma refersTo_set_all {A V : Type} (T : JsMap V) (k : Z) (v : V)
  (ref : A -> option Z) (xs : list A) :
  Forall (fun x => refersTo T (ref x)) xs ->
  Forall (fun x => refersTo (map_set k v T) (ref x)) xs.
Proof.
  apply Forall_impl. intros x. apply refersTo_set.
Qed.

Lemma set_rows_Forall {V : Type} (P : V -> Prop) (id : V -> Z) (xs : list V) :
  forall m,
    Forall P (map_values m) -> Forall P xs ->
    Forall P (map_values (set_rows id xs m)).
Proof.
  unfold set_rows. induction xs as [|x xs IH]; intros m Hm Hxs;
    cbn [fold_left]; [exact Hm|].
  inversion Hxs as [|? ? Hx Hrest]; subst.
  apply IH; [|exact Hrest]. now apply map_values_set_Forall.
Qed.

Lemma stampWith_Forall {A V : Type} (P : V -> Prop) (mk : Z -> A -> V)
  (xs : list A) :
  (forall k x, P (mk k x)) -> forall k, Forall P (stampWith mk k xs).
Proof.
  intros H. induction xs as [|x xs IH]; intros k; cbn [stampWith];
    constructor; auto.
Qed.

Lemma Linked_new : Linked newMemStorage.
Proof. repeat split; constructor. Qed.

Lemma Reachable_Linked (s : MemStorage) : Reachable s -> Linked s.
Proof.
  apply Reachable_by_route; clear s.
  - exact Linked_new.
  - intros s body b Hr (Lj & Li & Lc & Lr & Lri) Hs Ha.
    destruct (Reachable_Tables s Hr) as (_ & (_ & Tt & _) & _).
    unfold Linked, storeAfterSale, afterSale.
    cbn [transactions journalEntries salesInvoices salesItems collections
         salesReturns returnItems].
    split; [|split; [|split; [|split]]].
    + apply (set_rows_Forall _ JournalEntry.id).
      * now apply refersTo_set_all.
      * assert (E : orNull (Some (currentTransactionId s))
                    = Some (currentTransactionId s)).
        { cbn [orNull]. destruct (Z.eqb_spec (currentTransactionId s) 0);
            [lia|reflexivity]. }
        unfold saleEntries. rewrite E.
        repeat constructor; cbn [JournalEntry.transactionId];
          eexists _, _; (split; [reflexivity|apply map_get_set_same]).
    + apply set_rows_Forall.
      * now apply refersTo_set_all.
      * apply stampWith_Forall. intros k x.
        cbn [storedSalesItem SalesItem.invoiceId].
        eexists _, _. split; [reflexivity|apply map_get_set_same].
    + now apply refersTo_set_all.
    + now apply refersTo_set_all.
    + exact Lri.
  - intros s body b invoice Hr (Lj & Li & Lc & Lr & Lri) Hs Hget Hgt Ha.
    destruct (Reachable_Tables s Hr) as (_ & (_ & Tt & _) & _).
    unfold Linked, afterCollection.
    cbn [transactions journalEntries salesInvoices salesItems collections
         salesReturns returnItems].
    split; [|split; [|split; [|split]]].
    + apply (set_rows_Forall _ JournalEntry.id).
      * now apply refersTo_set_all.
      * assert (E : orNull (Some (currentTransactionId s))
                    = Some (currentTransactionId s)).
        { cbn [orNull]. destruct (Z.eqb_spec (currentTransactionId s) 0);
            [lia|reflexivity]. }
        unfold collectionEntries. rewrite E.
        repeat constructor; cbn [JournalEntry.transactionId];
          eexists _, _; (split; [reflexivity|apply map_get_set_same]).
    + now apply refersTo_set_all.
    + apply map_values_set_Forall.
      * now apply refersTo_set_all.
      * cbn [collectionRecord Collection.invoiceId].
        eexists _, _. split; [reflexivity|apply map_get_set_same].
    + now apply refersTo_set_all.
    + exact Lri.
  - intros s body b invoice Hr (Lj & Li & Lc & Lr & Lri) Hs Hget Ha.
    destruct (Reachable_Tables s Hr) as (_ & (_ & Tt & _) & _).
    unfold Linked, storeAfterReturn, afterReturn.
    cbn [transactions journalEntries salesInvoices salesItems collections
         salesReturns returnItems].
    split; [|split; [|split; [|split]]].
    + apply (set_rows_Forall _ JournalEntry.id).
      * now apply refersTo_set_all.
      * assert (E : orNull (Some (currentTransactionId s))
                    = Some (currentTransactionId s)).
        { cbn [orNull]. destruct (Z.eqb_spec (currentTransactionId s) 0);
            [lia|reflexivity]. }
        unfold returnEntries. rewrite E.
        repeat constructor; cbn [JournalEntry.transactionId];
          eexists _, _; (split; [reflexivity|apply map_get_set_same]).
    + exact Li.
    + exact Lc.
    + apply map_values_set_Forall; [exact Lr|].
      cbn [returnRecord SalesReturn.invoiceId].
      eexists _, _. split; [reflexivity|exact Hget].
    + apply set_rows_Forall.
      * now apply refersTo_set_all.
      * apply stampWith_Forall. intros k x.
        cbn [storedReturnItem ReturnItem.returnId].
        eexists _, _. split; [reflexivity|apply map_get_set_same].
Qed.

(** X11.  In every reachable store every reference resolves: each journal
    entry names a stored transaction, each sales item, collection and
    sales return names a stored invoice, and each return item names a
    stored sales return. *)
Theorem references_resolve (s : MemStorage) : Reachable s -> Linked s.
Proof. exact (Reachable_Linked s). Qed.

Lemma references_resolve_witness :
  Reachable afterCreditSale /\ Linked afterCreditSale.
Proof.
  split; [exact Reachable_afterCreditSale|].
  exact (references_resolve afterCreditSale Reachable_afterCreditSale).
Defined.

(** ** The items of an invoice and of a return *)

Lemma filter_all {A : Type} (p : A -> bool) (l : list A) :
  Forall (fun z => p z = true) l -> filter p l = l.
Proof.
  induction 1 as [|z l Hz _ IH]; cbn [filter]; [reflexivity|].
  now rewrite Hz, IH.
Qed.

Lemma filter_none {A : Type} (p : A -> bool) (l : list A) :
  Forall (fun z => p z = false) l -> filter p l = [].
Proof.
  induction 1 as [|z l Hz _ IH]; cbn [filter]; [reflexivity|].
  now rewrite Hz.
Qed.

Lemma map_values_rows {V : Type} (id : V -> Z) (T : JsMap V) (xs : list V) :
  map_values (T ++ map (fun x => (id x, x)) xs)%list
  = (map_values T ++ xs)%list.
Proof.
  unfold map_values. rewrite map_app, map_map. cbn [snd].
  now rewrite map_id.
Qed.

(** Rows that refer to stored rows do not refer to an id that is not in
    use. *)
Lemma none_refers_to_fresh {A V : Type} (T : JsMap V) (k : Z)
  (ref : A -> option Z) (xs : list A) :
  map_get k T = None ->
  Forall (fun x => refersTo T (ref x)) xs ->
  Forall (fun x => isId k (ref x) = false) xs.
Proof.
  intros Hk. apply Forall_impl. intros x (k' & v & -> & Hget).
  cbn [isId]. destruct (Z.eqb_spec k' k) as [->|_]; [congruence|reflexivity].
Qed.

Lemma stored_line (x : Item.t) :
  itemSchema x = true ->
  (Item.description x, parseFloat (toString (Item.quantity x)),
   parseFloat (toString (Item.unitPrice x)),
   parseFloat (toString (Item.cogsUnit x)),
   parseFloat (toString (Item.quantity x * Item.unitPrice x)))
  = requestLine x.
Proof.
  intros H. destruct (itemSchema_positive x H) as (Hq & Hp & Hc).
  rewrite (stored_notNegative _ (positive_notNegative _ Hq)).
  rewrite (stored_notNegative _ (positive_notNegative _ Hp)).
  rewrite (stored_notNegative _ (positive_notNegative _ Hc)).
  now rewrite (stored_notNegative _ (mul_positive _ _ Hq Hp)).
Qed.

Lemma saleItems_lines (invoiceId : Z) (items : list Item.t) :
  forallb itemSchema items = true ->
  forall k,
    map salesItemLine (stampWith (storedSalesItem invoiceId) k items)
    = map requestLine items.
Proof.
  induction items as [|x items IH]; intros H k; cbn [stampWith map];
    [reflexivity|].
  cbn [forallb] in H. apply andb_true_iff in H as [Hx H].
  rewrite (IH H). f_equal. exact (stored_line x Hx).
Qed.

Lemma returnedItems_lines (returnId : Z) (items : list Item.t) :
  forallb itemSchema items = true ->
  forall k,
    map returnItemLine (stampWith (storedReturnItem returnId) k items)
    = map requestLine items.
Proof.
  induction items as [|x items IH]; intros H k; cbn [stampWith map];
    [reflexivity|].
  cbn [forallb] in H. apply andb_true_iff in H as [Hx H].
  rewrite (IH H). f_equal. exact (stored_line x Hx).
Qed.

(** X12.  After an accepted sale on a reachable store, whether the write
    to the file succeeded or not, the items listed for the new invoice are
    exactly the lines of the request, in their order: same description,
    quantity, unit price and unit cost, the amount being the product of
    quantity and unit price as doubles multiply, under consecutive ids
    starting at the item counter; the items listed for any other invoice
    id are those listed before. *)
Theorem sale_items_listed (body : SalesForm.t) (w : WriteFile)
  (s : MemStorage) :
  Reachable s ->
  salesFormSchema body = true ->
  let s' := snd (postSales body w s) in
  exists invoice items,
    fst (postSales body w s) = answer w invoice
    /\ getSalesItemsByInvoiceId (SalesInvoice.id invoice) s'
       = (Fulfilled items, s')
    /\ map salesItemLine items = map requestLine (SalesForm.items body)
    /\ map SalesItem.id items
       = idsFrom (currentSalesItemId s) (List.length (SalesForm.items body))
    /\ forall k,
        k <> SalesInvoice.id invoice ->
        fst (getSalesItemsByInvoiceId k s')
        = fst (getSalesItemsByInvoiceId k s).
Proof.
  intros Hr Hs s'.
  destruct (Reachable_Inv s Hr) as ((b & Ha) & _).
  destruct (Reachable_Tables s Hr) as (_ & _ & _ & Ti & Tsi & _).
  destruct (Reachable_Linked s Hr) as (_ & Li & _).
  pose proof (map_get_above _ _ (table_ok_below _ _ _ Ti)) as Hfresh.
  subst s'. rewrite (postSales_store body w s b Hs Ha). cbn [fst snd].
  exists (saleInvoice body s), (saleItems body s).
  split; [reflexivity|].
  assert (Hids : map SalesItem.id (saleItems body s)
                 = idsFrom (currentSalesItemId s)
                     (List.length (saleItems body s))).
  { unfold saleItems. rewrite stampWith_length.
    now apply stampWith_ids. }
  destruct (table_ok_rows SalesItem.id (salesItems s) (currentSalesItemId s)
              _ (saleItems body s) Tsi Hids eq_refl) as [E _].
  assert (Hnew : forall k,
             filter (fun item => isId k (SalesItem.invoiceId item))
               (saleItems body s)
             = if (currentSalesInvoiceId s =? k)%Z then saleItems body s
               else []).
  { intros k. destruct (currentSalesInvoiceId s =? k)%Z eqn:Ek.
    - apply filter_all. apply stampWith_Forall. intros j x. exact Ek.
    - apply filter_none. apply stampWith_Forall. intros j x. exact Ek. }
  unfold getSalesItemsByInvoiceId, storeAfterSale, afterSale.
  cbn [salesItems fst SalesInvoice.id saleInvoice].
  rewrite E, map_values_rows.
  split; [|split; [|split]].
  - f_equal. f_equal. rewrite filter_app, Hnew, Z.eqb_refl.
    now rewrite (filter_none _ _
                   (none_refers_to_fresh _ _ SalesItem.invoiceId _ Hfresh Li)).
  - apply saleItems_lines. now apply salesForm_items.
  - rewrite Hids. unfold saleItems. now rewrite stampWith_length.
  - intros k Hk. f_equal. rewrite filter_app, Hnew.
    destruct (Z.eqb_spec (currentSalesInvoiceId s) k) as [Heq|_];
      [congruence|]. now rewrite app_nil_r.
Qed.

Lemma sale_items_listed_witness :
  Reachable afterCreditSale
  /\ salesFormSchema acmeCashSale = true
  /\ exists invoice items,
      fst (postSales acmeCashSale Written afterCreditSale) = Json invoice
      /\ getSalesItemsByInvoiceId (SalesInvoice.id invoice)
           (snd (postSales acmeCashSale Written afterCreditSale))
         = (Fulfilled items,
            snd (postSales acmeCashSale Written afterCreditSale))
      /\ map salesItemLine items
         = map requestLine (SalesForm.items acmeCashSale).
Proof.
  assert (Hs : salesFormSchema acmeCashSale = true) by (vm_compute; reflexivity).
  split; [exact Reachable_afterCreditSale|]. split; [exact Hs|].
  destruct (sale_items_listed acmeCashSale Written afterCreditSale
              Reachable_afterCreditSale Hs)
    as (invoice & items & E1 & E2 & E3 & _).
  exists invoice, items. split; [exact E1|]. split; [exact E2|exact E3].
Defined.

(** X13.  After an accepted sales return on a reachable store, whether
    the write to the file succeeded or not, the items listed for the new
    return are exactly the lines of the request, in their order, the
    amount being the product of quantity and unit price as doubles
    multiply, under consecutive ids starting at the return item counter;
    the items listed for any other return id are those listed before. *)
Theorem return_items_listed (body : ReturnForm.t) (w : WriteFile)
  (s : MemStorage) (invoice : SalesInvoice.t) :
  Reachable s ->
  returnFormSchema body = true ->
  map_get (ReturnForm.invoiceId body) (salesInvoices s) = Some invoice ->
  let s' := snd (postSalesReturns body w s) in
  exists salesReturn items,
    fst (postSalesReturns body w s) = answer w salesReturn
    /\ getReturnItemsByReturnId (SalesReturn.id salesReturn) s'
       = (Fulfilled items, s')
    /\ map returnItemLine items = map requestLine (ReturnForm.items body)
    /\ map ReturnItem.id items
       = idsFrom (currentReturnItemId s)
           (List.length (ReturnForm.items body))
    /\ forall k,
        k <> SalesReturn.id salesReturn ->
        fst (getReturnItemsByReturnId k s')
        = fst (getReturnItemsByReturnId k s).
Proof.
  intros Hr Hs Hget s'.
  destruct (Reachable_Inv s Hr) as ((b & Ha) & _).
  destruct (Reachable_Tables s Hr) as (_ & _ & _ & _ & _ & _ & Tr & Tri).
  destruct (Reachable_Linked s Hr) as (_ & _ & _ & _ & Lri).
  pose proof (map_get_above _ _ (table_ok_below _ _ _ Tr)) as Hfresh.
  subst s'. rewrite (postSalesReturns_store body w s b invoice Hs Hget Ha).
  cbn [fst snd].
  exists (returnRecord body s), (returnedItems body s).
  split; [reflexivity|].
  assert (Hids : map ReturnItem.id (returnedItems body s)
                 = idsFrom (currentReturnItemId s)
                     (List.length (returnedItems body s))).
  { unfold returnedItems. rewrite stampWith_length.
    now apply stampWith_ids. }
  destruct (table_ok_rows ReturnItem.id (returnItems s)
              (currentReturnItemId s) _ (returnedItems body s) Tri Hids
              eq_refl) as [E _].
  assert (Hnew : forall k,
             filter (fun item => isId k (ReturnItem.returnId item))
               (returnedItems body s)
             = if (currentSalesReturnId s =? k)%Z then returnedItems body s
               else []).
  { intros k. destruct (currentSalesReturnId s =? k)%Z eqn:Ek.
    - apply filter_all. apply stampWith_Forall. intros j x. exact Ek.
    - apply filter_none. apply stampWith_Forall. intros j x. exact Ek. }
  unfold getReturnItemsByReturnId, storeAfterReturn, afterReturn.
  cbn [returnItems fst SalesReturn.id returnRecord].
  rewrite E, map_values_rows.
  split; [|split; [|split]].
  - f_equal. f_equal. rewrite filter_app, Hnew, Z.eqb_refl.
    now rewrite (filter_none _ _
                   (none_refers_to_fresh _ _ ReturnItem.returnId _ Hfresh
                      Lri)).
  - apply returnedItems_lines. now apply returnForm_items.
  - rewrite Hids. unfold returnedItems. now rewrite stampWith_length.
  - intros k Hk. f_equal. rewrite filter_app, Hnew.
    destruct (Z.eqb_spec (currentSalesReturnId s) k) as [Heq|_];
      [congruence|]. now rewrite app_nil_r.
Qed.

Lemma return_items_listed_witness :
  Reachable afterCreditSale
  /\ returnFormSchema acmeReturn = true
  /\ map_get (ReturnForm.invoiceId acmeReturn) (salesInvoices afterCreditSale)
     = Some (saleInvoice acmeCreditSale newMemStorage)
  /\ exists salesReturn items,
      fst (postSalesReturns acmeReturn Written afterCreditSale)
      = Json salesReturn
      /\ getReturnItemsByReturnId (SalesReturn.id salesReturn)
           (snd (postSalesReturns acmeReturn Written afterCreditSale))
         = (Fulfilled items,
            snd (postSalesReturns acmeReturn Written afterCreditSale))
      /\ map returnItemLine items
         = map requestLine (ReturnForm.items acmeReturn).
Proof.
  assert (Hs : returnFormSchema acmeReturn = true) by (vm_compute; reflexivity).
  assert (Hget : map_get (ReturnForm.invoiceId acmeReturn)
                   (salesInvoices afterCreditSale)
                 = Some (saleInvoice acmeCreditSale newMemStorage))
    by (vm_compute; reflexivity).
  split; [exact Reachable_afterCreditSale|]. split; [exact Hs|].
  split; [exact Hget|].
  destruct (return_items_listed acmeReturn Written afterCreditSale
              (saleInvoice acmeCreditSale newMemStorage)
              Reachable_afterCreditSale Hs Hget)
    as (r & items & E1 & E2 & E3 & _).
  exists r, items. split; [exact E1|]. split; [exact E2|exact E3].
Defined.

(** Three items at 0.1 are stored with the amount
    0.30000000000000004. *)
Example three_at_a_dime :
  let body := SalesForm.mk "INV-010" "Acme" "2025-01-27" "cash"
                [Item.mk "Shim" 3 0.1 0.05] in
  map salesItemLine
    (map_values (salesItems (snd (postSales body Written newMemStorage))))
  = [("Shim", 3, 0.1, 0.05, 0.30000000000000004)].
Proof. vm_compute. reflexivity. Qed.

(** ** The groups of the journal page *)

Lemma groupOf_push (k key : string) (e : JournalEntry.t)
  (groups : list (string * list JournalEntry.t)) :
  groupOf k (pushToGroup key e groups)
  = if String.eqb k key then (groupOf k groups ++ [e])%list
    else groupOf k groups.
Proof.
  unfold groupOf.
  induction groups as [|[k0 es0] groups IH]; cbn [pushToGroup find fst snd].
  - rewrite (String.eqb_sym key k). now destruct (String.eqb k key).
  - destruct (String.eqb_spec k0 key) as [->|Hne]; cbn [find fst snd].
    + rewrite (String.eqb_sym key k). now destruct (String.eqb k key).
    + destruct (String.eqb_spec k0 k) as [->|Hk].
      * destruct (String.eqb_spec k key); [congruence|reflexivity].
      * exact IH.
Qed.

Lemma keys_push (key : string) (e : JournalEntry.t)
  (groups : list (string * list JournalEntry.t)) :
  NoDup (map fst groups) ->
  NoDup (map fst (pushToGroup key e groups))
  /\ forall k, In k (map fst (pushToGroup key e groups))
               -> k = key \/ In k (map fst groups).
Proof.
  induction groups as [|[k0 es0] groups IH]; cbn [pushToGroup map fst];
    intros Hnd.
  - split; [repeat constructor; intros []|].
    intros k [->|[]]. now left.
  - inversion Hnd as [|? ? Hk0 Hrest]; subst.
    destruct (String.eqb_spec k0 key) as [->|Hne]; cbn [map fst].
    + split; [exact Hnd|]. intros k Hin. now right.
    + destruct (IH Hrest) as [Hnd' Hin'].
      split.
      * constructor; [|exact Hnd'].
        intros Hin. destruct (Hin' k0 Hin) as [->|Hin0]; auto.
      * intros k [->|Hin]; [right; now left|].
        destruct (Hin' k Hin) as [->|Hin0]; [now left|right; now right].
Qed.

Lemma push_Permutation (key : string) (e : JournalEntry.t)
  (groups : list (string * list JournalEntry.t)) :
  Permutation (List.concat (map snd (pushToGroup key e groups)))
    (e :: List.concat (map snd groups)).
Proof.
  induction groups as [|[k0 es0] groups IH];
    cbn [pushToGroup map snd List.concat]; [reflexivity|].
  destruct (String.eqb k0 key); cbn [map snd List.concat].
  - rewrite <- app_assoc. cbn [app].
    now rewrite <- Permutation_middle.
  - rewrite IH. now rewrite <- Permutation_middle.
Qed.

Lemma groups_from (key : JournalEntry.t -> string)
  (entries : list JournalEntry.t) :
  forall acc,
    NoDup (map fst acc) ->
    let groups :=
      fold_left (fun groups e => pushToGroup (key e) e groups) entries acc in
    NoDup (map fst groups)
    /\ (forall k,
           groupOf k groups
           = (groupOf k acc
              ++ filter (fun e => String.eqb k (key e)) entries)%list)
    /\ Permutation (List.concat (map snd groups))
         (List.concat (map snd acc) ++ entries)%list.
Proof.
  induction entries as [|e entries IH]; intros acc Hnd; cbn [fold_left].
  - split; [exact Hnd|]. split.
    + intros k. cbn [filter]. now rewrite app_nil_r.
    + now rewrite app_nil_r.
  - destruct (IH (pushToGroup (key e) e acc)
                (proj1 (keys_push (key e) e acc Hnd))) as (N & G & P).
    split; [exact N|]. split.
    + intros k. rewrite G, groupOf_push. cbn [filter].
      destruct (String.eqb k (key e)); [|reflexivity].
      now rewrite <- app_assoc.
    + rewrite P, push_Permutation. cbn [app].
      now rewrite <- Permutation_middle.
Qed.

Lemma groupOf_member (groups : list (string * list JournalEntry.t))
  (group : string * list JournalEntry.t) :
  NoDup (map fst groups) -> In group groups ->
  groupOf (fst group) groups = snd group.
Proof.
  unfold groupOf.
  induction groups as [|[k0 es0] groups IH]; cbn [map fst find];
    intros Hnd Hin; [destruct Hin|]. destruct Hin as [<-|Hin].
  - cbn [fst snd]. now rewrite String.eqb_refl.
  - inversion Hnd as [|? ? Hk0 Hrest]; subst.
    destruct (String.eqb_spec k0 (fst group)) as [->|_].
    + exfalso. apply Hk0. now apply in_map.
    + now apply IH.
Qed.

Lemma Permutation_concat {A : Type} (l l' : list (list A)) :
  Permutation l l' -> Permutation (List.concat l) (List.concat l').
Proof.
  induction 1 as [|x l l' _ IH|x y l|l l' l'' _ IH1 _ IH2];
    cbn [List.concat].
  - reflexivity.
  - now rewrite IH.
  - rewrite !app_assoc. apply Permutation_app_tail, Permutation_app_comm.
  - now rewrite IH1.
Qed.

Lemma concat_sorted_groups (sort : Sort) (cmp : JournalEntry.t -> JournalEntry.t -> number)
  (groups : list (string * list JournalEntry.t)) :
  permutes sort ->
  Permutation
    (List.concat
       (map snd (map (fun group => (fst group, sort _ cmp (snd group)))
                   groups)))
    (List.concat (map snd groups)).
Proof.
  intros Hsort.
  induction groups as [|g groups IH]; cbn [map List.concat snd];
    [reflexivity|].
  rewrite IH. apply Permutation_app_tail. symmetry. apply Hsort.
Qed.

Lemma push_nonempty (key : string) (e : JournalEntry.t)
  (groups : list (string * list JournalEntry.t)) :
  Forall (fun group => snd group <> []) groups ->
  Forall (fun group => snd group <> []) (pushToGroup key e groups).
Proof.
  induction 1 as [|[k0 es0] groups H0 Hrest IH]; cbn [pushToGroup].
  - repeat constructor. discriminate.
  - destruct (String.eqb k0 key).
    + constructor; [|assumption]. cbn [snd]. now destruct es0.
    + constructor; assumption.
Qed.

Lemma groups_nonempty (key : JournalEntry.t -> string)
  (entries : list JournalEntry.t) :
  forall acc,
    Forall (fun group => snd group <> []) acc ->
    Forall (fun group => snd group <> [])
      (fold_left (fun groups e => pushToGroup (key e) e groups) entries acc).
Proof.
  induction entries as [|e entries IH]; intros acc H; cbn [fold_left].
  - exact H.
  - apply IH. now apply push_nonempty.
Qed.

(** X14.  The journal page, whatever entries it is given, however dates
    are read and formatted, and whatever the library sort does beyond
    permuting, shows every entry in exactly one group: the groups taken
    together hold the entries given, each as often as it was given; no
    two groups have the same key; no group is empty; and the entries of a
    group are those whose reference and formatted date make up its key. *)
Theorem journal_page_groups_every_entry (sort : Sort)
  (formatDate : Date -> string) (getTime : Date -> number)
  (entries : list JournalEntry.t) :
  permutes sort ->
  let groups := groupedEntries sort formatDate getTime entries in
  Permutation (List.concat (map snd groups)) entries
  /\ NoDup (map fst groups)
  /\ Forall
       (fun group =>
          snd group <> []
          /\ Forall (fun e => groupKey formatDate e = fst group) (snd group))
       groups.
Proof.
  intros Hsort groups. subst groups. unfold groupedEntries.
  destruct (groups_from (groupKey formatDate) entries [] (NoDup_nil _))
    as (N & G & P).
  pose proof (groups_nonempty (groupKey formatDate) entries []
                (Forall_nil _)) as NE.
  set (groups0 := fold_left
                    (fun groups e => pushToGroup (groupKey formatDate e) e
                                       groups) entries []) in *.
  set (byDebit := fun a b : JournalEntry.t =>
                    parseFloat (JournalEntry.debitAmount b)
                    - parseFloat (JournalEntry.debitAmount a)).
  set (groups1 := map (fun group => (fst group, sort _ byDebit (snd group)))
                    groups0).
  pose proof (Hsort _ (fun a b => firstTime getTime b - firstTime getTime a)
                groups1) as HP.
  split; [|split].
  - rewrite <- (Permutation_concat _ _ (Permutation_map snd HP)).
    unfold groups1. rewrite (concat_sorted_groups sort byDebit groups0 Hsort).
    rewrite P. reflexivity.
  - apply (Permutation_NoDup (Permutation_map fst HP)).
    unfold groups1. rewrite map_map. cbn [fst]. exact N.
  - apply (Permutation_Forall HP). unfold groups1.
    apply Forall_map. apply Forall_forall. intros group Hin. cbn [fst snd].
    pose proof (Hsort _ byDebit (snd group)) as Hg.
    split.
    + rewrite Forall_forall in NE. specialize (NE group Hin).
      intros E. rewrite E in Hg. apply Permutation_sym, Permutation_nil in Hg.
      contradiction.
    + apply (Permutation_Forall Hg).
      rewrite <- (groupOf_member groups0 group N Hin), G.
      cbn [groupOf find app].
      apply Forall_forall. intros e He. apply filter_In in He as [_ He].
      apply String.eqb_eq in He. now symmetry.
Qed.

Lemma journal_page_groups_every_entry_witness :
  permutes insertionSort
  /\ NoDup
       (map fst
          (groupedEntries insertionSort (fun date => date) (fun _ => 0)
             (map_values (journalEntries afterCreditSale)))).
Proof.
  split; [exact insertionSort_permutes|].
  exact (proj1 (proj2 (journal_page_groups_every_entry insertionSort
                         (fun date => date) (fun _ => 0)
                         (map_values (journalEntries afterCreditSale))
                         insertionSort_permutes))).
Defined.

(** Two cash sales under the same invoice number and date, of 1 and of
    1e16: each transaction is balanced, the page files their eight lines
    in one group, and with a stable sort that group is marked
    unbalanced. *)
Example balanced_sales_flagged_together :
  let sale p :=
    Sale (SalesForm.mk "INV-011" "Acme" "2025-01-28" "cash"
            [Item.mk "Ingot" 1 p 1]) in
  let s1 := snd (submit (sale 1) Written newMemStorage) in
  let s2 := snd (submit (sale 1e16) Written s1) in
  showsUnbalanced (entriesOf 1 s2) = false
  /\ showsUnbalanced (entriesOf 2 s2) = false
  /\ map (fun group => (List.length (snd group), showsUnbalanced (snd group)))
       (groupedEntries insertionSort (fun date => date) (fun _ => 0)
          (map_values (journalEntries s2)))
     = [(8%nat, true)].
Proof. vm_compute. repeat split; reflexivity. Qed.

(** ** The journal by account *)

Lemma debit_line_ok (k : Z) (t : option Z) (code name : string)
  (a : number) (date : Date) (reference description : string) :
  In code postedCodes -> notNegative a = true ->
  line_ok
    (JournalEntry.mk k t None code name (toString a) (toString 0) date
       reference description).
Proof.
  intros Hin Ha. unfold line_ok.
  cbn [JournalEntry.accountCode JournalEntry.debitAmount
       JournalEntry.creditAmount].
  rewrite (stored_notNegative a Ha).
  split; [exact Hin|]. split; [right; reflexivity|].
  split; [exact Ha | reflexivity].
Qed.

Lemma credit_line_ok (k : Z) (t : option Z) (code name : string)
  (a : number) (date : Date) (reference description : string) :
  In code postedCodes -> notNegative a = true ->
  line_ok
    (JournalEntry.mk k t None code name (toString 0) (toString a) date
       reference description).
Proof.
  intros Hin Ha. unfold line_ok.
  cbn [JournalEntry.accountCode JournalEntry.debitAmount
       JournalEntry.creditAmount].
  rewrite (stored_notNegative a Ha).
  split; [exact Hin|]. split; [left; reflexivity|].
  split; [reflexivity | exact Ha].
Qed.

(** The lines of a batch, one by one. *)
Ltac lines_ok :=
  repeat first
    [ apply Forall_nil
    | apply Forall_cons
    | apply debit_line_ok; [cbn [In postedCodes]; auto 10 | assumption]
    | apply credit_line_ok; [cbn [In postedCodes]; auto 10 | assumption] ].

Lemma Reachable_lines (s : MemStorage) :
  Reachable s -> Forall line_ok (map_values (journalEntries s)).
Proof.
  revert s. apply Reachable_by_route.
  - constructor.
  - intros s body b Hr HL Hs Ha.
    pose proof (sumAmount_notNegative _ (salesForm_items body Hs)) as HA.
    pose proof (sumCOGS_notNegative _ (salesForm_items body Hs)) as HC.
    unfold storeAfterSale, afterSale. cbn [journalEntries].
    rewrite (appended_entries s (saleEntries body s) (Reachable_Inv s Hr)
               eq_refl).
    apply Forall_app. split; [exact HL|].
    unfold saleEntries.
    destruct (String.eqb (SalesForm.paymentMethod body) "cash"); lines_ok.
  - intros s body b invoice Hr HL Hs Hget Hgt Ha.
    pose proof (positive_notNegative _ Hs) as HA.
    unfold afterCollection. cbn [journalEntries].
    rewrite (appended_entries s (collectionEntries body s invoice)
               (Reachable_Inv s Hr) eq_refl).
    apply Forall_app. split; [exact HL|].
    unfold collectionEntries. lines_ok.
  - intros s body b invoice Hr HL Hs Hget Ha.
    pose proof (sumAmount_notNegative _ (returnForm_items body Hs)) as HA.
    pose proof (sumCOGS_notNegative _ (returnForm_items body Hs)) as HC.
    unfold storeAfterReturn, afterReturn. cbn [journalEntries].
    rewrite (appended_entries s (returnEntries body s invoice)
               (Reachable_Inv s Hr) eq_refl).
    apply Forall_app. split; [exact HL|].
    unfold returnEntries.
    destruct (String.eqb (SalesInvoice.paymentMethod invoice) "cash");
      lines_ok.
Qed.

(** X15.  In every reachable store every journal line is on one of six
    accounts, Cash, Accounts Receivable, Inventory, Sales Revenue, Sales
    Returns and Cost of Goods Sold, so that Share Capital and Accounts
    Payable are never posted to; every line is a debit or a credit, the
    other amount being 0, and no amount is negative or NaN. *)
Theorem journal_lines_on_six_accounts (s : MemStorage) :
  Reachable s ->
  Forall
    (fun e =>
       In (JournalEntry.accountCode e)
         ["1001"; "1002"; "1003"; "4001"; "4002"; "5001"]
       /\ JournalEntry.accountCode e <> "3001"
       /\ JournalEntry.accountCode e <> "2001"
       /\ (parseFloat (JournalEntry.debitAmount e) = 0
           \/ parseFloat (JournalEntry.creditAmount e) = 0)
       /\ notNegative (parseFloat (JournalEntry.debitAmount e)) = true
       /\ notNegative (parseFloat (JournalEntry.creditAmount e)) = true)
    (map_values (journalEntries s)).
Proof.
  intros Hr. eapply Forall_impl; [|exact (Reachable_lines s Hr)].
  intros e (Hin & H0 & Hd & Hc).
  split; [exact Hin|].
  split; [intros E; rewrite E in Hin; cbn in Hin;
          repeat destruct Hin as [Hin|Hin]; discriminate || contradiction|].
  split; [intros E; rewrite E in Hin; cbn in Hin;
          repeat destruct Hin as [Hin|Hin]; discriminate || contradiction|].
  auto.
Qed.

Lemma journal_lines_on_six_accounts_witness :
  Reachable afterCreditSale
  /\ Forall
       (fun e => JournalEntry.accountCode e <> "3001")
       (map_values (journalEntries afterCreditSale)).
Proof.
  split; [exact Reachable_afterCreditSale|].
  eapply Forall_impl;
    [|exact (journal_lines_on_six_accounts afterCreditSale
               Reachable_afterCreditSale)].
  intros e H. exact (proj1 (proj2 H)).
Defined.

(** X16.  In every reachable store an invoice whose status is paid takes
    no further collection: whatever the amount, a collection request
    that names it is answered with code 400 and changes nothing. *)
Theorem paid_invoice_takes_no_collection (body : CollectionForm.t)
  (w : WriteFile) (s : MemStorage) (invoice : SalesInvoice.t) :
  Reachable s ->
  map_get (CollectionForm.invoiceId body) (salesInvoices s) = Some invoice ->
  SalesInvoice.status invoice = "paid" ->
  exists message, postCollections body w s = (Status 400 message, s).
Proof.
  intros Hr Hget Hpaid.
  destruct (Reachable_Inv s Hr) as (_ & _ & HI).
  rewrite Forall_forall in HI.
  destruct (HI invoice (map_get_In _ _ _ Hget)) as (paid & _ & _ & Hst).
  assert (H0 : SalesInvoice.outstandingAmount invoice = toString 0).
  { destruct Hst as [[_ H]|[(H & _)|[H _]]]; [exact H| |];
      rewrite Hpaid in H; discriminate H. }
  destruct (collectionFormSchema body) eqn:Hs.
  - exists "Collection amount exceeds outstanding balance".
    apply (postCollections_exceeds body w s invoice Hs Hget).
    rewrite H0. exact Hs.
  - exists zodError. now apply postCollections_rejected.
Qed.

Lemma paid_invoice_takes_no_collection_witness :
  Reachable (snd (submit (Sale acmeCashSale) Written newMemStorage))
  /\ map_get (CollectionForm.invoiceId acmePartialCollection)
       (salesInvoices
          (snd (submit (Sale acmeCashSale) Written newMemStorage)))
     = Some (saleInvoice acmeCashSale newMemStorage)
  /\ SalesInvoice.status (saleInvoice acmeCashSale newMemStorage) = "paid"
  /\ exists message,
      postCollections acmePartialCollection Written
        (snd (submit (Sale acmeCashSale) Written newMemStorage))
      = (Status 400 message,
         snd (submit (Sale acmeCashSale) Written newMemStorage)).
Proof.
  assert (Hr : Reachable
                 (snd (submit (Sale acmeCashSale) Written newMemStorage)))
    by apply Reachable_submit, Reachable_new.
  assert (Hget : map_get (CollectionForm.invoiceId acmePartialCollection)
                   (salesInvoices
                      (snd (submit (Sale acmeCashSale) Written
                              newMemStorage)))
                 = Some (saleInvoice acmeCashSale newMemStorage))
    by (vm_compute; reflexivity).
  assert (Hpaid : SalesInvoice.status (saleInvoice acmeCashSale newMemStorage)
                  = "paid") by (vm_compute; reflexivity).
  split; [exact Hr|]. split; [exact Hget|]. split; [exact Hpaid|].
  exact (paid_invoice_takes_no_collection acmePartialCollection Written _ _
           Hr Hget Hpaid).
Defined.

(** ** Invoices with their items, returns with their items *)

Lemma promiseAllMap_reads {A B : Type} (f : A -> M B)
  (g : MemStorage -> A -> B) (xs : list A) (s : MemStorage) :
  (forall x, f x s = (Fulfilled (g s x), s)) ->
  promiseAllMap f xs s = (Fulfilled (map (g s) xs), s).
Proof.
  intros Hf. induction xs as [|x xs IH]; cbn [promiseAllMap map];
    [reflexivity|].
  unfold bind at 1. rewrite Hf. unfold bind at 1. now rewrite IH.
Qed.

Lemma concat_map_app {A B : Type} (a b : A -> list B) (xs : list A) :
  Permutation (List.concat (map (fun x => a x ++ b x)%list xs))
    (List.concat (map a xs) ++ List.concat (map b xs))%list.
Proof.
  induction xs as [|x xs IH]; cbn [map List.concat]; [reflexivity|].
  rewrite IH, <- !app_assoc. apply Permutation_app_head.
  rewrite !app_assoc. apply Permutation_app_tail, Permutation_app_comm.
Qed.

Lemma one_parent {P C : Type} (pid : P -> Z) (k : Z) (c : C)
  (parents : list P) :
  NoDup (map pid parents) ->
  List.concat (map (fun p => if (k =? pid p)%Z then [c] else []) parents)
  = if existsb (fun p => (k =? pid p)%Z) parents then [c] else [].
Proof.
  induction parents as [|p parents IH]; cbn [map List.concat existsb];
    [reflexivity|].
  intros Hnd. inversion Hnd as [|? ? Hp Hrest]; subst.
  rewrite (IH Hrest).
  destruct (Z.eqb_spec k (pid p)) as [->|_]; cbn [orb app]; [|reflexivity].
  destruct (existsb (fun q => (pid p =? pid q)%Z) parents) eqn:E;
    [|reflexivity].
  exfalso. apply Hp. apply existsb_exists in E as (q & Hq & Hk).
  apply Z.eqb_eq in Hk. rewrite Hk. now apply in_map.
Qed.

Lemma children_by_parent {P C : Type} (pid : P -> Z) (ref : C -> option Z)
  (parents : list P) (children : list C) :
  NoDup (map pid parents) ->
  Forall (fun c => exists k, ref c = Some k /\ In k (map pid parents))
    children ->
  Permutation
    (List.concat
       (map (fun p => filter (fun c => isId (pid p) (ref c)) children)
          parents))
    children.
Proof.
  intros Hnd. induction 1 as [|c cs (k & Hk & Hin) _ IH].
  - cbn [filter]. induction parents as [|p parents IHp]; [reflexivity|].
    inversion Hnd; subst. cbn [map List.concat app]. now apply IHp.
  - cbn [filter]. rewrite Hk. cbn [isId].
    assert (E : map (fun p => if (k =? pid p)%Z
                              then c :: filter (fun c => isId (pid p) (ref c))
                                          cs
                              else filter (fun c => isId (pid p) (ref c)) cs)
                  parents
                = map (fun p => (if (k =? pid p)%Z then [c] else [])
                                ++ filter (fun c => isId (pid p) (ref c)) cs)%list
                    parents).
    { apply map_ext. intros p. now destruct (k =? pid p)%Z. }
    rewrite E, concat_map_app, (one_parent pid k c parents Hnd), IH.
    assert (Ex : existsb (fun p => (k =? pid p)%Z) parents = true).
    { apply in_map_iff in Hin as (p & Hp & Hin).
      apply existsb_exists. exists p. split; [exact Hin|].
      rewrite Hp. apply Z.eqb_refl. }
    now rewrite Ex.
Qed.

Lemma NoDup_idsFrom (n : nat) : forall k, NoDup (idsFrom k n).
Proof.
  induction n as [|n IH]; intros k; cbn [idsFrom]; constructor; [|apply IH].
  intros Hin.
  assert (H : Forall (fun j => (k + 1 <= j)%Z) (idsFrom (k + 1) n)).
  { clear. revert k. induction n as [|n IH]; intros k; cbn [idsFrom];
      constructor; [lia|].
    eapply Forall_impl; [|apply IH]. cbn. intros; lia. }
  rewrite Forall_forall in H. specialize (H k Hin). lia.
Qed.

Lemma table_ok_ids {V : Type} (id : V -> Z) (T : JsMap V) (c : Z) :
  table_ok id T c ->
  map id (map_values T) = map_keys T /\ NoDup (map id (map_values T)).
Proof.
  intros (Hk & _ & Hid).
  assert (E : map id (map_values T) = map_keys T).
  { unfold map_values, map_keys. rewrite map_map.
    apply map_ext_Forall. exact Hid. }
  split; [exact E|]. rewrite E, Hk. apply NoDup_idsFrom.
Qed.

Lemma refersTo_stored {V : Type} (id : V -> Z) (T : JsMap V) (c : Z)
  (x : option Z) :
  table_ok id T c -> refersTo T x ->
  exists k, x = Some k /\ In k (map id (map_values T)).
Proof.
  intros HT (k & v & -> & Hget). exists k. split; [reflexivity|].
  rewrite <- (table_ok_id id T c k v HT Hget).
  apply in_map. now apply (map_get_In k).
Qed.

(** X17.  On every reachable store, however dates are read and whatever
    the library sort does beyond permuting, the routes that list the
    sales invoices and the sales returns answer, leave the store as it
    is, and show every invoice (return) once, with the items that name
    it; over the whole answer every sales item (return item) of the store
    is shown exactly once. *)
Theorem listings_show_every_item_once (sort : Sort)
  (getTime : Date -> number) (s : MemStorage) :
  permutes sort ->
  Reachable s ->
  (exists rows,
      getSalesInvoicesRoute sort getTime s = (Json rows, s)
      /\ Permutation (map_values (salesInvoices s)) (map fst rows)
      /\ Forall
           (fun row =>
              snd row
              = filter
                  (fun item =>
                     isId (SalesInvoice.id (fst row))
                       (SalesItem.invoiceId item))
                  (map_values (salesItems s)))
           rows
      /\ Permutation (List.concat (map snd rows))
           (map_values (salesItems s)))
  /\ (exists rows,
         getSalesReturnsRoute sort getTime s = (Json rows, s)
         /\ Permutation (map_values (salesReturns s)) (map fst rows)
         /\ Forall
              (fun row =>
                 snd row
                 = filter
                     (fun item =>
                        isId (SalesReturn.id (fst row))
                          (ReturnItem.returnId item))
                     (map_values (returnItems s)))
              rows
         /\ Permutation (List.concat (map snd rows))
              (map_values (returnItems s))).
Proof.
  intros Hsort Hr.
  destruct (Reachable_Tables s Hr) as (_ & _ & _ & Ti & _ & _ & Tr & _).
  destruct (Reachable_Linked s Hr) as (_ & Li & _ & _ & Lri).
  split.
  - set (invoices :=
           sort _
             (fun a b =>
                getTime (SalesInvoice.date b) - getTime (SalesInvoice.date a))
             (map_values (salesInvoices s))).
    set (withItems := fun (s : MemStorage) (invoice : SalesInvoice.t) =>
                        (invoice,
                         filter
                           (fun item =>
                              isId (SalesInvoice.id invoice)
                                (SalesItem.invoiceId item))
                           (map_values (salesItems s)))).
    assert (HP : Permutation (map_values (salesInvoices s)) invoices)
      by apply Hsort.
    exists (map (withItems s) invoices).
    split; [|split; [|split]].
    + unfold getSalesInvoicesRoute, tryCatchWith.
      unfold bind at 1, getSalesInvoices at 1. unfold bind at 1.
      fold invoices.
      now rewrite (promiseAllMap_reads _ withItems invoices s
                     (fun x => eq_refl)).
    + rewrite map_map. cbn [withItems fst]. now rewrite map_id.
    + apply Forall_map. apply Forall_forall. intros invoice _. reflexivity.
    + rewrite map_map. cbn [withItems snd].
      apply (children_by_parent SalesInvoice.id SalesItem.invoiceId).
      * apply (Permutation_NoDup (Permutation_map SalesInvoice.id HP)).
        exact (proj2 (table_ok_ids _ _ _ Ti)).
      * eapply Forall_impl; [|exact Li]. intros item Href.
        destruct (refersTo_stored _ _ _ _ Ti Href) as (k & Hk & Hin).
        exists k. split; [exact Hk|].
        exact (Permutation_in _ (Permutation_map SalesInvoice.id HP) Hin).
  - set (returns :=
           sort _
             (fun a b =>
                getTime (SalesReturn.date b) - getTime (SalesReturn.date a))
             (map_values (salesReturns s))).
    set (withItems := fun (s : MemStorage) (returnItem : SalesReturn.t) =>
                        (returnItem,
                         filter
                           (fun item =>
                              isId (SalesReturn.id returnItem)
                                (ReturnItem.returnId item))
                           (map_values (returnItems s)))).
    assert (HP : Permutation (map_values (salesReturns s)) returns)
      by apply Hsort.
    exists (map (withItems s) returns).
    split; [|split; [|split]].
    + unfold getSalesReturnsRoute, tryCatchWith.
      unfold bind at 1, getSalesReturns at 1. unfold bind at 1.
      fold returns.
      now rewrite (promiseAllMap_reads _ withItems returns s
                     (fun x => eq_refl)).
    + rewrite map_map. cbn [withItems fst]. now rewrite map_id.
    + apply Forall_map. apply Forall_forall. intros r _. reflexivity.
    + rewrite map_map. cbn [withItems snd].
      apply (children_by_parent SalesReturn.id ReturnItem.returnId).
      * apply (Permutation_NoDup (Permutation_map SalesReturn.id HP)).
        exact (proj2 (table_ok_ids _ _ _ Tr)).
      * eapply Forall_impl; [|exact Lri]. intros item Href.
        destruct (refersTo_stored _ _ _ _ Tr Href) as (k & Hk & Hin).
        exists k. split; [exact Hk|].
        exact (Permutation_in _ (Permutation_map SalesReturn.id HP) Hin).
Qed.

Lemma listings_show_every_item_once_witness :
  permutes insertionSort
  /\ Reachable afterCreditSale
  /\ exists rows,
      getSalesInvoicesRoute insertionSort (fun _ => 0) afterCreditSale
      = (Json rows, afterCreditSale)
      /\ Permutation (List.concat (map snd rows))
           (map_values (salesItems afterCreditSale)).
Proof.
  split; [exact insertionSort_permutes|].
  split; [exact Reachable_afterCreditSale|].
  destruct (proj1 (listings_show_every_item_once insertionSort (fun _ => 0)
                     afterCreditSale insertionSort_permutes
                     Reachable_afterCreditSale))
    as (rows & E & _ & _ & H).
  exists rows. split; [exact E|exact H].
Defined.

(** ** Transactions and their journal lines *)

Lemma table_ok_ids_below {V : Type} (id : V -> Z) (T : JsMap V) (c : Z) :
  table_ok id T c -> Forall (fun v => (id v < c)%Z) (map_values T).
Proof.
  intros HT. pose proof (table_ok_below id T c HT) as Hb.
  destruct HT as (_ & _ & Hid). unfold map_values, map_keys in *.
  rewrite Forall_map in Hb |- *.
  rewrite Forall_forall in Hb, Hid |- *. intros kv Hin.
  rewrite (Hid kv Hin). now apply Hb.
Qed.

Lemma Posted_step (s s' : MemStorage) (t : Transaction.t)
  (es : list JournalEntry.t) :
  Inv s -> Tables s ->
  map JournalEntry.id es
  = idsFrom (currentJournalEntryId s) (List.length es) ->
  journalEntries s' = set_entries es (journalEntries s) ->
  transactions s'
  = map_set (currentTransactionId s) t (transactions s) ->
  Transaction.id t = currentTransactionId s ->
  Forall
    (fun e =>
       JournalEntry.transactionId e
       = orNull (Some (currentTransactionId s))) es ->
  transactionLines t es ->
  Posted s -> Posted s'.
Proof.
  intros HInv HT Hids EJ ET Hid Htag Hnew HP.
  pose proof (appended_entries s es HInv Hids) as EA.
  destruct HInv as (_ & HJ & _).
  destruct HT as (_ & Tt & _).
  pose proof (table_ok_ids_below _ _ _ Tt) as Hbelow.
  destruct (table_ok_put Transaction.id _ _ (currentTransactionId s + 1)%Z t
              Tt Hid eq_refl) as [EP _].
  assert (Htid : (0 < currentTransactionId s)%Z) by (destruct HJ; tauto).
  assert (EV : map_values
                 (transactions s ++ [(currentTransactionId s, t)])%list
               = (map_values (transactions s) ++ [t])%list)
    by (unfold map_values; now rewrite map_app).
  unfold Posted, entriesOf in *. rewrite ET, EP, EJ, EA, EV.
  apply Forall_app. split.
  - rewrite Forall_forall in HP, Hbelow |- *. intros t0 Hin.
    rewrite filter_app, (filter_batch _ (Transaction.id t0) es Htag).
    cbn [orNull]. specialize (Hbelow t0 Hin).
    destruct (Z.eqb_spec (currentTransactionId s) 0); [lia|].
    destruct (Z.eqb_spec (currentTransactionId s) (Transaction.id t0));
      [lia|].
    rewrite app_nil_r. now apply HP.
  - constructor; [|constructor]. rewrite Hid.
    pose proof (entries_of_new_transaction _ _ _ es HJ Htag) as EN.
    unfold map_values in EN at 1. rewrite map_app in EN.
    fold (map_values (journalEntries s)) in EN.
    fold (map_values (map (fun e => (JournalEntry.id e, e)) es)) in EN.
    rewrite map_values_entries in EN. now rewrite EN.
Qed.

Lemma Reachable_Posted (s : MemStorage) : Reachable s -> Posted s.
Proof.
  apply Reachable_by_route; clear s.
  - constructor.
  - intros s body b Hr HP Hs Ha.
    apply (Posted_step s _ (saleTransaction body s) (saleEntries body s)
             (Reachable_Inv s Hr) (Reachable_Tables s Hr));
      try reflexivity; [repeat constructor| |exact HP].
    split; [left; split; reflexivity|].
    split; [repeat constructor|]. eexists _, _. split; reflexivity.
  - intros s body b invoice Hr HP Hs Hget Hgt Ha.
    apply (Posted_step s _ (collectionTransaction body s invoice)
             (collectionEntries body s invoice)
             (Reachable_Inv s Hr) (Reachable_Tables s Hr));
      try reflexivity; [repeat constructor| |exact HP].
    split; [right; left; split; reflexivity|].
    split; [repeat constructor|]. eexists _, _. split; reflexivity.
  - intros s body b invoice Hr HP Hs Hget Ha.
    apply (Posted_step s _ (returnTransaction body s invoice)
             (returnEntries body s invoice)
             (Reachable_Inv s Hr) (Reachable_Tables s Hr));
      try reflexivity; [repeat constructor| |exact HP].
    split; [right; right; split; reflexivity|].
    split; [repeat constructor|]. eexists _, _. split; reflexivity.
Qed.

(** X18.  In every reachable store every transaction has its journal
    lines: a sale and a return have four lines tagged with their id, a
    collection has two, there is no other type of transaction, the lines
    carry the reference and the date of the transaction, and the first
    of them debits the total amount of the transaction. *)
Theorem transactions_have_their_lines (s : MemStorage) (t : Transaction.t) :
  Reachable s ->
  In t (map_values (transactions s)) ->
  transactionLines t (entriesOf (Transaction.id t) s).
Proof.
  intros Hr Hin. pose proof (Reachable_Posted s Hr) as HP.
  unfold Posted in HP. rewrite Forall_forall in HP. now apply HP.
Qed.

Lemma transactions_have_their_lines_witness :
  Reachable afterCreditSale
  /\ In (saleTransaction acmeCreditSale newMemStorage)
       (map_values (transactions afterCreditSale))
  /\ transactionLines (saleTransaction acmeCreditSale newMemStorage)
       (entriesOf
          (Transaction.id (saleTransaction acmeCreditSale newMemStorage))
          afterCreditSale).
Proof.
  assert (Hin : In (saleTransaction acmeCreditSale newMemStorage)
                  (map_values (transactions afterCreditSale)))
    by (vm_compute; left; reflexivity).
  split; [exact Reachable_afterCreditSale|]. split; [exact Hin|].
  exact (transactions_have_their_lines afterCreditSale
           (saleTransaction acmeCreditSale newMemStorage)
           Reachable_afterCreditSale Hin).
Defined.

(** ** What a request leaves in place *)

Lemma submit_by_route (P : MemStorage -> MemStorage -> Prop) :
  (forall s, P s s) ->
  (forall s body b,
      Reachable s -> salesFormSchema body = true ->
      accounts s = chart b -> P s (storeAfterSale body s b)) ->
  (forall s body b invoice,
      Reachable s -> collectionFormSchema body = true ->
      map_get (CollectionForm.invoiceId body) (salesInvoices s)
      = Some invoice ->
      gt (CollectionForm.amount body)
         (parseFloat (SalesInvoice.outstandingAmount invoice)) = false ->
      accounts s = chart b -> P s (afterCollection body s b invoice)) ->
  (forall s body b invoice,
      Reachable s -> returnFormSchema body = true ->
      map_get (ReturnForm.invoiceId body) (salesInvoices s) = Some invoice ->
      accounts s = chart b -> P s (storeAfterReturn body s b invoice)) ->
  forall s e w, Reachable s -> P s (snd (submit e w s)).
Proof.
  intros Hsame Hsale Hcollect Hreturn s e w Hr.
  destruct (Reachable_Inv s Hr) as ((b & Ha) & _).
  destruct e as [body|body|body]; cbn [submit].
  - destruct (salesFormSchema body) eqn:Hs.
    + rewrite (postSales_store body w s b Hs Ha). cbn [snd]. now apply Hsale.
    + rewrite (postSales_rejected body w s Hs). apply Hsame.
  - destruct (collectionFormSchema body) eqn:Hs.
    2: rewrite (postCollections_rejected body w s Hs); apply Hsame.
    destruct (map_get (CollectionForm.invoiceId body) (salesInvoices s))
      as [invoice|] eqn:Hget.
    2: rewrite (postCollections_not_found body w s Hs Hget); apply Hsame.
    destruct (gt (CollectionForm.amount body)
                (parseFloat (SalesInvoice.outstandingAmount invoice)))
      eqn:Hgt.
    1: rewrite (postCollections_exceeds body w s invoice Hs Hget Hgt);
       apply Hsame.
    rewrite (postCollections_run body w s b invoice Hs Hget Hgt Ha).
    cbn [snd]. now apply Hcollect.
  - destruct (returnFormSchema body) eqn:Hs.
    2: rewrite (postSalesReturns_rejected body w s Hs); apply Hsame.
    destruct (map_get (ReturnForm.invoiceId body) (salesInvoices s))
      as [invoice|] eqn:Hget.
    2: rewrite (postSalesReturns_not_found body w s Hs Hget); apply Hsame.
    rewrite (postSalesReturns_store body w s b invoice Hs Hget Ha).
    cbn [snd]. now apply Hreturn.
Qed.

Lemma extends_refl {A : Type} (l : list A) : extends l l.
Proof. exists []. now rewrite app_nil_r. Qed.

Lemma extends_map {A B : Type} (f : A -> B) (old new : list A) :
  extends old new -> extends (map f old) (map f new).
Proof. intros (added & ->). exists (map f added). apply map_app. Qed.

Lemma heads_update (k : Z) (old new : SalesInvoice.t)
  (T : JsMap SalesInvoice.t) :
  map_get k T = Some old -> invoiceHead new = invoiceHead old ->
  map (fun kv => (fst kv, invoiceHead (snd kv))) (map_set k new T)
  = map (fun kv => (fst kv, invoiceHead (snd kv))) T.
Proof.
  intros Hget Hhead.
  induction T as [|[k' v'] T IH]; cbn [map_get map_set map fst snd] in *;
    [discriminate|].
  destruct (Z.eqb_spec k k') as [->|_]; cbn [map fst snd].
  - injection Hget as ->. now rewrite Hhead.
  - now rewrite IH.
Qed.

Lemma Keeps_refl (s : MemStorage) : Keeps s s.
Proof. repeat split; apply extends_refl. Qed.

Ltac extended :=
  match goal with
  | |- extends ?T ?T => apply extends_refl
  | H : table_ok ?id ?T ?c |- extends ?T (map_set ?c ?v ?T) =>
      eexists;
      exact (proj1 (table_ok_put id T c (c + 1)%Z v H eq_refl eq_refl))
  | H : table_ok ?id ?T ?c |- extends ?T (set_entries ?es ?T) =>
      eexists; change (set_entries es T) with (set_rows id es T);
      exact (proj1 (table_ok_rows id T c _ es H eq_refl eq_refl))
  end.

(** X19.  A request to a reachable store, accepted or not, and whether
    the write to the file succeeds or not, only adds to
    the tables: the transactions, journal entries, sales items,
    collections, sales returns and return items there were stay as they
    are and where they are, new rows come after them; the invoices there
    were keep their place, id, number, customer, date, payment method
    and total amount; and the account table keeps its eight keys. *)
Theorem requests_only_add (s : MemStorage) (e : Event) (w : WriteFile) :
  Reachable s -> Keeps s (snd (submit e w s)).
Proof.
  revert s e w. apply submit_by_route.
  - exact Keeps_refl.
  - intros s body b Hr Hs Ha.
    destruct (Reachable_Tables s Hr) as (_ & Tt & Tj & Ti & Tsi & _).
    unfold Keeps, storeAfterSale, afterSale.
    cbn [accounts transactions journalEntries salesInvoices salesItems
         collections salesReturns returnItems].
    split; [now rewrite Ha|].
    split; [extended|]. split; [extended|].
    split; [apply extends_map; extended|].
    split; [|repeat split; apply extends_refl].
    eexists.
    refine (proj1 (table_ok_rows SalesItem.id _ _ _ (saleItems body s) Tsi
                     _ eq_refl)).
    unfold saleItems. rewrite stampWith_length. now apply stampWith_ids.
  - intros s body b invoice Hr Hs Hget Hgt Ha.
    destruct (Reachable_Tables s Hr) as (_ & Tt & Tj & _ & _ & Tc & _).
    unfold Keeps, afterCollection.
    cbn [accounts transactions journalEntries salesInvoices salesItems
         collections salesReturns returnItems].
    split; [now rewrite Ha|].
    split; [extended|]. split; [extended|].
    split.
    { rewrite (heads_update _ invoice (collectedInvoice body invoice) _
                 Hget eq_refl).
      apply extends_refl. }
    split; [apply extends_refl|]. split; [extended|].
    split; apply extends_refl.
  - intros s body b invoice Hr Hs Hget Ha.
    destruct (Reachable_Tables s Hr)
      as (_ & Tt & Tj & _ & _ & _ & Tr & Tri).
    unfold Keeps, storeAfterReturn, afterReturn.
    cbn [accounts transactions journalEntries salesInvoices salesItems
         collections salesReturns returnItems].
    split; [now rewrite Ha|].
    split; [extended|]. split; [extended|].
    split; [apply extends_refl|]. split; [apply extends_refl|].
    split; [apply extends_refl|]. split; [extended|].
    eexists.
    refine (proj1 (table_ok_rows ReturnItem.id _ _ _ (returnedItems body s)
                     Tri _ eq_refl)).
    unfold returnedItems. rewrite stampWith_length. now apply stampWith_ids.
Qed.

Lemma requests_only_add_witness :
  Reachable afterCreditSale
  /\ Keeps afterCreditSale
       (snd (submit (Collect acmePartialCollection) Written afterCreditSale)).
Proof.
  split; [exact Reachable_afterCreditSale|].
  exact (requests_only_add afterCreditSale (Collect acmePartialCollection)
           Written Reachable_afterCreditSale).
Defined.

(** ** The balance test of the utilities and the warning of the page *)

Lemma sub_diag_infinite (x : number) : isFinite x = false -> x - x = nan.
Proof.
  unfold isFinite. intros H. apply Prim2SF_inj.
  rewrite FloatAxioms.sub_spec. unfold SF64sub.
  destruct (Prim2SF x) as [[]|[]| |s m e]; try discriminate; reflexivity.
Qed.

(** X20.  The balance test of the utilities and the warning of the
    journal page are not each other's negation: totals that the page
    marks as unbalanced never pass validateJournalEntry, and totals that
    pass are never marked, but there are totals that neither pass nor are
    marked, 0.01 against 0 for one, Infinity against Infinity for
    another.  The tolerance is that of doubles: 0.06 against 0.05 passes,
    their difference being 0.009999999999999995, and 100.01 against 100
    is marked, their difference being 0.010000000000005116.  For every
    transaction of a reachable store the totals of its journal lines pass
    validateJournalEntry exactly when they are finite, and are never
    marked. *)
Theorem validateJournalEntry_and_page_warning :
  (forall entries,
      showsUnbalanced entries = true ->
      validateJournalEntry (totalDebit entries) (totalCredit entries) = false)
  /\ (forall entries,
         validateJournalEntry (totalDebit entries) (totalCredit entries)
         = true ->
         showsUnbalanced entries = false)
  /\ validateJournalEntry 0.01 0 = false
  /\ gt (abs (0.01 - 0)) 0.01 = false
  /\ validateJournalEntry infinity infinity = false
  /\ gt (abs (infinity - infinity)) 0.01 = false
  /\ validateJournalEntry 0.06 0.05 = true
  /\ abs (0.06 - 0.05) = 0.009999999999999995
  /\ gt (abs (100.01 - 100)) 0.01 = true
  /\ abs (100.01 - 100) = 0.010000000000005116
  /\ (forall s t,
         Reachable s ->
         In t (map_values (transactions s)) ->
         validateJournalEntry
           (totalDebit (entriesOf (Transaction.id t) s))
           (totalCredit (entriesOf (Transaction.id t) s))
         = isFinite (totalDebit (entriesOf (Transaction.id t) s))
         /\ showsUnbalanced (entriesOf (Transaction.id t) s) = false).
Proof.
  split; [|split].
  - intros entries H. unfold showsUnbalanced in H.
    unfold validateJournalEntry. now apply lt_gt_asym.
  - intros entries H. unfold showsUnbalanced.
    unfold validateJournalEntry in H.
    destruct (gt (abs (totalDebit entries - totalCredit entries)) 0.01)
      eqn:E; [|reflexivity].
    apply lt_gt_asym in E. congruence.
  - repeat (split; [vm_compute; reflexivity|]).
    intros s t Hr _.
    destruct (Reachable_Inv s Hr) as (_ & (_ & _ & _ & Hbal) & _).
    destruct (Hbal (Transaction.id t)) as [Heq Hnan]. unfold entriesOf.
    unfold showsUnbalanced, validateJournalEntry. rewrite <- Heq.
    split; [|apply gt_abs_sub_diag].
    destruct (isFinite
                (totalDebit
                   (filter (taggedWith (Transaction.id t))
                      (map_values (journalEntries s))))) eqn:E.
    + now rewrite (sub_diag_finite _ E).
    + now rewrite (sub_diag_infinite _ E).
Qed.
